(** * SoundDeviceASIO: buffer negotiation, format unification, lifecycle

    A shallow embedding of [CASIODevice] (SoundDeviceASIO.cpp) and the
    properties of its buffer-size negotiation, sample-format selection,
    latency computation, stop/close state machine, exception handling and
    capability query. *)

From Stdlib Require Import String ZArith List Bool Lia.
From Stdlib Require Import SpecFloat.
Import ListNotations.

Local Open Scope Z_scope.

(** ** Machine integers *)

(** [ASIO::Long] is the driver ABI's 32-bit signed integer; the device stores
    [saturate_round<int32>(...)] into [m_nAsioBufferLen] without conversion.
    Arithmetic on it is written with its two's-complement wrap-around (what
    the target ABI does where C++ leaves signed overflow undefined). *)
Module Long.

Definition bits : Z := 32.
Definition modulus : Z := 2 ^ bits.
Definition min_signed : Z := - 2 ^ (bits - 1).
Definition max_signed : Z := 2 ^ (bits - 1) - 1.

Definition wrap (z : Z) : Z := (z - min_signed) mod modulus + min_signed.

Definition add (a b : Z) : Z := wrap (a + b).
Definition mul (a b : Z) : Z := wrap (a * b).

Definition in_range (z : Z) : Prop := min_signed <= z <= max_signed.

End Long.

(** [uint64], the frame counter [m_TotalFramesWritten] of the class header:
    it wraps modulo 2^64. *)
Module UInt64.

Definition modulus : Z := 2 ^ 64.
Definition wrap (z : Z) : Z := z mod modulus.
Definition add (a b : Z) : Z := wrap (a + b).

End UInt64.

(** [int64], the type of [m_StreamPositionOffset], two's complement. *)
Module Int64.

Definition modulus : Z := 2 ^ 64.
Definition min_signed : Z := - 2 ^ 63.
Definition wrap (z : Z) : Z := (z - min_signed) mod modulus + min_signed.
Definition add (a b : Z) : Z := wrap (a + b).

End Int64.

(** ** Buffer-size negotiation (InternalOpen, first half) *)

(** [ASIO::BufferSizes] as returned by [getBufferSizes()]. *)
Record BufferSizes : Type := mkBufferSizes {
  Min : Z;
  Max : Z;
  Preferred : Z;
  Granularity : Z
}.

(** [std::clamp(v, lo, hi)]. *)
Definition clamp (v lo hi : Z) : Z :=
  if v <? lo then lo else if hi <? v then hi else v.

(** [mpt::weight]: number of set bits of the value seen as unsigned 32-bit. *)
Definition weight (v : Z) : Z :=
  fold_left (fun acc i => if Z.testbit v (Z.of_nat i) then acc + 1 else acc)
            (seq 0 32) 0.

(** The three scans of [InternalOpen] share one loop shape

      for (bufSize = init; bufSize <= Max && bufSize <= bufTarget; bufSize = next bufSize)
        if (keep bufSize) m_nAsioBufferLen = bufSize;

    [scan] runs it for at most [fuel] evaluations of the loop condition and
    answers [None] when they do not suffice. *)
Fixpoint scan (fuel : nat) (next : Z -> Z) (keep : Z -> bool)
         (max bufTarget bufSize len : Z) : option Z :=
  match fuel with
  | O => None
  | S fuel' =>
      if (bufSize <=? max) && (bufSize <=? bufTarget)
      then scan fuel' next keep max bufTarget (next bufSize)
                (if keep bufSize then bufSize else len)
      else Some len
  end.

(** [bufSize *= 2] and [bufSize += Granularity] on [ASIO::Long]. *)
Definition double_step (bufSize : Z) : Z := Long.mul bufSize 2.
Definition granular_step (g bufSize : Z) : Z := Long.add bufSize g.

(** Limits make no sense. *)
Definition limits_degenerate (bs : BufferSizes) : bool :=
  (Min bs <=? 0) || (Max bs <=? 0) || (Max bs <? Min bs).

(** The ladder of [InternalOpen] that turns the requested length [target]
    ([saturate_round<int32>(Latency * Samplerate / 2.0)]) into
    [m_nAsioBufferLen]. *)
Definition negotiate (fuel : nat) (bs : BufferSizes) (target : Z) : option Z :=
  let len := target in
  if limits_degenerate bs then
    if 0 <? Preferred bs then Some (Preferred bs) else Some len
  else if Granularity bs <? -1 then
    Some (clamp len (Min bs) (Max bs))
  else if (Granularity bs =? -1)
          && (negb (weight (Min bs) =? 1) || negb (weight (Max bs) =? 1)) then
    let len := clamp len (Min bs) (Max bs) in
    let bufTarget := len in
    scan fuel double_step (fun bufSize => Min bs <=? bufSize)
         (Max bs) bufTarget 1 len
  else if Granularity bs =? -1 then
    let len := clamp len (Min bs) (Max bs) in
    let bufTarget := len in
    scan fuel double_step (fun _ => true) (Max bs) bufTarget (Min bs) len
  else if 0 <? Granularity bs then
    let len := clamp len (Min bs) (Max bs) in
    let bufTarget := len in
    scan fuel (granular_step (Granularity bs)) (fun _ => true)
         (Max bs) bufTarget (Min bs) len
  else if Granularity bs =? 0 then
    if 0 <? Preferred bs then Some (Preferred bs)
    else if Max bs <=? len then Some (Max bs)
    else Some (Min bs)
  else Some len.

(** The scan never leaves the range of [ASIO::Long] on these inputs. *)
Definition scan_fits (bs : BufferSizes) (target : Z) : Prop :=
  limits_degenerate bs = false ->
  (Granularity bs = -1 ->
     2 * clamp target (Min bs) (Max bs) <= Long.max_signed) /\
  (0 < Granularity bs ->
     clamp target (Min bs) (Max bs) + Granularity bs <= Long.max_signed).


(** ** IEEE binary64 ([double]) *)

Module Double.

Definition prec : Z := 53.
Definition emax : Z := 1024.
Definition t : Type := spec_float.

(** [static_cast<double>(z)] for an integer [z]. *)
Definition of_Z (z : Z) : t := binary_normalize prec emax z 0 false.

Definition mul : t -> t -> t := SFmul prec emax.
Definition div : t -> t -> t := SFdiv prec emax.
Definition add : t -> t -> t := SFadd prec emax.
Definition sub : t -> t -> t := SFsub prec emax.
Definition leb : t -> t -> bool := SFleb.
Definition ltb : t -> t -> bool := SFltb.

Definition zero : t := S754_zero false.
Definition one : t := of_Z 1.
Definition two : t := of_Z 2.

(** [std::round]: nearest integer, halfway cases away from zero; [None] for
    infinities and NaN. *)
Definition round (x : t) : option Z :=
  match x with
  | S754_zero _ => Some 0
  | S754_finite s m e =>
      let mag :=
        if 0 <=? e then Z.pos m * 2 ^ e
        else let d := 2 ^ (- e) in
             if d <=? 2 * (Z.pos m mod d) then Z.pos m / d + 1 else Z.pos m / d in
      Some (if s then - mag else mag)
  | S754_infinity _ | S754_nan => None
  end.

(** Modelled from the spec: [mpt::saturate_round<T>] is defined outside the
    given sources; the spec writes the target length as
    [round(latencySeconds * sampleRate / 2)] stored in a 32-bit integer.
    The value is rounded and saturated to [[lo, hi]], the range of [T]; for
    NaN, whose conversion C++ leaves undefined, the model answers 0. *)
Definition saturate_round (lo hi : Z) (x : t) : Z :=
  match x with
  | S754_nan => 0
  | S754_infinity s => if s then lo else hi
  | _ => match round x with
         | Some z => if hi <=? z then hi else if z <=? lo then lo else z
         | None => 0
         end
  end.

Definition saturate_round_int32 : t -> Z :=
  saturate_round Long.min_signed Long.max_signed.
Definition saturate_round_uint32 : t -> Z :=
  saturate_round 0 (2 ^ 32 - 1).

End Double.

(** [AsioSampleRateTolerance = 0.05], the binary64 number nearest to 0.05. *)
Definition AsioSampleRateTolerance : Double.t :=
  S754_finite false 7205759403792794 (-57).

(** ** Data model *)

(** The five unified representations and the other values of
    [SampleFormat] that the [else] branches of the source stand for. *)
Inductive SampleFormat : Type :=
| SampleFormatInt16
| SampleFormatInt24
| SampleFormatInt32
| SampleFormatFloat32
| SampleFormatFloat64
| SampleFormatUnsigned8
| SampleFormatInvalid.

(** One working vector per representation; [m_SampleBufferDouble] is
    [bufDouble (m_SampleBuffer d)], [m_SampleInputBufferInt16] is
    [bufInt16 (m_SampleInputBuffer d)], and so on.  A sample is kept as the
    integer that encodes it (the bit pattern for floating-point samples), so
    that the value-initialised element of [resize] is 0. *)
Record SampleBuffers : Type := mkSampleBuffers {
  bufDouble : list Z;
  bufFloat : list Z;
  bufInt16 : list Z;
  bufInt24 : list Z;
  bufInt32 : list Z
}.

Definition no_buffers : SampleBuffers := mkSampleBuffers [] [] [] [] [].

Definition set_bufDouble (v : list Z) (b : SampleBuffers) : SampleBuffers :=
  mkSampleBuffers v (bufFloat b) (bufInt16 b) (bufInt24 b) (bufInt32 b).
Definition set_bufFloat (v : list Z) (b : SampleBuffers) : SampleBuffers :=
  mkSampleBuffers (bufDouble b) v (bufInt16 b) (bufInt24 b) (bufInt32 b).
Definition set_bufInt16 (v : list Z) (b : SampleBuffers) : SampleBuffers :=
  mkSampleBuffers (bufDouble b) (bufFloat b) v (bufInt24 b) (bufInt32 b).
Definition set_bufInt24 (v : list Z) (b : SampleBuffers) : SampleBuffers :=
  mkSampleBuffers (bufDouble b) (bufFloat b) (bufInt16 b) v (bufInt32 b).
Definition set_bufInt32 (v : list Z) (b : SampleBuffers) : SampleBuffers :=
  mkSampleBuffers (bufDouble b) (bufFloat b) (bufInt16 b) (bufInt24 b) v.

(** The vector a representation works on; other formats have none. *)
Definition buffer_of (f : SampleFormat) (b : SampleBuffers) : list Z :=
  match f with
  | SampleFormatFloat64 => bufDouble b
  | SampleFormatFloat32 => bufFloat b
  | SampleFormatInt16 => bufInt16 b
  | SampleFormatInt24 => bufInt24 b
  | SampleFormatInt32 => bufInt32 b
  | _ => []
  end.

Definition set_buffer_of (f : SampleFormat) (v : list Z) (b : SampleBuffers)
  : SampleBuffers :=
  match f with
  | SampleFormatFloat64 => set_bufDouble v b
  | SampleFormatFloat32 => set_bufFloat v b
  | SampleFormatInt16 => set_bufInt16 v b
  | SampleFormatInt24 => set_bufInt24 v b
  | SampleFormatInt32 => set_bufInt32 v b
  | _ => b
  end.

Definition unified_formats : list SampleFormat :=
  [SampleFormatInt16; SampleFormatInt24; SampleFormatInt32;
   SampleFormatFloat32; SampleFormatFloat64].

(** A hardware sample type, given by what [ASIO::Sample::Traits] answers for
    it (the table itself belongs to the driver interface library). *)
Record SampleTraits : Type := mkSampleTraits {
  is_float : bool;
  is_be : bool;
  size_bytes : Z;
  valid_bits : Z
}.

(** [ASIO::ChannelInfo]. *)
Record ChannelInfo : Type := mkChannelInfo {
  isActive : bool;
  channelGroup : Z;
  type : SampleTraits;
  name : string
}.

Definition default_ChannelInfo : ChannelInfo :=
  mkChannelInfo false 0 (mkSampleTraits false false 0 0) EmptyString.

(** [ASIO::BufferInfo]; the two driver-owned halves are addresses, 0 for
    [nullptr]. *)
Record BufferInfo : Type := mkBufferInfo {
  isInput : bool;
  channelNum : Z;
  buffers : Z * Z
}.

Record Channels : Type := mkChannels { Input : Z; Output : Z }.
Record Latencies : Type := mkLatencies { LatencyInput : Z; LatencyOutput : Z }.

(** Modelled from the spec: [SoundDevice::ChannelMapping] is defined
    outside the given sources; the spec speaks of requested channel counts
    with a device-channel mapping and of a mapping that exceeds the
    available channels.  A mapping gives the host channel count, the device
    channel of each host channel ([ToDevice]) and the number of device
    channels it needs ([GetRequiredDeviceChannels]). *)
Record ChannelMapping : Type := mkChannelMapping {
  NumHostChannels : nat;
  ToDevice : nat -> Z;
  RequiredDeviceChannels : Z
}.

(** Modelled from the spec: [GetRequiredDeviceChannels] of a mapping of
    [channels] host channels: none for the empty mapping, and otherwise one
    more than the largest device channel mapped to, channel 0 at least. *)
Definition required_device_channels (channels : nat) (toDevice : nat -> Z) : Z :=
  match channels with
  | O => 0
  | S _ => fold_left Z.max (map toDevice (seq 0 channels)) 0 + 1
  end.

(** Modelled from the spec: [ChannelMapping::BaseChannel(channels,
    baseChannel)], the mapping of [channels] host channels to consecutive
    device channels from [baseChannel]; [ToDevice] is asked for the host
    channels of the mapping only. *)
Definition BaseChannel (channels : nat) (baseChannel : Z) : ChannelMapping :=
  let toDevice := fun i : nat => baseChannel + Z.of_nat i in
  mkChannelMapping channels toDevice (required_device_channels channels toDevice).

(** [SoundDevice::Settings], the fields the device reads. *)
Record Settings : Type := mkSettings {
  Samplerate : Z;
  Latency : Double.t;
  OutputChannels : ChannelMapping;   (* [m_Settings.Channels] *)
  InputChannels : nat;
  InputSourceID : Z;
  UseHardwareTiming : bool;
  KeepDeviceRunning : bool;
  sampleFormat : SampleFormat
}.

Definition set_sampleFormat (f : SampleFormat) (s : Settings) : Settings :=
  mkSettings (Samplerate s) (Latency s) (OutputChannels s) (InputChannels s)
             (InputSourceID s) (UseHardwareTiming s) (KeepDeviceRunning s) f.

Definition NumChannels (s : Settings) : nat := NumHostChannels (OutputChannels s).
Definition GetTotalChannels (s : Settings) : nat :=
  (InputChannels s + NumChannels s)%nat.

(** *** Exceptions *)

(** What a call into the driver, or the code around it, can raise. *)
Inductive Exn : Type :=
| DriverCrash (func : string)   (* ASIO::Windows::SEH::DriverCrash *)
| BadAlloc                      (* std::bad_alloc *)
| DriverLoadFailed              (* ASIO::Windows::DriverLoadFailed *)
| DriverInitFailed              (* ASIO::Windows::DriverInitFailed *)
| AsioError                     (* ASIO::Error *)
| ASIOException (what : string) (* the device's own std::runtime_error *)
| StdException                  (* any other std::exception *)
| UnknownException              (* anything else *)
| OutOfMemory.                  (* raised by MPT_EXCEPTION_THROW_OUT_OF_MEMORY *)

(** Out-of-memory exceptions: [std::bad_alloc] and the canonical fault the
    handler raises for it, which is an out-of-memory exception itself. *)
Definition is_out_of_memory (e : Exn) : bool :=
  match e with
  | BadAlloc | OutOfMemory => true
  | _ => false
  end.

(** The answer of one driver call. *)
Inductive Reply (A : Type) : Type :=
| Gives (a : A)
| Raises (e : Exn).
Arguments Gives {A} a.
Arguments Raises {A} e.

(** *** Observable events *)

Inductive DriverCall : Type :=
| CallCreateDispatcher | CallConstruct | CallDestroy
| CallGetDriverName | CallGetDriverVersion | CallGetErrorMessage
| CallGetChannels | CallSetSampleRate (rate : Z) | CallGetSampleRate
| CallCanSampleRate (rate : Z) | CallGetBufferSizes
| CallCreateBuffers (bufferSize : Z) | CallDisposeBuffers
| CallGetChannelInfo (channel : Z) (input : bool)
| CallCanOutputReady | CallOutputReady | CallGetLatencies
| CallStart | CallStop | CallControlPanel.

Inductive LogLevel : Type := LogError | LogInformation | LogDebug.

(** Driver calls, log lines, device messages, the process taint and the
    notifications to the audio source, most recent first. *)
Inductive Event : Type :=
| Called (c : DriverCall)
| Logged (level : LogLevel) (func : string) (what : string)
| DeviceMessage (level : LogLevel) (what : string)
| TaintProcess
| SourceReadPrepare (frames : Z)
| SourceRead (frames : Z)
| SourceReadDone.

(** [AsioFeature] bits, in the order [AsioFeaturesToString] lists them. *)
Module AsioFeature.
Definition ResetRequest : Z := 1.
Definition ResyncRequest : Z := 2.
Definition BufferSizeChange : Z := 4.
Definition Overload : Z := 8.
Definition SampleRateChange : Z := 16.
Definition DeferredProcess : Z := 32.
End AsioFeature.

(** Modelled from the spec: [SoundDevice::Base::RequestClose] is defined
    outside the given sources; it records that the device be closed, as a
    bit of the pending-request flags that the control thread drains. *)
Definition RequestFlagClose : Z := 1.


(** *** The device *)

(** [CASIODevice]: the settings, the members [InitMembers] lists, the flags
    of the base class that the device writes, and the journal of events. *)
Record Device : Type := mkDevice {
  m_Settings : Settings;
  m_Driver : bool;
  m_DeferredBufferSwitchDispatcher : bool;
  m_BufferLatency : Double.t;
  m_nAsioBufferLen : Z;
  m_BufferInfo : list BufferInfo;
  m_BuffersCreated : bool;
  m_ChannelInfo : list ChannelInfo;
  m_SampleBuffer : SampleBuffers;
  m_SampleInputBuffer : SampleBuffers;
  m_CanOutputReady : bool;
  m_DeviceRunning : bool;
  m_TotalFramesWritten : Z;
  m_DeferredProcessing : bool;
  m_BufferIndex : Z;
  m_RenderSilence : bool;
  m_RenderingSilence : bool;
  m_StreamPositionOffset : Z;
  m_AsioRequest : Z;
  m_UsedFeatures : Z;
  m_DeviceUnavailableOnOpen : bool;
  m_RequestFlags : Z;
  journal : list Event
}.

Definition set_m_Settings (v : Settings) (d : Device) : Device :=
  mkDevice v (m_Driver d) (m_DeferredBufferSwitchDispatcher d)
    (m_BufferLatency d) (m_nAsioBufferLen d) (m_BufferInfo d)
    (m_BuffersCreated d) (m_ChannelInfo d) (m_SampleBuffer d)
    (m_SampleInputBuffer d) (m_CanOutputReady d) (m_DeviceRunning d)
    (m_TotalFramesWritten d) (m_DeferredProcessing d) (m_BufferIndex d)
    (m_RenderSilence d) (m_RenderingSilence d) (m_StreamPositionOffset d)
    (m_AsioRequest d) (m_UsedFeatures d) (m_DeviceUnavailableOnOpen d)
    (m_RequestFlags d) (journal d).

Definition set_m_Driver (v : bool) (d : Device) : Device :=
  mkDevice (m_Settings d) v (m_DeferredBufferSwitchDispatcher d)
    (m_BufferLatency d) (m_nAsioBufferLen d) (m_BufferInfo d)
    (m_BuffersCreated d) (m_ChannelInfo d) (m_SampleBuffer d)
    (m_SampleInputBuffer d) (m_CanOutputReady d) (m_DeviceRunning d)
    (m_TotalFramesWritten d) (m_DeferredProcessing d) (m_BufferIndex d)
    (m_RenderSilence d) (m_RenderingSilence d) (m_StreamPositionOffset d)
    (m_AsioRequest d) (m_UsedFeatures d) (m_DeviceUnavailableOnOpen d)
    (m_RequestFlags d) (journal d).

Definition set_m_DeferredBufferSwitchDispatcher (v : bool) (d : Device) : Device :=
  mkDevice (m_Settings d) (m_Driver d) v (m_BufferLatency d)
    (m_nAsioBufferLen d) (m_BufferInfo d) (m_BuffersCreated d) (m_ChannelInfo
    d) (m_SampleBuffer d) (m_SampleInputBuffer d) (m_CanOutputReady d)
    (m_DeviceRunning d) (m_TotalFramesWritten d) (m_DeferredProcessing d)
    (m_BufferIndex d) (m_RenderSilence d) (m_RenderingSilence d)
    (m_StreamPositionOffset d) (m_AsioRequest d) (m_UsedFeatures d)
    (m_DeviceUnavailableOnOpen d) (m_RequestFlags d) (journal d).

Definition set_m_BufferLatency (v : Double.t) (d : Device) : Device :=
  mkDevice (m_Settings d) (m_Driver d) (m_DeferredBufferSwitchDispatcher d)
    v (m_nAsioBufferLen d) (m_BufferInfo d) (m_BuffersCreated d)
    (m_ChannelInfo d) (m_SampleBuffer d) (m_SampleInputBuffer d)
    (m_CanOutputReady d) (m_DeviceRunning d) (m_TotalFramesWritten d)
    (m_DeferredProcessing d) (m_BufferIndex d) (m_RenderSilence d)
    (m_RenderingSilence d) (m_StreamPositionOffset d) (m_AsioRequest d)
    (m_UsedFeatures d) (m_DeviceUnavailableOnOpen d) (m_RequestFlags d)
    (journal d).

Definition set_m_nAsioBufferLen (v : Z) (d : Device) : Device :=
  mkDevice (m_Settings d) (m_Driver d) (m_DeferredBufferSwitchDispatcher d)
    (m_BufferLatency d) v (m_BufferInfo d) (m_BuffersCreated d) (m_ChannelInfo
    d) (m_SampleBuffer d) (m_SampleInputBuffer d) (m_CanOutputReady d)
    (m_DeviceRunning d) (m_TotalFramesWritten d) (m_DeferredProcessing d)
    (m_BufferIndex d) (m_RenderSilence d) (m_RenderingSilence d)
    (m_StreamPositionOffset d) (m_AsioRequest d) (m_UsedFeatures d)
    (m_DeviceUnavailableOnOpen d) (m_RequestFlags d) (journal d).

Definition set_m_BufferInfo (v : list BufferInfo) (d : Device) : Device :=
  mkDevice (m_Settings d) (m_Driver d) (m_DeferredBufferSwitchDispatcher d)
    (m_BufferLatency d) (m_nAsioBufferLen d) v (m_BuffersCreated d)
    (m_ChannelInfo d) (m_SampleBuffer d) (m_SampleInputBuffer d)
    (m_CanOutputReady d) (m_DeviceRunning d) (m_TotalFramesWritten d)
    (m_DeferredProcessing d) (m_BufferIndex d) (m_RenderSilence d)
    (m_RenderingSilence d) (m_StreamPositionOffset d) (m_AsioRequest d)
    (m_UsedFeatures d) (m_DeviceUnavailableOnOpen d) (m_RequestFlags d)
    (journal d).

Definition set_m_BuffersCreated (v : bool) (d : Device) : Device :=
  mkDevice (m_Settings d) (m_Driver d) (m_DeferredBufferSwitchDispatcher d)
    (m_BufferLatency d) (m_nAsioBufferLen d) (m_BufferInfo d) v (m_ChannelInfo
    d) (m_SampleBuffer d) (m_SampleInputBuffer d) (m_CanOutputReady d)
    (m_DeviceRunning d) (m_TotalFramesWritten d) (m_DeferredProcessing d)
    (m_BufferIndex d) (m_RenderSilence d) (m_RenderingSilence d)
    (m_StreamPositionOffset d) (m_AsioRequest d) (m_UsedFeatures d)
    (m_DeviceUnavailableOnOpen d) (m_RequestFlags d) (journal d).

Definition set_m_ChannelInfo (v : list ChannelInfo) (d : Device) : Device :=
  mkDevice (m_Settings d) (m_Driver d) (m_DeferredBufferSwitchDispatcher d)
    (m_BufferLatency d) (m_nAsioBufferLen d) (m_BufferInfo d)
    (m_BuffersCreated d) v (m_SampleBuffer d) (m_SampleInputBuffer d)
    (m_CanOutputReady d) (m_DeviceRunning d) (m_TotalFramesWritten d)
    (m_DeferredProcessing d) (m_BufferIndex d) (m_RenderSilence d)
    (m_RenderingSilence d) (m_StreamPositionOffset d) (m_AsioRequest d)
    (m_UsedFeatures d) (m_DeviceUnavailableOnOpen d) (m_RequestFlags d)
    (journal d).

Definition set_m_SampleBuffer (v : SampleBuffers) (d : Device) : Device :=
  mkDevice (m_Settings d) (m_Driver d) (m_DeferredBufferSwitchDispatcher d)
    (m_BufferLatency d) (m_nAsioBufferLen d) (m_BufferInfo d)
    (m_BuffersCreated d) (m_ChannelInfo d) v (m_SampleInputBuffer d)
    (m_CanOutputReady d) (m_DeviceRunning d) (m_TotalFramesWritten d)
    (m_DeferredProcessing d) (m_BufferIndex d) (m_RenderSilence d)
    (m_RenderingSilence d) (m_StreamPositionOffset d) (m_AsioRequest d)
    (m_UsedFeatures d) (m_DeviceUnavailableOnOpen d) (m_RequestFlags d)
    (journal d).

Definition set_m_SampleInputBuffer (v : SampleBuffers) (d : Device) : Device :=
  mkDevice (m_Settings d) (m_Driver d) (m_DeferredBufferSwitchDispatcher d)
    (m_BufferLatency d) (m_nAsioBufferLen d) (m_BufferInfo d)
    (m_BuffersCreated d) (m_ChannelInfo d) (m_SampleBuffer d) v
    (m_CanOutputReady d) (m_DeviceRunning d) (m_TotalFramesWritten d)
    (m_DeferredProcessing d) (m_BufferIndex d) (m_RenderSilence d)
    (m_RenderingSilence d) (m_StreamPositionOffset d) (m_AsioRequest d)
    (m_UsedFeatures d) (m_DeviceUnavailableOnOpen d) (m_RequestFlags d)
    (journal d).

Definition set_m_CanOutputReady (v : bool) (d : Device) : Device :=
  mkDevice (m_Settings d) (m_Driver d) (m_DeferredBufferSwitchDispatcher d)
    (m_BufferLatency d) (m_nAsioBufferLen d) (m_BufferInfo d)
    (m_BuffersCreated d) (m_ChannelInfo d) (m_SampleBuffer d)
    (m_SampleInputBuffer d) v (m_DeviceRunning d) (m_TotalFramesWritten d)
    (m_DeferredProcessing d) (m_BufferIndex d) (m_RenderSilence d)
    (m_RenderingSilence d) (m_StreamPositionOffset d) (m_AsioRequest d)
    (m_UsedFeatures d) (m_DeviceUnavailableOnOpen d) (m_RequestFlags d)
    (journal d).

Definition set_m_DeviceRunning (v : bool) (d : Device) : Device :=
  mkDevice (m_Settings d) (m_Driver d) (m_DeferredBufferSwitchDispatcher d)
    (m_BufferLatency d) (m_nAsioBufferLen d) (m_BufferInfo d)
    (m_BuffersCreated d) (m_ChannelInfo d) (m_SampleBuffer d)
    (m_SampleInputBuffer d) (m_CanOutputReady d) v (m_TotalFramesWritten d)
    (m_DeferredProcessing d) (m_BufferIndex d) (m_RenderSilence d)
    (m_RenderingSilence d) (m_StreamPositionOffset d) (m_AsioRequest d)
    (m_UsedFeatures d) (m_DeviceUnavailableOnOpen d) (m_RequestFlags d)
    (journal d).

Definition set_m_TotalFramesWritten (v : Z) (d : Device) : Device :=
  mkDevice (m_Settings d) (m_Driver d) (m_DeferredBufferSwitchDispatcher d)
    (m_BufferLatency d) (m_nAsioBufferLen d) (m_BufferInfo d)
    (m_BuffersCreated d) (m_ChannelInfo d) (m_SampleBuffer d)
    (m_SampleInputBuffer d) (m_CanOutputReady d) (m_DeviceRunning d) v
    (m_DeferredProcessing d) (m_BufferIndex d) (m_RenderSilence d)
    (m_RenderingSilence d) (m_StreamPositionOffset d) (m_AsioRequest d)
    (m_UsedFeatures d) (m_DeviceUnavailableOnOpen d) (m_RequestFlags d)
    (journal d).

Definition set_m_BufferIndex (v : Z) (d : Device) : Device :=
  mkDevice (m_Settings d) (m_Driver d) (m_DeferredBufferSwitchDispatcher d)
    (m_BufferLatency d) (m_nAsioBufferLen d) (m_BufferInfo d)
    (m_BuffersCreated d) (m_ChannelInfo d) (m_SampleBuffer d)
    (m_SampleInputBuffer d) (m_CanOutputReady d) (m_DeviceRunning d)
    (m_TotalFramesWritten d) (m_DeferredProcessing d) v (m_RenderSilence d)
    (m_RenderingSilence d) (m_StreamPositionOffset d) (m_AsioRequest d)
    (m_UsedFeatures d) (m_DeviceUnavailableOnOpen d) (m_RequestFlags d)
    (journal d).

Definition set_m_RenderSilence (v : bool) (d : Device) : Device :=
  mkDevice (m_Settings d) (m_Driver d) (m_DeferredBufferSwitchDispatcher d)
    (m_BufferLatency d) (m_nAsioBufferLen d) (m_BufferInfo d)
    (m_BuffersCreated d) (m_ChannelInfo d) (m_SampleBuffer d)
    (m_SampleInputBuffer d) (m_CanOutputReady d) (m_DeviceRunning d)
    (m_TotalFramesWritten d) (m_DeferredProcessing d) (m_BufferIndex d) v
    (m_RenderingSilence d) (m_StreamPositionOffset d) (m_AsioRequest d)
    (m_UsedFeatures d) (m_DeviceUnavailableOnOpen d) (m_RequestFlags d)
    (journal d).

Definition set_m_RenderingSilence (v : bool) (d : Device) : Device :=
  mkDevice (m_Settings d) (m_Driver d) (m_DeferredBufferSwitchDispatcher d)
    (m_BufferLatency d) (m_nAsioBufferLen d) (m_BufferInfo d)
    (m_BuffersCreated d) (m_ChannelInfo d) (m_SampleBuffer d)
    (m_SampleInputBuffer d) (m_CanOutputReady d) (m_DeviceRunning d)
    (m_TotalFramesWritten d) (m_DeferredProcessing d) (m_BufferIndex d)
    (m_RenderSilence d) v (m_StreamPositionOffset d) (m_AsioRequest d)
    (m_UsedFeatures d) (m_DeviceUnavailableOnOpen d) (m_RequestFlags d)
    (journal d).

Definition set_m_StreamPositionOffset (v : Z) (d : Device) : Device :=
  mkDevice (m_Settings d) (m_Driver d) (m_DeferredBufferSwitchDispatcher d)
    (m_BufferLatency d) (m_nAsioBufferLen d) (m_BufferInfo d)
    (m_BuffersCreated d) (m_ChannelInfo d) (m_SampleBuffer d)
    (m_SampleInputBuffer d) (m_CanOutputReady d) (m_DeviceRunning d)
    (m_TotalFramesWritten d) (m_DeferredProcessing d) (m_BufferIndex d)
    (m_RenderSilence d) (m_RenderingSilence d) v (m_AsioRequest d)
    (m_UsedFeatures d) (m_DeviceUnavailableOnOpen d) (m_RequestFlags d)
    (journal d).

Definition set_m_UsedFeatures (v : Z) (d : Device) : Device :=
  mkDevice (m_Settings d) (m_Driver d) (m_DeferredBufferSwitchDispatcher d)
    (m_BufferLatency d) (m_nAsioBufferLen d) (m_BufferInfo d)
    (m_BuffersCreated d) (m_ChannelInfo d) (m_SampleBuffer d)
    (m_SampleInputBuffer d) (m_CanOutputReady d) (m_DeviceRunning d)
    (m_TotalFramesWritten d) (m_DeferredProcessing d) (m_BufferIndex d)
    (m_RenderSilence d) (m_RenderingSilence d) (m_StreamPositionOffset d)
    (m_AsioRequest d) v (m_DeviceUnavailableOnOpen d) (m_RequestFlags d)
    (journal d).

Definition set_m_DeviceUnavailableOnOpen (v : bool) (d : Device) : Device :=
  mkDevice (m_Settings d) (m_Driver d) (m_DeferredBufferSwitchDispatcher d)
    (m_BufferLatency d) (m_nAsioBufferLen d) (m_BufferInfo d)
    (m_BuffersCreated d) (m_ChannelInfo d) (m_SampleBuffer d)
    (m_SampleInputBuffer d) (m_CanOutputReady d) (m_DeviceRunning d)
    (m_TotalFramesWritten d) (m_DeferredProcessing d) (m_BufferIndex d)
    (m_RenderSilence d) (m_RenderingSilence d) (m_StreamPositionOffset d)
    (m_AsioRequest d) (m_UsedFeatures d) v (m_RequestFlags d) (journal d).

Definition set_m_RequestFlags (v : Z) (d : Device) : Device :=
  mkDevice (m_Settings d) (m_Driver d) (m_DeferredBufferSwitchDispatcher d)
    (m_BufferLatency d) (m_nAsioBufferLen d) (m_BufferInfo d)
    (m_BuffersCreated d) (m_ChannelInfo d) (m_SampleBuffer d)
    (m_SampleInputBuffer d) (m_CanOutputReady d) (m_DeviceRunning d)
    (m_TotalFramesWritten d) (m_DeferredProcessing d) (m_BufferIndex d)
    (m_RenderSilence d) (m_RenderingSilence d) (m_StreamPositionOffset d)
    (m_AsioRequest d) (m_UsedFeatures d) (m_DeviceUnavailableOnOpen d) v
    (journal d).

Definition set_journal (v : list Event) (d : Device) : Device :=
  mkDevice (m_Settings d) (m_Driver d) (m_DeferredBufferSwitchDispatcher d)
    (m_BufferLatency d) (m_nAsioBufferLen d) (m_BufferInfo d)
    (m_BuffersCreated d) (m_ChannelInfo d) (m_SampleBuffer d)
    (m_SampleInputBuffer d) (m_CanOutputReady d) (m_DeviceRunning d)
    (m_TotalFramesWritten d) (m_DeferredProcessing d) (m_BufferIndex d)
    (m_RenderSilence d) (m_RenderingSilence d) (m_StreamPositionOffset d)
    (m_AsioRequest d) (m_UsedFeatures d) (m_DeviceUnavailableOnOpen d)
    (m_RequestFlags d) v.

(** ** The engine *)

(** *** Computations over the device *)

(** How a member function ends. *)
Inductive Outcome (A : Type) : Type :=
| Returns (a : A) (d : Device)
| Throws (e : Exn) (d : Device)
| Aborts      (* std::terminate: an exception left a noexcept function *)
| Spins.      (* a loop did not finish within the fuel *)
Arguments Returns {A} a d.
Arguments Throws {A} e d.
Arguments Aborts {A}.
Arguments Spins {A}.

Definition M (A : Type) : Type := Device -> Outcome A.

Definition ret {A} (a : A) : M A := fun d => Returns a d.

Definition bind {A B} (m : M A) (k : A -> M B) : M B :=
  fun d =>
    match m d with
    | Returns a d' => k a d'
    | Throws e d' => Throws e d'
    | Aborts => Aborts
    | Spins => Spins
    end.

Notation "x <- m ;; k" := (bind m (fun x => k))
  (at level 61, m at next level, right associativity).
Notation "m ;; k" := (bind m (fun _ => k))
  (at level 61, right associativity).

Definition throw {A} (e : Exn) : M A := fun d => Throws e d.
Definition gets {A} (f : Device -> A) : M A := fun d => Returns (f d) d.
Definition modify (f : Device -> Device) : M unit := fun d => Returns tt (f d).

(** [try { body } catch (...) { handler }]. *)
Definition try_catch {A} (body : M A) (handler : Exn -> M A) : M A :=
  fun d =>
    match body d with
    | Throws e d' => handler e d'
    | o => o
    end.

(** A [noexcept] function. *)
Definition noexcept {A} (body : M A) : M A :=
  fun d =>
    match body d with
    | Throws _ _ => Aborts
    | o => o
    end.

(** A scope with a local object: [body], then the object's destructor on
    every way out; destructors are [noexcept]. *)
Definition scope_exit {A} (body : M A) (destructor : M unit) : M A :=
  fun d =>
    match body d with
    | Returns a d' => (noexcept destructor ;; ret a) d'
    | Throws e d' => (noexcept destructor ;; throw e) d'
    | Aborts => Aborts
    | Spins => Spins
    end.

(** [for x in l: body x], stopping at the first exception. *)
Fixpoint for_each {A} (l : list A) (body : A -> M unit) : M unit :=
  match l with
  | [] => ret tt
  | x :: l' => body x ;; for_each l' body
  end.

Definition emit (ev : Event) : M unit :=
  modify (fun d => set_journal (ev :: journal d) d).

(** *** Vectors *)

(** [v.resize(n)] with [n] converted to [size_t]: a negative [n] becomes a
    length beyond [max_size()] and raises [std::length_error]. *)
Definition vector_resize (n : Z) (v : list Z) : Reply (list Z) :=
  if n <? 0 then Raises StdException
  else Gives (firstn (Z.to_nat n) v ++ repeat 0 (Z.to_nat n - length v)).

(** Writing [src] over the front of [dst]. *)
Definition overwrite_front (src dst : list Z) : list Z :=
  firstn (length dst) src ++ skipn (length src) dst.

(** [v[i] = x]. *)
Fixpoint vector_set {A} (i : nat) (x : A) (v : list A) : list A :=
  match v, i with
  | [], _ => []
  | _ :: v', O => x :: v'
  | y :: v', S i' => y :: vector_set i' x v'
  end.

(** *** Unified sample representation (InternalOpen, second half) *)

Record FormatFlags : Type := mkFormatFlags {
  allChannelsAreInt : bool;
  allChannelsAreInt16ValidBits : bool;
  allChannelsAreNativeInt24 : bool;
  allChannelsAreFloat32 : bool
}.

Definition isFloat (t : SampleTraits) : bool := is_float t.
Definition isFloat32 (t : SampleTraits) : bool :=
  is_float t && (valid_bits t =? 32).
Definition isInt16ValidBits (t : SampleTraits) : bool :=
  negb (is_float t) && (valid_bits t =? 16).
Definition isInt24 (t : SampleTraits) : bool :=
  negb (is_float t) && (size_bytes t =? 3) && (valid_bits t =? 24).
Definition isNative (little : bool) (t : SampleTraits) : bool :=
  (little && negb (is_be t)) || (negb little && is_be t).

(** One turn of the loop over the channels. *)
Definition classify_channel (little : bool) (fl : FormatFlags) (c : ChannelInfo)
  : FormatFlags :=
  let t := type c in
  let fl := if isFloat t
            then mkFormatFlags false (allChannelsAreInt16ValidBits fl)
                   (allChannelsAreNativeInt24 fl) (allChannelsAreFloat32 fl)
            else fl in
  let fl := if negb (isInt16ValidBits t)
            then mkFormatFlags (allChannelsAreInt fl) false
                   (allChannelsAreNativeInt24 fl) (allChannelsAreFloat32 fl)
            else fl in
  let fl := if negb (isInt24 t && isNative little t)
            then mkFormatFlags (allChannelsAreInt fl)
                   (allChannelsAreInt16ValidBits fl) false
                   (allChannelsAreFloat32 fl)
            else fl in
  if negb (isFloat32 t)
  then mkFormatFlags (allChannelsAreInt fl) (allChannelsAreInt16ValidBits fl)
         (allChannelsAreNativeInt24 fl) false
  else fl.

Definition classify_channels (little : bool) (cs : list ChannelInfo)
  : FormatFlags :=
  fold_left (classify_channel little) cs (mkFormatFlags true true true true).

Definition format_of_flags (fl : FormatFlags) : SampleFormat :=
  if allChannelsAreInt16ValidBits fl then SampleFormatInt16
  else if allChannelsAreNativeInt24 fl then SampleFormatInt24
  else if allChannelsAreInt fl then SampleFormatInt32
  else if allChannelsAreFloat32 fl then SampleFormatFloat32
  else SampleFormatFloat64.

(** The priority list of the specification, each rule asking its predicate
    of every channel. *)
Definition unified_format_spec (little : bool) (cs : list ChannelInfo)
  : SampleFormat :=
  if forallb (fun c => isInt16ValidBits (type c)) cs then SampleFormatInt16
  else if forallb (fun c => isInt24 (type c) && isNative little (type c)) cs
       then SampleFormatInt24
  else if forallb (fun c => negb (isFloat (type c))) cs then SampleFormatInt32
  else if forallb (fun c => isFloat32 (type c)) cs then SampleFormatFloat32
  else SampleFormatFloat64.

(** [m_nAsioBufferLen * channels], an [int] product. *)
Definition buffer_size (len : Z) (channels : nat) : Z :=
  Long.mul len (Z.of_nat channels).

(** *** The driver and its host *)

(** What the driver, the host and the audio source answer.  Each driver
    entry either gives a value or raises. *)
Record Env : Type := mkEnv {
  host_little_endian : bool;          (* [mpt::endian_is_little()] *)
  AllowDeferredProcessing : bool;     (* [GetAppInfo()] *)
  drv_createDispatcher : Reply unit;
  drv_construct : Reply unit;
  drv_destroy : Reply unit;
  drv_getDriverName : Reply string;
  drv_getDriverVersion : Reply Z;
  drv_getErrorMessage : Reply string;
  drv_getChannels : Reply Channels;
  drv_setSampleRate : Z -> Reply unit;
  drv_getSampleRate : Reply Double.t;
  drv_canSampleRate : Z -> Reply bool;
  drv_getBufferSizes : Reply BufferSizes;
  drv_createBuffers : list BufferInfo -> Z -> Reply (list BufferInfo);
  drv_disposeBuffers : Reply unit;
  drv_getChannelInfo : Z -> bool -> Reply ChannelInfo;
  drv_canOutputReady : Reply bool;
  drv_outputReady : Reply unit;
  drv_getLatencies : Reply Latencies;
  drv_start : Reply unit;
  drv_stop : Reply unit;
  drv_controlPanel : Reply bool;
  drv_captured : nat -> Z;            (* converted input, interleaved *)
  source_rendered : nat -> Z          (* what the source writes, interleaved *)
}.

Section Engine.

Variable env : Env.

(** A call through [AsioDriver()]. *)
Definition call {A} (c : DriverCall) (r : Reply A) : M A :=
  fun d =>
    let d' := set_journal (Called c :: journal d) d in
    match r with
    | Gives a => Returns a d'
    | Raises e => Throws e d'
    end.

(** A fallible library operation that is not a driver call. *)
Definition lift {A} (r : Reply A) : M A :=
  fun d => match r with Gives a => Returns a d | Raises e => Throws e d end.

(** [m_Driver = nullptr], the assignment of a [std::unique_ptr]: it
    destroys the driver the handle owns, if any, and, being [noexcept],
    ends the process when the destruction raises. *)
Definition reset_driver : M unit :=
  open <- gets m_Driver ;;
  if open
  then noexcept (modify (set_m_Driver false) ;;
                 call CallDestroy (drv_destroy env))
  else ret tt.

(** The values [InitMembers] assigns. *)
Definition cleared (d : Device) : Device :=
  mkDevice (m_Settings d) false false Double.zero 0 [] false []
           no_buffers no_buffers false false 0 false 0 false false
           (m_StreamPositionOffset d) 0 (m_UsedFeatures d)
           (m_DeviceUnavailableOnOpen d) (m_RequestFlags d) (journal d).

Definition InitMembers : M unit :=
  modify (set_m_DeferredBufferSwitchDispatcher false) ;;
  reset_driver ;;
  modify cleared.

Definition IsDriverOpen : M bool := gets m_Driver.

(** [ExceptionHandler(func)], called from a handler whose current exception
    is [e]. *)
Definition ExceptionHandler (func : string) (e : Exn) : M unit :=
  match e with
  | DriverCrash f =>
      emit TaintProcess ;;
      emit (Logged LogError func "Driver Crash") ;;
      emit (DeviceMessage LogError "ASIO Driver Crash")
  | BadAlloc | OutOfMemory => throw OutOfMemory
  | DriverLoadFailed => emit (Logged LogDebug func "Driver Load")
  | DriverInitFailed => emit (Logged LogDebug func "Driver Init")
  | AsioError => emit (Logged LogDebug func "Error")
  | ASIOException _ | StdException => emit (Logged LogDebug func "Exception")
  | UnknownException => emit (Logged LogDebug func "Unknown Exception")
  end.

(** [CloseDriver]: giving up the driver is all the guarded block does that
    could raise, and that cannot be caught. *)
Definition CloseDriver : M unit :=
  open <- IsDriverOpen ;;
  if negb open then ret tt
  else
    try_catch
      (reset_driver ;;
       modify (set_m_DeferredBufferSwitchDispatcher false))
      (fun e => ExceptionHandler "CloseDriver" e).

Definition OpenDriver : M unit :=
  open <- IsDriverOpen ;;
  if open then ret tt
  else
    created <-
      try_catch
        ((if AllowDeferredProcessing env
          then call CallCreateDispatcher (drv_createDispatcher env) ;;
               modify (set_m_DeferredBufferSwitchDispatcher true)
          else ret tt) ;;
         call CallConstruct (drv_construct env) ;;
         modify (set_m_Driver true) ;;
         ret true)
        (fun e => ExceptionHandler "OpenDriver" e ;; ret false) ;;
    if negb created then ret tt
    else
      try_catch
        (call CallGetDriverName (drv_getDriverName env) ;;
         call CallGetDriverVersion (drv_getDriverVersion env) ;;
         call CallGetErrorMessage (drv_getErrorMessage env) ;;
         emit (Logged LogInformation "OpenDriver" "Opened driver"))
        (fun e => CloseDriver ;; ExceptionHandler "OpenDriver" e).

(** The polling of [m_RenderingSilence] that [wait] asks for only reads what
    the realtime thread writes and gives up after 250 microseconds with a
    diagnostic assertion; it changes nothing here. *)
Definition SetRenderSilence (silence : bool) (wait : bool) : M unit :=
  modify (set_m_RenderSilence silence).

Definition UpdateLatency : M unit :=
  latencies <-
    try_catch
      (call CallGetLatencies (drv_getLatencies env))
      (fun e =>
         match e with
         | AsioError => ret (mkLatencies 0 0)
         | _ => ExceptionHandler "UpdateLatency" e ;; ret (mkLatencies 0 0)
         end) ;;
  len <- gets m_nAsioBufferLen ;;
  rate <- gets (fun d => Samplerate (m_Settings d)) ;;
  if len <=? LatencyOutput latencies
  then modify (set_m_BufferLatency
                 (Double.div (Double.of_Z (Long.add (LatencyOutput latencies) len))
                             (Double.of_Z rate)))
  else modify (set_m_BufferLatency
                 (Double.div (Double.mul Double.two (Double.of_Z len))
                             (Double.of_Z rate))).

Definition InternalStart : M bool :=
  keep <- gets (fun d => KeepDeviceRunning (m_Settings d)) ;;
  running <- gets m_DeviceRunning ;;
  if keep && running
  then SetRenderSilence false true ;; ret true
  else
    SetRenderSilence false false ;;
    try_catch
      (modify (set_m_TotalFramesWritten 0) ;;
       call CallStart (drv_start env) ;;
       modify (set_m_DeviceRunning true) ;;
       ret true)
      (fun e => ExceptionHandler "InternalStart" e ;; ret false).

Definition InternalIsPlayingSilence (d : Device) : bool :=
  KeepDeviceRunning (m_Settings d) && m_DeviceRunning d && m_RenderSilence d.

Definition InternalStopImpl (force : bool) : M unit :=
  keep <- gets (fun d => KeepDeviceRunning (m_Settings d)) ;;
  if keep && negb force
  then SetRenderSilence true true
  else
    modify (set_m_DeviceRunning false) ;;
    try_catch
      (call CallStop (drv_stop env))
      (fun e => ExceptionHandler "InternalStopImpl" e) ;;
    modify (set_m_TotalFramesWritten 0) ;;
    SetRenderSilence false false.

Definition InternalStop : M unit := InternalStopImpl false.
Definition InternalStopAndAvoidPlayingSilence : M unit := InternalStopImpl true.


Definition InternalClose : M bool :=
  running <- gets m_DeviceRunning ;;
  (if running
   then
     modify (set_m_DeviceRunning false) ;;
     try_catch
       (call CallStop (drv_stop env))
       (fun e => ExceptionHandler "InternalClose" e) ;;
     modify (set_m_TotalFramesWritten 0)
   else ret tt) ;;
  SetRenderSilence false false ;;
  modify (set_m_CanOutputReady false) ;;
  modify (fun d => set_m_SampleBuffer (set_bufFloat [] (m_SampleBuffer d)) d) ;;
  modify (fun d => set_m_SampleBuffer (set_bufInt16 [] (m_SampleBuffer d)) d) ;;
  modify (fun d => set_m_SampleBuffer (set_bufInt24 [] (m_SampleBuffer d)) d) ;;
  modify (fun d => set_m_SampleBuffer (set_bufInt32 [] (m_SampleBuffer d)) d) ;;
  modify (fun d =>
            set_m_SampleInputBuffer (set_bufFloat [] (m_SampleInputBuffer d)) d) ;;
  modify (fun d =>
            set_m_SampleInputBuffer (set_bufInt16 [] (m_SampleInputBuffer d)) d) ;;
  modify (fun d =>
            set_m_SampleInputBuffer (set_bufInt24 [] (m_SampleInputBuffer d)) d) ;;
  modify (fun d =>
            set_m_SampleInputBuffer (set_bufInt32 [] (m_SampleInputBuffer d)) d) ;;
  modify (set_m_ChannelInfo []) ;;
  created <- gets m_BuffersCreated ;;
  (if created
   then
     try_catch
       (call CallDisposeBuffers (drv_disposeBuffers env))
       (fun e => ExceptionHandler "InternalClose" e) ;;
     modify (set_m_BuffersCreated false)
   else ret tt) ;;
  modify (set_m_BufferInfo []) ;;
  modify (set_m_nAsioBufferLen 0) ;;
  modify (set_m_BufferLatency Double.zero) ;;
  CloseDriver ;;
  ret true.

(** The requested length: [saturate_round<int32>(Latency * Samplerate / 2.0)]. *)
Definition requested_length (s : Settings) : Z :=
  Double.saturate_round_int32
    (Double.div (Double.mul (Latency s) (Double.of_Z (Samplerate s))) Double.two).

(** The [ASIO::BufferInfo] array handed to [createBuffers]. *)
Definition requested_buffers (s : Settings) (inputChannelMapping : ChannelMapping)
  : list BufferInfo :=
  map (fun channel =>
         if (channel <? InputChannels s)%nat
         then mkBufferInfo true (ToDevice inputChannelMapping channel) (0, 0)
         else mkBufferInfo false
                (ToDevice (OutputChannels s) (channel - InputChannels s)) (0, 0))
      (seq 0 (GetTotalChannels s)).

(** Resizing the two working vectors of representation [f]. *)
Definition allocate (f : SampleFormat) : M unit :=
  modify (fun d => set_m_Settings (set_sampleFormat f (m_Settings d)) d) ;;
  len <- gets m_nAsioBufferLen ;;
  s <- gets m_Settings ;;
  out <- gets (fun d => buffer_of f (m_SampleBuffer d)) ;;
  out' <- lift (vector_resize (buffer_size len (NumChannels s)) out) ;;
  modify (fun d => set_m_SampleBuffer (set_buffer_of f out' (m_SampleBuffer d)) d) ;;
  inp <- gets (fun d => buffer_of f (m_SampleInputBuffer d)) ;;
  inp' <- lift (vector_resize (buffer_size len (InputChannels s)) inp) ;;
  modify (fun d =>
            set_m_SampleInputBuffer (set_buffer_of f inp' (m_SampleInputBuffer d)) d).

Definition InternalOpen (fuel : nat) : M bool :=
  InitMembers ;;
  s <- gets m_Settings ;;
  let inputChannelMapping := BaseChannel (InputChannels s) (InputSourceID s) in
  opened <-
    try_catch
      (OpenDriver ;;
       open <- IsDriverOpen ;;
       (if negb open then throw (ASIOException "Initializing driver failed.")
        else ret tt) ;;
       channels <- call CallGetChannels (drv_getChannels env) ;;
       (if (Input channels <=? 0) && (Output channels <=? 0)
        then modify (set_m_DeviceUnavailableOnOpen true) ;;
             throw (ASIOException "Device unavailble.")
        else ret tt) ;;
       (if Output channels <? Z.of_nat (NumChannels s)
        then throw (ASIOException "Not enough output channels.")
        else ret tt) ;;
       (if Output channels <? RequiredDeviceChannels (OutputChannels s)
        then throw (ASIOException
                      "Channel mapping requires more channels than available.")
        else ret tt) ;;
       (if Input channels <? Z.of_nat (InputChannels s)
        then throw (ASIOException "Not enough input channels.")
        else ret tt) ;;
       (if Input channels <? RequiredDeviceChannels inputChannelMapping
        then throw (ASIOException
                      "Channel mapping requires more channels than available.")
        else ret tt) ;;
       call (CallSetSampleRate (Samplerate s))
            (drv_setSampleRate env (Samplerate s)) ;;
       bufferSizes <- call CallGetBufferSizes (drv_getBufferSizes env) ;;
       modify (set_m_nAsioBufferLen (requested_length s)) ;;
       (match negotiate fuel bufferSizes (requested_length s) with
        | Some len => modify (set_m_nAsioBufferLen len)
        | None => fun _ => Spins
        end) ;;
       len <- gets m_nAsioBufferLen ;;
       modify (set_m_BufferInfo (requested_buffers s inputChannelMapping)) ;;
       created <- call (CallCreateBuffers len)
                       (drv_createBuffers env
                          (requested_buffers s inputChannelMapping) len) ;;
       modify (set_m_BufferInfo created) ;;
       modify (set_m_BuffersCreated true) ;;
       (if existsb (fun b => (fst (buffers b) =? 0) || (snd (buffers b) =? 0))
                   created
        then throw (ASIOException "createBuffes returned nullptr.")
        else ret tt) ;;
       modify (set_m_ChannelInfo (repeat default_ChannelInfo (GetTotalChannels s))) ;;
       for_each (seq 0 (GetTotalChannels s))
         (fun channel =>
            info <-
              (if (channel <? InputChannels s)%nat
               then call (CallGetChannelInfo
                            (ToDevice inputChannelMapping channel) true)
                         (drv_getChannelInfo env
                            (ToDevice inputChannelMapping channel) true)
               else call (CallGetChannelInfo
                            (ToDevice (OutputChannels s)
                                      (channel - InputChannels s)) false)
                         (drv_getChannelInfo env
                            (ToDevice (OutputChannels s)
                                      (channel - InputChannels s)) false)) ;;
            modify (fun d =>
                      set_m_ChannelInfo
                        (vector_set channel info (m_ChannelInfo d)) d)) ;;
       infos <- gets m_ChannelInfo ;;
       allocate (format_of_flags
                   (classify_channels (host_little_endian env) infos)) ;;
       (* ClearBufferASIO zeroes the driver-owned halves, outside the model *)
       can <- call CallCanOutputReady (drv_canOutputReady env) ;;
       modify (set_m_CanOutputReady can) ;;
       modify (set_m_StreamPositionOffset len) ;;
       UpdateLatency ;;
       ret true)
      (fun e => ExceptionHandler "InternalOpen" e ;; ret false) ;;
  if opened then ret true
  else InternalClose ;; ret false.

(** *** Realtime path *)

(** [FillAsioBuffer(useSource)].  The conversions between the working
    vectors and the driver-owned halves act on driver memory; of them the
    model keeps what reaches the working vectors. *)
Definition FillAsioBuffer (useSource : bool) : M unit :=
  let rendersilence := negb useSource in
  len <- gets m_nAsioBufferLen ;;
  s <- gets m_Settings ;;
  let countChunk := Z.to_nat len in
  let inputChannels := InputChannels s in
  let outputChannels := NumChannels s in
  let f := sampleFormat s in
  (if (0 <? inputChannels)%nat
   then modify (fun d =>
          set_m_SampleInputBuffer
            (set_buffer_of f
               (overwrite_front
                  (map (drv_captured env) (seq 0 (countChunk * inputChannels)))
                  (buffer_of f (m_SampleInputBuffer d)))
               (m_SampleInputBuffer d)) d)
   else ret tt) ;;
  (if rendersilence
   then modify (fun d =>
          set_m_SampleBuffer
            (set_buffer_of f
               (overwrite_front (repeat 0 (countChunk * outputChannels))
                                (buffer_of f (m_SampleBuffer d)))
               (m_SampleBuffer d)) d)
   else
     emit (SourceReadPrepare len) ;;
     emit (SourceRead len) ;;
     modify (fun d =>
          set_m_SampleBuffer
            (set_buffer_of f
               (overwrite_front
                  (map (source_rendered env) (seq 0 (countChunk * outputChannels)))
                  (buffer_of f (m_SampleBuffer d)))
               (m_SampleBuffer d)) d)) ;;
  can <- gets m_CanOutputReady ;;
  (if can
   then try_catch
          (call CallOutputReady (drv_outputReady env))
          (fun e => ExceptionHandler "FillAsioBuffer" e)
   else ret tt) ;;
  if negb rendersilence then emit SourceReadDone else ret tt.

Definition InternalFillAudioBuffer : M unit := FillAsioBuffer true.

(** Modelled from the spec: [SoundDevice::Base::SourceFillAudioBufferLocked]
    is defined outside the given sources; under the source's lock it has the
    device fill one buffer from the source, that is, it calls
    [InternalFillAudioBuffer]. *)
Definition SourceFillAudioBufferLocked : M unit := InternalFillAudioBuffer.

Definition RealtimeBufferSwitchImpl (bufferIndex : Z) : M unit :=
  noexcept
    (modify (set_m_BufferIndex bufferIndex) ;;
     rendersilence <- gets m_RenderSilence ;;
     modify (set_m_RenderingSilence rendersilence) ;;
     (if rendersilence
      then modify (fun d =>
                     set_m_StreamPositionOffset
                       (Int64.add (m_StreamPositionOffset d) (m_nAsioBufferLen d)) d) ;;
           FillAsioBuffer false
      else SourceFillAudioBufferLocked) ;;
     modify (fun d =>
               set_m_TotalFramesWritten
                 (UInt64.add (m_TotalFramesWritten d) (m_nAsioBufferLen d)) d)).

(** With a dispatcher and deferred processing the same body runs on the
    dispatcher's thread. *)
Definition RealtimeBufferSwitch (bufferIndex : Z) : M unit :=
  noexcept (RealtimeBufferSwitchImpl bufferIndex).

(** [RealtimeSampleRateDidChange(sRate)]; it calls nothing that raises. *)
Definition within_tolerance (rate : Z) (sRate : Double.t) : bool :=
  Double.leb (Double.mul (Double.of_Z rate)
                         (Double.sub Double.one AsioSampleRateTolerance))
             sRate
  && Double.leb sRate
                (Double.mul (Double.of_Z rate)
                            (Double.add Double.one AsioSampleRateTolerance)).

Definition RequestClose (d : Device) : Device :=
  set_m_RequestFlags (Z.lor (m_RequestFlags d) RequestFlagClose) d.

Definition RealtimeSampleRateDidChange (sRate : Double.t) (d : Device) : Device :=
  if Double.saturate_round_uint32 sRate =? Samplerate (m_Settings d)
  then d
  else
    let d1 := set_m_UsedFeatures
                (Z.lor (m_UsedFeatures d) AsioFeature.SampleRateChange) d in
    if within_tolerance (Samplerate (m_Settings d1)) sRate
    then d1
    else RequestClose d1.

(** *** Capability query *)

Inductive ChannelName : Type :=
| Numbered (i : Z)            (* [mpt::ufmt::dec(i)] *)
| Reported (name : string).   (* the name the driver gave *)

Record DynamicCaps : Type := mkDynamicCaps {
  currentSampleRate : Z;
  supportedSampleRates : list Z;
  supportedExclusiveSampleRates : list Z;
  channelNames : list ChannelName;
  inputSourceNames : list (Z * ChannelName)
}.

Definition empty_caps : DynamicCaps := mkDynamicCaps 0 [] [] [] [].

(** The indices [0 .. n-1] of a [for (ASIO::Long i = 0; i < n; ++i)]. *)
Definition indices (n : Z) : list Z := map Z.of_nat (seq 0 (Z.to_nat n)).

(** Fold with a fallible step, the accumulator being the capabilities. *)
Fixpoint collect {A} (l : list A) (step : A -> DynamicCaps -> M DynamicCaps)
         (caps : DynamicCaps) : M DynamicCaps :=
  match l with
  | [] => ret caps
  | x :: l' => caps' <- step x caps ;; collect l' step caps'
  end.

Definition channel_name (i : Z) (input : bool) : M ChannelName :=
  try_catch
    (info <- call (CallGetChannelInfo i input) (drv_getChannelInfo env i input) ;;
     ret (Reported (name info)))
    (fun e => ExceptionHandler "GetDeviceDynamicCaps" e ;; ret (Numbered i)).

Definition GetDeviceDynamicCaps (baseSampleRates : list Z) : M DynamicCaps :=
  let caps := empty_caps in
  (* the TemporaryASIODriverOpener is constructed *)
  wasOpen <- IsDriverOpen ;;
  (if negb wasOpen then OpenDriver else ret tt) ;;
  scope_exit
    (open <- IsDriverOpen ;;
     if negb open
     then modify (set_m_DeviceUnavailableOnOpen true) ;; ret caps
     else
       caps <-
         try_catch
           (samplerate <- call CallGetSampleRate (drv_getSampleRate env) ;;
            if Double.ltb Double.zero samplerate
            then ret (mkDynamicCaps (Double.saturate_round_uint32 samplerate)
                        (supportedSampleRates caps)
                        (supportedExclusiveSampleRates caps)
                        (channelNames caps) (inputSourceNames caps))
            else ret caps)
           (fun e => ExceptionHandler "GetDeviceDynamicCaps" e ;; ret caps) ;;
       caps <-
         collect baseSampleRates
           (fun rate caps =>
              try_catch
                (can <- call (CallCanSampleRate rate) (drv_canSampleRate env rate) ;;
                 if can
                 then ret (mkDynamicCaps (currentSampleRate caps)
                             (supportedSampleRates caps ++ [rate])
                             (supportedExclusiveSampleRates caps ++ [rate])
                             (channelNames caps) (inputSourceNames caps))
                 else ret caps)
                (fun e => ExceptionHandler "GetDeviceDynamicCaps" e ;; ret caps))
           caps ;;
       (* an exception reaches the outer handler from [getChannels], before
          any name is pushed, or as the out-of-memory fault of
          [channel_name], which the handler raises again *)
       try_catch
         (channels <- call CallGetChannels (drv_getChannels env) ;;
          (if negb ((0 <? Input channels) || (0 <? Output channels))
           then modify (set_m_DeviceUnavailableOnOpen true)
           else ret tt) ;;
          caps <-
            collect (indices (Output channels))
              (fun i caps =>
                 n <- channel_name i false ;;
                 ret (mkDynamicCaps (currentSampleRate caps)
                        (supportedSampleRates caps)
                        (supportedExclusiveSampleRates caps)
                        (channelNames caps ++ [n]) (inputSourceNames caps)))
              caps ;;
          collect (indices (Input channels))
            (fun i caps =>
               n <- channel_name i true ;;
               ret (mkDynamicCaps (currentSampleRate caps)
                      (supportedSampleRates caps)
                      (supportedExclusiveSampleRates caps)
                      (channelNames caps) (inputSourceNames caps ++ [(i, n)])))
            caps)
         (fun e => ExceptionHandler "GetDeviceDynamicCaps" e ;; ret caps))
    (if negb wasOpen then CloseDriver else ret tt).

End Engine.

(** ** Observations used in the statements *)

(** [keeps p m]: however [m] ends, it leaves the observation [p] of the
    device as it found it. *)
Definition keeps {A B} (p : Device -> B) (m : M A) : Prop :=
  forall d,
    match m d with
    | Returns _ d' | Throws _ d' => p d' = p d
    | Aborts | Spins => True
    end.

(** [raises_only P m]: [m] returns or raises an exception that satisfies
    [P]; it neither aborts nor spins. *)
Definition raises_only {A} (P : Exn -> Prop) (m : M A) : Prop :=
  forall d,
    match m d with
    | Returns _ _ => True
    | Throws e _ => P e
    | Aborts | Spins => False
    end.

(** [lets_out P Ab Sp m]: an exception that [m] raises satisfies [P]; [m]
    ends the process only if [Ab] holds and runs out of fuel only if [Sp]
    holds. *)
Definition lets_out {A} (P : Exn -> Prop) (Ab Sp : Prop) (m : M A) : Prop :=
  forall d,
    match m d with
    | Returns _ _ => True
    | Throws e _ => P e
    | Aborts => Ab
    | Spins => Sp
    end.

(** The reply is an exception. *)
Definition raises {A} (r : Reply A) : bool :=
  match r with
  | Gives _ => false
  | Raises _ => true
  end.

(** [contained oom m]: the only exception [m] lets out is the out-of-memory
    fault, and that only if [oom] holds. *)
Definition contained {A} (oom : bool) (m : M A) : Prop :=
  raises_only (fun e => e = OutOfMemory /\ oom = true) m.

(** The reply is an out-of-memory exception. *)
Definition raises_oom {A} (r : Reply A) : bool :=
  match r with
  | Gives _ => false
  | Raises e => is_out_of_memory e
  end.

Definition is_start_stop (ev : Event) : bool :=
  match ev with
  | Called CallStart | Called CallStop => true
  | _ => false
  end.

(** How often the driver's start and stop operations were invoked. *)
Definition start_stop_calls (d : Device) : nat :=
  List.length (filter is_start_stop (journal d)).

(** What format selection and allocation decide. *)
Definition core (d : Device) :=
  (m_Settings d, m_ChannelInfo d, m_SampleBuffer d, m_SampleInputBuffer d,
   m_nAsioBufferLen d).

Definition working (d : Device) := (m_SampleBuffer d, m_SampleInputBuffer d).

(** ** Sample drivers and devices *)

Definition Int16LSB : SampleTraits := mkSampleTraits false false 2 16.
Definition Int32LSB : SampleTraits := mkSampleTraits false false 4 32.
Definition Float32LSB : SampleTraits := mkSampleTraits true false 4 32.
Definition Float64LSB : SampleTraits := mkSampleTraits true false 8 64.

(** A little-endian host and a driver with four outputs and two inputs that
    answers every call, except as the arguments say. *)
Definition sample_env (channel_type : Z -> SampleTraits)
           (construct : Reply unit) (latencies : Reply Latencies)
           (canOutputReady : Reply bool) (outputReady stop : Reply unit)
  : Env :=
  mkEnv true false (Gives tt) construct (Gives tt)
        (Gives "Sample ASIO"%string) (Gives 2) (Gives EmptyString)
        (Gives (mkChannels 2 4)) (fun _ => Gives tt)
        (Gives (Double.of_Z 44100)) (fun rate => Gives (rate <=? 96000))
        (Gives (mkBufferSizes 64 1024 256 (-1)))
        (fun infos _ =>
           Gives (map (fun b => mkBufferInfo (isInput b) (channelNum b)
                                             (4096, 8192)) infos))
        (Gives tt)
        (fun channel _ =>
           Gives (mkChannelInfo true 0 (channel_type channel) "ch"%string))
        canOutputReady outputReady latencies (Gives tt) stop (Gives true)
        (fun _ => 0) (fun _ => 0).

Definition plain_env (channel_type : Z -> SampleTraits) : Env :=
  sample_env channel_type (Gives tt) (Gives (mkLatencies 1024 1024))
             (Gives true) (Gives tt) (Gives tt).

(** 44100 Hz, a requested latency of 23 ms, [channels] outputs, no input. *)
Definition sample_settings (channels : nat) (keep : bool) : Settings :=
  mkSettings 44100 (Double.div (Double.of_Z 23) (Double.of_Z 1000))
             (BaseChannel channels 0) 0 0 false keep SampleFormatFloat32.

(** A device as constructed. *)
Definition fresh (s : Settings) : Device :=
  mkDevice s false false Double.zero 0 [] false [] no_buffers no_buffers
           false false 0 false 0 false false 0 0 0 false 0 [].

(** The device an open leaves, if it returns. *)
Definition opened (env : Env) (s : Settings) : Device :=
  match InternalOpen env 16 (fresh s) with
  | Returns _ d | Throws _ d => d
  | Aborts | Spins => fresh s
  end.

(** An opened and started device that has played some buffers. *)
Definition playing (env : Env) (s : Settings) (silence : bool) : Device :=
  set_m_RenderSilence silence
    (set_m_TotalFramesWritten 4096
       (set_m_DeviceRunning true (opened env s))).

(** The device a query's temporary open leaves when it fails without
    raising: the driver was closed, [OpenDriver] returned, and the driver
    is still closed. *)
Definition temporary_open_failed (env : Env) (d : Device) : option Device :=
  if m_Driver d then None
  else match OpenDriver env d with
       | Returns _ d1 => if m_Driver d1 then None else Some d1
       | _ => None
       end.

(** [establishes p v m]: when [m] returns, the observation [p] is [v]. *)
Definition establishes {A B} (p : Device -> B) (v : B) (m : M A) : Prop :=
  forall d,
    match m d with
    | Returns _ d' => p d' = v
    | _ => True
    end.

(** A run of buffer periods: the driver calls back once per period. *)
Definition buffer_switches (env : Env) (bufferIndices : list Z) : M unit :=
  for_each bufferIndices (RealtimeBufferSwitchImpl env).

(** ** Further members of the device *)

Definition set_m_DeferredProcessing (v : bool) (d : Device) : Device :=
  mkDevice (m_Settings d) (m_Driver d) (m_DeferredBufferSwitchDispatcher d)
    (m_BufferLatency d) (m_nAsioBufferLen d) (m_BufferInfo d)
    (m_BuffersCreated d) (m_ChannelInfo d) (m_SampleBuffer d)
    (m_SampleInputBuffer d) (m_CanOutputReady d) (m_DeviceRunning d)
    (m_TotalFramesWritten d) v (m_BufferIndex d) (m_RenderSilence d)
    (m_RenderingSilence d) (m_StreamPositionOffset d) (m_AsioRequest d)
    (m_UsedFeatures d) (m_DeviceUnavailableOnOpen d) (m_RequestFlags d)
    (journal d).

Definition set_m_AsioRequest (v : Z) (d : Device) : Device :=
  mkDevice (m_Settings d) (m_Driver d) (m_DeferredBufferSwitchDispatcher d)
    (m_BufferLatency d) (m_nAsioBufferLen d) (m_BufferInfo d)
    (m_BuffersCreated d) (m_ChannelInfo d) (m_SampleBuffer d)
    (m_SampleInputBuffer d) (m_CanOutputReady d) (m_DeviceRunning d)
    (m_TotalFramesWritten d) (m_DeferredProcessing d) (m_BufferIndex d)
    (m_RenderSilence d) (m_RenderingSilence d) (m_StreamPositionOffset d) v
    (m_UsedFeatures d) (m_DeviceUnavailableOnOpen d) (m_RequestFlags d)
    (journal d).

(** [AsioRequest::LatenciesChanged], the one pending-request bit. *)
Module AsioRequest.
Definition LatenciesChanged : Z := 1.
End AsioRequest.

(** Modelled from the spec: [SoundDevice::Base::RequestReset] and
    [RequestRestart] are defined outside the given sources; like
    [RequestClose] they record a pending request for the control thread as
    a bit of the request flags. *)
Definition RequestFlagReset : Z := 2.
Definition RequestFlagRestart : Z := 4.

Definition RequestReset (d : Device) : Device :=
  set_m_RequestFlags (Z.lor (m_RequestFlags d) RequestFlagReset) d.
Definition RequestRestart (d : Device) : Device :=
  set_m_RequestFlags (Z.lor (m_RequestFlags d) RequestFlagRestart) d.

(** [flags & bit] as a condition. *)
Definition has_flag (flags bit : Z) : bool := negb (Z.land flags bit =? 0).

(** [HandleRequests]: drains the pending requests of the notification
    thread. *)
Definition HandleRequests (env : Env) : M bool :=
  flags <- gets m_AsioRequest ;;
  modify (set_m_AsioRequest 0) ;;
  if has_flag flags AsioRequest.LatenciesChanged
  then UpdateLatency env ;; ret true
  else ret false.

(** The notifications of the driver's message channel; they are [noexcept]
    and call nothing that raises. *)
Definition MessageLatenciesChanged (d : Device) : Device :=
  set_m_AsioRequest (Z.lor (m_AsioRequest d) AsioRequest.LatenciesChanged) d.

Definition MessageResetRequest (d : Device) : Device :=
  RequestReset
    (set_m_UsedFeatures (Z.lor (m_UsedFeatures d) AsioFeature.ResetRequest) d).

Definition MessageBufferSizeChange (newSize : Z) (d : Device) : bool * Device :=
  (false,
   set_m_UsedFeatures (Z.lor (m_UsedFeatures d) AsioFeature.BufferSizeChange) d).

Definition MessageResyncRequest (d : Device) : bool * Device :=
  (true,
   RequestRestart
     (set_m_UsedFeatures (Z.lor (m_UsedFeatures d) AsioFeature.ResyncRequest) d)).

Definition MessageOverload (d : Device) : Device :=
  set_m_UsedFeatures (Z.lor (m_UsedFeatures d) AsioFeature.Overload) d.

Definition RealtimeRequestDeferredProcessing (deferred : bool) (d : Device)
  : Device :=
  set_m_DeferredProcessing deferred
    (if deferred
     then set_m_UsedFeatures
            (Z.lor (m_UsedFeatures d) AsioFeature.DeferredProcess) d
     else d).

(** [AsioFeaturesToString]: the names pushed to [results], then joined with
    commas ([mpt::String::Combine]). *)
Definition feature_names (features : Z) : list string :=
  (if has_flag features AsioFeature.ResetRequest then ["reset"%string] else [])
  ++ (if has_flag features AsioFeature.ResyncRequest then ["resync"%string] else [])
  ++ (if has_flag features AsioFeature.BufferSizeChange then ["buffer"%string] else [])
  ++ (if has_flag features AsioFeature.Overload then ["load"%string] else [])
  ++ (if has_flag features AsioFeature.SampleRateChange then ["srate"%string] else [])
  ++ (if has_flag features AsioFeature.DeferredProcess then ["deferred"%string] else []).

Definition AsioFeaturesToString (features : Z) : string :=
  String.concat "," (feature_names features).

(** [SoundDevice::Statistics]. *)
Record Statistics : Type := mkStatistics {
  InstantaneousLatency : Double.t;
  LastUpdateInterval : Double.t;
  text : string
}.

Definition unsupported_features : Z :=
  Z.lor (Z.lor AsioFeature.Overload AsioFeature.BufferSizeChange)
        AsioFeature.SampleRateChange.

Definition GetStatistics (d : Device) : Statistics :=
  let usedFeatures := m_UsedFeatures d in
  let unsupportedFeatues := Z.land usedFeatures unsupported_features in
  mkStatistics
    (m_BufferLatency d)
    (Double.div (Double.of_Z (m_nAsioBufferLen d))
                (Double.of_Z (Samplerate (m_Settings d))))
    (if negb (unsupportedFeatues =? 0)
     then String.append "WARNING: unsupported features: "
                        (AsioFeaturesToString unsupportedFeatues)
     else if negb (usedFeatures =? 0)
          then String.append "OK, features used: "
                             (AsioFeaturesToString (m_UsedFeatures d))
          else "OK."%string).

(** [OpenDriverSettings]: the driver's control panel under a temporary
    open. *)
Definition OpenDriverSettings (env : Env) : M bool :=
  wasOpen <- IsDriverOpen ;;
  (if negb wasOpen then OpenDriver env else ret tt) ;;
  scope_exit
    (open <- IsDriverOpen ;;
     if negb open then ret false
     else try_catch
            (call CallControlPanel (drv_controlPanel env))
            (fun e => ExceptionHandler "OpenDriverSettings" e ;; ret false))
    (if negb wasOpen then CloseDriver env else ret tt).

(** ** Views of the journal *)

(** The driver calls that satisfy [p] among the recorded events, most recent
    first. *)
Definition is_call_of (p : DriverCall -> bool) (ev : Event) : bool :=
  match ev with
  | Called c => p c
  | _ => false
  end.

Definition calls_where (p : DriverCall -> bool) (d : Device) : list Event :=
  filter (is_call_of p) (journal d).

Definition driver_calls (d : Device) : list Event :=
  calls_where (fun _ => true) d.

(** The calls that configure, start or stop the device, touch its buffers
    or open its control panel; the others only ask, or open and close the
    handle. *)
Definition configures (c : DriverCall) : bool :=
  match c with
  | CallSetSampleRate _ | CallCreateBuffers _ | CallDisposeBuffers
  | CallOutputReady | CallStart | CallStop | CallControlPanel => true
  | _ => false
  end.

(** The notifications to the audio source. *)
Definition is_source_event (ev : Event) : bool :=
  match ev with
  | SourceReadPrepare _ | SourceRead _ | SourceReadDone => true
  | _ => false
  end.

Definition source_events (d : Device) : list Event :=
  filter is_source_event (journal d).

(** A view of the journal that shows no log line, message or taint. *)
Definition shows_no_log (P : Event -> bool) : Prop :=
  (forall level func what, P (Logged level func what) = false) /\
  (forall level what, P (DeviceMessage level what) = false) /\
  P TaintProcess = false.


(** ** Replies *)

Definition gives {A} (r : Reply A) : bool :=
  match r with
  | Gives _ => true
  | Raises _ => false
  end.

(** Every call of [OpenDriver] is answered. *)
Definition driver_loads (env : Env) : bool :=
  (if AllowDeferredProcessing env then gives (drv_createDispatcher env)
   else true)
  && gives (drv_construct env)
  && gives (drv_getDriverName env)
  && gives (drv_getDriverVersion env)
  && gives (drv_getErrorMessage env).

(** One of the calls of [OpenDriver] runs out of memory. *)
Definition open_raises_oom (env : Env) : bool :=
  raises_oom (drv_createDispatcher env)
  || raises_oom (drv_construct env)
  || raises_oom (drv_getDriverName env)
  || raises_oom (drv_getDriverVersion env)
  || raises_oom (drv_getErrorMessage env).

(** The driver is constructed, with its dispatcher if deferred processing
    is allowed. *)
Definition driver_constructs (env : Env) : bool :=
  (if AllowDeferredProcessing env then gives (drv_createDispatcher env)
   else true)
  && gives (drv_construct env).

(** What the first half of an open settles. *)
Definition negotiated (d : Device) :=
  (m_Driver d, m_BuffersCreated d, m_DeviceRunning d, m_TotalFramesWritten d,
   m_nAsioBufferLen d, m_BufferInfo d).

(** The five checks of [InternalOpen] on the channels the driver reports. *)
Definition channels_suffice (s : Settings) (channels : Channels) : bool :=
  let inputChannelMapping := BaseChannel (InputChannels s) (InputSourceID s) in
  negb ((Input channels <=? 0) && (Output channels <=? 0))
  && negb (Output channels <? Z.of_nat (NumChannels s))
  && negb (Output channels <? RequiredDeviceChannels (OutputChannels s))
  && negb (Input channels <? Z.of_nat (InputChannels s))
  && negb (Input channels <? RequiredDeviceChannels inputChannelMapping).

(** ** Notifications *)

(** What the driver can tell the device through the handler interface; each
    notification is handled by the member function of its name. *)
Inductive Notification : Type :=
| NotifyResetRequest
| NotifyBufferSizeChange (newSize : Z)
| NotifyResyncRequest
| NotifyLatenciesChanged
| NotifyOverload
| NotifySampleRateDidChange (sRate : Double.t)
| NotifyRequestDeferredProcessing (deferred : bool).

Definition notify (n : Notification) (d : Device) : Device :=
  match n with
  | NotifyResetRequest => MessageResetRequest d
  | NotifyBufferSizeChange newSize => snd (MessageBufferSizeChange newSize d)
  | NotifyResyncRequest => snd (MessageResyncRequest d)
  | NotifyLatenciesChanged => MessageLatenciesChanged d
  | NotifyOverload => MessageOverload d
  | NotifySampleRateDidChange sRate => RealtimeSampleRateDidChange sRate d
  | NotifyRequestDeferredProcessing deferred =>
      RealtimeRequestDeferredProcessing deferred d
  end.

Definition notify_all (ns : list Notification) (d : Device) : Device :=
  fold_left (fun d n => notify n d) ns d.

(** The notifications that [GetStatistics] counts as unsupported features:
    an overload, a buffer size change, and a sample rate other than the
    configured one. *)
Definition unsupported (n : Notification) (d : Device) : bool :=
  match n with
  | NotifyOverload | NotifyBufferSizeChange _ => true
  | NotifySampleRateDidChange sRate =>
      negb (Double.saturate_round_uint32 sRate =? Samplerate (m_Settings d))
  | _ => false
  end.

(** The statistics text is a warning. *)
Definition is_warning (s : string) : bool := prefix "WARNING" s.

(** ** Answers of a capability query *)

(** The driver says it can run at [rate]. *)
Definition can_rate (env : Env) (rate : Z) : bool :=
  match drv_canSampleRate env rate with
  | Gives can => can
  | Raises _ => false
  end.

(** The name of channel [i]: the driver's, or the channel number when the
    driver does not answer. *)
Definition reported_name (env : Env) (input : bool) (i : Z) : ChannelName :=
  match drv_getChannelInfo env i input with
  | Gives info => Reported (name info)
  | Raises _ => Numbered i
  end.

(** The sample rate the driver reports, if it is positive. *)
Definition reported_rate (env : Env) : Z :=
  match drv_getSampleRate env with
  | Gives samplerate =>
      if Double.ltb Double.zero samplerate
      then Double.saturate_round_uint32 samplerate
      else 0
  | Raises _ => 0
  end.

(** The driver is open, or the temporary open of a query opens it. *)
Definition opens (env : Env) (d : Device) : bool :=
  m_Driver d
  || match OpenDriver env d with
     | Returns _ d1 => m_Driver d1
     | _ => false
     end.

(** ** The negotiated length in closed form *)

(** What the ladder of [InternalOpen] computes when its scans stay within
    [ASIO::Long], without the loops: the scans stop on the last candidate
    that does not exceed the request clamped to the limits. *)
Definition negotiated_length (bs : BufferSizes) (target : Z) : Z :=
  let c := clamp target (Min bs) (Max bs) in
  if limits_degenerate bs then
    if 0 <? Preferred bs then Preferred bs else target
  else if Granularity bs <? -1 then c
  else if Granularity bs =? -1 then
    if negb (weight (Min bs) =? 1) || negb (weight (Max bs) =? 1)
    then if Min bs <=? 2 ^ Z.log2 c then 2 ^ Z.log2 c else c
    else Min bs * 2 ^ Z.log2 (c / Min bs)
  else if 0 <? Granularity bs then
    Min bs + Granularity bs * ((c - Min bs) / Granularity bs)
  else if 0 <? Preferred bs then Preferred bs
  else if Max bs <=? target then Max bs
  else Min bs.


(** ** Lemmas on machine integers and the scan *)

Lemma wrap_small (z : Z) : Long.in_range z -> Long.wrap z = z.
Proof.
  intros H. change (-2147483648 <= z <= 2147483647) in H.
  change ((z - -2147483648) mod 4294967296 + -2147483648 = z).
  rewrite Z.mod_small; lia.
Qed.

Lemma clamp_bounds (v lo hi : Z) : lo <= hi -> lo <= clamp v lo hi <= hi.
Proof.
  intros H. unfold clamp.
  destruct (Z.ltb_spec v lo); [lia|].
  destruct (Z.ltb_spec hi v); lia.
Qed.

Lemma clamp_id (v lo hi : Z) : lo <= v <= hi -> clamp v lo hi = v.
Proof.
  intros H. unfold clamp.
  destruct (Z.ltb_spec v lo); [lia|].
  destruct (Z.ltb_spec hi v); lia.
Qed.

(** A scan whose step strictly increases the candidate on [[lo, bufTarget]]
    stops, and its result keeps every invariant [P] that the initial length
    and each kept candidate satisfy. *)
Lemma scan_stops (next : Z -> Z) (keep : Z -> bool) (P : Z -> Prop)
      (max bufTarget lo : Z) :
  (forall b, lo <= b -> b <= bufTarget -> b < next b) ->
  (forall b, lo <= b -> b <= max -> b <= bufTarget -> keep b = true -> P b) ->
  forall (n : nat) (bufSize len : Z),
    lo <= bufSize -> bufTarget - bufSize < Z.of_nat n -> P len ->
    exists r, scan (S n) next keep max bufTarget bufSize len = Some r /\ P r.
Proof.
  intros Hnext Hkeep. induction n as [|n IH]; intros bufSize len Hlo Hn HP.
  - simpl. destruct (Z.leb_spec bufSize bufTarget); [lia|].
    rewrite andb_false_r. eauto.
  - cbn [scan].
    destruct (Z.leb_spec bufSize max); cbn [andb]; [|eauto].
    destruct (Z.leb_spec bufSize bufTarget); [|eauto].
    pose proof (Hnext bufSize Hlo ltac:(assumption)) as Hlt.
    apply IH; [lia|lia|].
    destruct (keep bufSize) eqn:Hk; [apply Hkeep; assumption|assumption].
Qed.

(** More fuel never changes an answer. *)
Lemma scan_fuel_mono (next : Z -> Z) (keep : Z -> bool) (max bufTarget : Z) :
  forall (n m : nat) (bufSize len r : Z),
    (n <= m)%nat ->
    scan n next keep max bufTarget bufSize len = Some r ->
    scan m next keep max bufTarget bufSize len = Some r.
Proof.
  induction n as [|n IH]; intros m bufSize len r Hle H; [discriminate|].
  destruct m as [|m]; [lia|].
  cbn [scan] in *.
  destruct ((bufSize <=? max) && (bufSize <=? bufTarget)); [|assumption].
  apply IH; [lia|assumption].
Qed.
Lemma scan_last (next : Z -> Z) (R : Z -> Prop) (max bufTarget lo : Z) :
  (forall b, lo <= b -> b <= bufTarget -> b < next b) ->
  (forall b, lo <= b -> b <= bufTarget -> R b -> R (next b)) ->
  forall (n : nat) (bufSize len : Z),
    lo <= bufSize -> bufTarget - bufSize < Z.of_nat n ->
    bufSize <= max -> bufSize <= bufTarget -> R bufSize ->
    exists r, scan (S n) next (fun _ => true) max bufTarget bufSize len = Some r /\
              R r /\ lo <= r /\ r <= max /\ r <= bufTarget /\
              (max < next r \/ bufTarget < next r).
Proof.
  intros Hnext HR. induction n as [|n IH]; intros bufSize len Hlo Hn Hmax Ht Hr.
  - lia.
  - remember (S n) as m. cbn [scan].
    destruct (Z.leb_spec bufSize max); [|lia].
    destruct (Z.leb_spec bufSize bufTarget); [|lia].
    cbn [andb]. subst m.
    pose proof (Hnext bufSize Hlo Ht) as Hlt.
    destruct (Z_le_gt_dec (next bufSize) max) as [Hm|Hm];
      [destruct (Z_le_gt_dec (next bufSize) bufTarget) as [Hb|Hb]|].
    + apply IH; try lia. apply HR; assumption.
    + exists bufSize. cbn [scan].
      destruct (Z.leb_spec (next bufSize) bufTarget); [lia|].
      rewrite andb_false_r. repeat split; try assumption; lia.
    + exists bufSize. cbn [scan].
      destruct (Z.leb_spec (next bufSize) max); [lia|].
      cbn [andb]. repeat split; try assumption; lia.
Qed.

Lemma double_step_exact (b : Z) :
  0 <= b -> 2 * b <= Long.max_signed -> double_step b = 2 * b.
Proof.
  intros H0 H. unfold double_step, Long.mul. rewrite wrap_small; [lia|].
  change (-2147483648 <= b * 2 <= 2147483647).
  change (2 * b <= 2147483647) in H. lia.
Qed.

Lemma granular_step_exact (g b : Z) :
  0 <= b -> 0 <= g -> b + g <= Long.max_signed -> granular_step g b = b + g.
Proof.
  intros H0 Hg H. unfold granular_step, Long.add. rewrite wrap_small; [lia|].
  change (-2147483648 <= b + g <= 2147483647).
  change (b + g <= 2147483647) in H. lia.
Qed.

(** C1 (amended). As long as the scan stays within [ASIO::Long]: with
    degenerate limits (min <= 0, max <= 0 or min > max) the negotiated
    length is [preferred] when that is positive and the requested length
    otherwise; with sane limits and granularity 0 and a positive
    [preferred] it is [preferred], whether or not that lies within the
    limits; in every other case it lies within [min, max]. *)
Theorem negotiate_within_limits (bs : BufferSizes) (target : Z) :
  scan_fits bs target ->
  exists fuel len,
    negotiate fuel bs target = Some len /\
    (if limits_degenerate bs
     then len = (if 0 <? Preferred bs then Preferred bs else target)
     else if (Granularity bs =? 0) && (0 <? Preferred bs)
          then len = Preferred bs
          else Min bs <= len <= Max bs).
Proof.
  intros Hfit. unfold scan_fits in Hfit. unfold negotiate.
  destruct (limits_degenerate bs) eqn:Hdeg.
  { exists O. destruct (0 <? Preferred bs); eauto. }
  specialize (Hfit eq_refl). destruct Hfit as [Hpow Hstep].
  assert (Hsane : 0 < Min bs <= Max bs).
  { unfold limits_degenerate in Hdeg.
    apply orb_false_iff in Hdeg. destruct Hdeg as [Hdeg H3].
    apply orb_false_iff in Hdeg. destruct Hdeg as [H1 H2].
    apply Z.leb_gt in H1. apply Z.ltb_ge in H3. lia. }
  pose proof (clamp_bounds target (Min bs) (Max bs) ltac:(lia)) as Hc.
  set (c := clamp target (Min bs) (Max bs)) in *.
  set (fuel := S (Z.to_nat (c + 1))).
  destruct (Z.ltb_spec (Granularity bs) (-1)) as [Hg|Hg].
  { exists O, c. rewrite andb_false_intro1 by (apply Z.eqb_neq; lia).
    split; [reflexivity|lia]. }
  destruct (Z.eqb_spec (Granularity bs) (-1)) as [Hg1|Hg1].
  { assert (Hz : (Granularity bs =? 0) = false) by (apply Z.eqb_neq; lia).
    rewrite Hz. cbn [andb].
    specialize (Hpow Hg1).
    destruct (negb (weight (Min bs) =? 1) || negb (weight (Max bs) =? 1)).
    - destruct (scan_stops double_step (fun b => Min bs <=? b)
                  (fun r => Min bs <= r <= Max bs) (Max bs) c 1) with
        (n := Z.to_nat (c + 1)) (bufSize := 1) (len := c) as [r [Hr HP]].
      + intros b H1 H2. rewrite double_step_exact; lia.
      + intros b H1 H2 H3 H4. apply Z.leb_le in H4. lia.
      + lia.
      + lia.
      + lia.
      + exists fuel, r. split; assumption.
    - destruct (scan_stops double_step (fun _ => true)
                  (fun r => Min bs <= r <= Max bs) (Max bs) c (Min bs)) with
        (n := Z.to_nat (c + 1)) (bufSize := Min bs) (len := c) as [r [Hr HP]].
      + intros b H1 H2. rewrite double_step_exact; lia.
      + intros b H1 H2 H3 _. lia.
      + lia.
      + lia.
      + lia.
      + exists fuel, r. split; assumption. }
  cbn [andb].
  destruct (Z.ltb_spec 0 (Granularity bs)) as [Hgp|Hgp].
  { assert (Hz : (Granularity bs =? 0) = false) by (apply Z.eqb_neq; lia).
    rewrite Hz. cbn [andb]. specialize (Hstep Hgp).
    destruct (scan_stops (granular_step (Granularity bs)) (fun _ => true)
                (fun r => Min bs <= r <= Max bs) (Max bs) c (Min bs)) with
      (n := Z.to_nat (c + 1)) (bufSize := Min bs) (len := c) as [r [Hr HP]].
    - intros b H1 H2. rewrite granular_step_exact; lia.
    - intros b H1 H2 H3 _. lia.
    - lia.
    - lia.
    - lia.
    - exists fuel, r. split; assumption. }
  assert (Hg0 : Granularity bs = 0) by lia.
  rewrite Hg0. cbn [Z.eqb andb].
  destruct (0 <? Preferred bs).
  { exists O, (Preferred bs). split; reflexivity. }
  destruct (Z.leb_spec (Max bs) target).
  - exists O, (Max bs). split; [reflexivity|lia].
  - exists O, (Min bs). split; [reflexivity|lia].
Qed.

Lemma negotiate_within_limits_witness :
  let bs := mkBufferSizes 100 500 0 50 in
  scan_fits bs 330 /\
  exists fuel len,
    negotiate fuel bs 330 = Some len /\
    (if limits_degenerate bs
     then len = (if 0 <? Preferred bs then Preferred bs else 330)
     else if (Granularity bs =? 0) && (0 <? Preferred bs)
          then len = Preferred bs
          else Min bs <= len <= Max bs).
Proof.
  intros bs.
  assert (Hfit : scan_fits bs 330).
  { intros _. split; intros _; vm_compute; discriminate. }
  split; [exact Hfit|].
  exact (negotiate_within_limits bs 330 Hfit).
Defined.

(** The claim as stated fails: a fixed-size driver (granularity 0) whose
    preferred size 2048 lies outside its own limits [64, 1024] gets 2048. *)
Lemma negotiate_preferred_outside_limits :
  let bs := mkBufferSizes 64 1024 2048 0 in
  Min bs <= Max bs /\ 0 < Min bs /\
  (forall fuel, negotiate fuel bs 512 = Some 2048) /\
  ~ (Min bs <= 2048 <= Max bs).
Proof.
  cbn. split; [lia|]. split; [lia|]. split; [reflexivity|lia].
Qed.

(** The sizes the specification lists. *)
Example negotiate_step_granularity :
  negotiate 16 (mkBufferSizes 100 500 0 50) 330 = Some 300.
Proof. reflexivity. Qed.

Example negotiate_fixed_size (target : Z) :
  negotiate 0 (mkBufferSizes 64 1024 256 0) target = Some 256.
Proof. reflexivity. Qed.

Example negotiate_degenerate_limits :
  negotiate 0 (mkBufferSizes 0 0 480 (-1)) 507 = Some 480 /\
  negotiate 0 (mkBufferSizes 512 64 0 1) 507 = Some 507.
Proof. split; reflexivity. Qed.

Example negotiate_ragged_power_of_two :
  negotiate 16 (mkBufferSizes 48 1000 0 (-1)) 507 = Some 256.
Proof. reflexivity. Qed.

(** Outside that range the scan can wrap: the candidate 1 + 2147483647
    becomes negative and is taken for a length. *)
Example negotiate_step_wraps :
  negotiate 8 (mkBufferSizes 1 2147483647 0 2147483647) 100 = Some (-1).
Proof. reflexivity. Qed.

(** ** Power-of-two negotiation *)

Lemma negotiate_sane_pow2 (fuel : nat) (bs : BufferSizes) (target : Z) :
  Granularity bs = -1 -> weight (Min bs) = 1 -> weight (Max bs) = 1 ->
  0 < Min bs <= Max bs ->
  negotiate fuel bs target =
  scan fuel double_step (fun _ => true) (Max bs)
       (clamp target (Min bs) (Max bs)) (Min bs)
       (clamp target (Min bs) (Max bs)).
Proof.
  intros Hg Hmn Hmx H. unfold negotiate, limits_degenerate.
  destruct (Z.leb_spec (Min bs) 0); [lia|].
  destruct (Z.leb_spec (Max bs) 0); [lia|].
  destruct (Z.ltb_spec (Max bs) (Min bs)); [lia|].
  cbn [orb]. rewrite Hg, Hmn, Hmx. reflexivity.
Qed.

(** With sane power-of-two limits the negotiated length is the largest
    power of two within the limits that does not exceed the clamped
    target. *)
Lemma negotiate_sane_pow2_largest (bs : BufferSizes) (target a : Z) :
  Granularity bs = -1 -> weight (Min bs) = 1 -> weight (Max bs) = 1 ->
  0 <= a -> Min bs = 2 ^ a -> Min bs <= Max bs ->
  2 * clamp target (Min bs) (Max bs) <= Long.max_signed ->
  exists fuel len,
    negotiate fuel bs target = Some len /\
    (exists k, 0 <= k /\ len = 2 ^ k) /\
    Min bs <= len <= Max bs /\
    len <= clamp target (Min bs) (Max bs) /\
    (forall k, 0 <= k -> Min bs <= 2 ^ k <= Max bs ->
               2 ^ k <= clamp target (Min bs) (Max bs) -> 2 ^ k <= len).
Proof.
  intros Hg Hmn Hmx Ha Hpow Hle Hfit.
  assert (Hpos : 0 < Min bs) by (rewrite Hpow; apply Z.pow_pos_nonneg; lia).
  pose proof (clamp_bounds target (Min bs) (Max bs) Hle) as Hc.
  set (c := clamp target (Min bs) (Max bs)) in *.
  destruct (scan_last double_step (fun r => exists k, 0 <= k /\ r = 2 ^ k)
              (Max bs) c (Min bs)) with
    (n := S (Z.to_nat (c - Min bs))) (bufSize := Min bs) (len := c)
    as [r [Hr [[j [Hj Hrj]] [Hlo [Hmax [Hc' Hstop]]]]]].
  - intros b H1 H2. rewrite double_step_exact; lia.
  - intros b H1 H2 [k [Hk Hb]]. exists (k + 1). split; [lia|].
    rewrite double_step_exact by lia.
    rewrite Hb, Z.pow_add_r by lia. lia.
  - lia.
  - lia.
  - lia.
  - lia.
  - exists a. split; [lia|assumption].
  - exists (S (S (Z.to_nat (c - Min bs)))), r.
    rewrite negotiate_sane_pow2 by (assumption || lia).
    fold c. split; [exact Hr|].
    split; [exists j; split; assumption|].
    split; [lia|]. split; [lia|].
    intros k Hk Hrange Hkc.
    rewrite double_step_exact in Hstop by lia.
    assert (Hlt : 2 ^ k < 2 ^ (j + 1)).
    { rewrite Z.pow_add_r by lia. lia. }
    apply Z.pow_lt_mono_r_iff in Hlt; [|lia|lia].
    rewrite Hrj. apply Z.pow_le_mono_r; lia.
Qed.

(** C7. Power-of-two granularity (-1) with limits 64 and 1024: for every
    requested length the negotiation stops with the largest power of two in
    [64, 1024] that does not exceed the requested length clamped into the
    limits; a request of 500 gives 256 and a request of 2000 gives 1024. *)
Theorem negotiate_power_of_two_64_1024 (preferred target : Z) :
  let bs := mkBufferSizes 64 1024 preferred (-1) in
  (exists fuel len,
      negotiate fuel bs target = Some len /\
      (exists k, 0 <= k /\ len = 2 ^ k) /\
      Min bs <= len <= Max bs /\
      len <= clamp target (Min bs) (Max bs) /\
      (forall k, 0 <= k -> Min bs <= 2 ^ k <= Max bs ->
                 2 ^ k <= clamp target (Min bs) (Max bs) -> 2 ^ k <= len)) /\
  negotiate 8 bs 500 = Some 256 /\
  negotiate 8 bs 2000 = Some 1024.
Proof.
  intros bs. split; [|split; reflexivity].
  apply (negotiate_sane_pow2_largest bs target 6); try reflexivity.
  - lia.
  - cbn [Min Max bs]. lia.
  - pose proof (clamp_bounds target (Min bs) (Max bs)) as Hc.
    cbn [Min Max bs] in *. change Long.max_signed with 2147483647. lia.
Qed.

(** ** Reasoning about computations *)

Lemma bind_Returns {A B} (m : M A) (k : A -> M B) (d d' : Device) (b : B) :
  bind m k d = Returns b d' ->
  exists a d1, m d = Returns a d1 /\ k a d1 = Returns b d'.
Proof.
  unfold bind. destruct (m d) as [a d1|e d1| |]; intros H; try discriminate.
  eauto.
Qed.

Lemma keeps_ret {A B} (p : Device -> B) (a : A) : keeps p (ret a).
Proof. intros d. reflexivity. Qed.

Lemma keeps_throw {A B} (p : Device -> B) (e : Exn) : keeps p (@throw A e).
Proof. intros d. reflexivity. Qed.

Lemma keeps_gets {A B} (p : Device -> B) (f : Device -> A) : keeps p (gets f).
Proof. intros d. reflexivity. Qed.

Lemma keeps_modify {B} (p : Device -> B) (f : Device -> Device) :
  (forall d, p (f d) = p d) -> keeps p (modify f).
Proof. intros H d. apply H. Qed.

Lemma keeps_bind {A B C} (p : Device -> C) (m : M A) (k : A -> M B) :
  keeps p m -> (forall a, keeps p (k a)) -> keeps p (bind m k).
Proof.
  intros Hm Hk d. unfold bind. specialize (Hm d).
  destruct (m d) as [a d1|e d1| |]; try assumption.
  specialize (Hk a d1). destruct (k a d1); try exact I; congruence.
Qed.

Lemma keeps_try_catch {A C} (p : Device -> C) (m : M A) (h : Exn -> M A) :
  keeps p m -> (forall e, keeps p (h e)) -> keeps p (try_catch m h).
Proof.
  intros Hm Hh d. unfold try_catch. specialize (Hm d).
  destruct (m d) as [a d1|e d1| |]; try assumption.
  specialize (Hh e d1). destruct (h e d1); try exact I; congruence.
Qed.

Lemma keeps_noexcept {A C} (p : Device -> C) (m : M A) :
  keeps p m -> keeps p (noexcept m).
Proof.
  intros Hm d. unfold noexcept. specialize (Hm d).
  destruct (m d); try assumption; exact I.
Qed.

Lemma keeps_if {A C} (p : Device -> C) (b : bool) (m1 m2 : M A) :
  keeps p m1 -> keeps p m2 -> keeps p (if b then m1 else m2).
Proof. destruct b; auto. Qed.

Lemma keeps_call {A C} (p : Device -> C) (c : DriverCall) (r : Reply A) :
  (forall evs d, p (set_journal evs d) = p d) -> keeps p (call c r).
Proof. intros H d. unfold call. destruct r; apply H. Qed.

Lemma keeps_lift {A C} (p : Device -> C) (r : Reply A) : keeps p (lift r).
Proof. intros d. unfold lift. destruct r; reflexivity. Qed.

Lemma keeps_emit {C} (p : Device -> C) (ev : Event) :
  (forall evs d, p (set_journal evs d) = p d) -> keeps p (emit ev).
Proof. intros H d. apply H. Qed.

Lemma keeps_for_each {A C} (p : Device -> C) (l : list A) (body : A -> M unit) :
  (forall x, keeps p (body x)) -> keeps p (for_each l body).
Proof.
  intros H. induction l as [|x l IH]; cbn [for_each].
  - apply keeps_ret.
  - apply keeps_bind; auto.
Qed.

Ltac keeps_step :=
  first
    [ apply keeps_ret | apply keeps_throw | apply keeps_gets | apply keeps_lift
    | apply keeps_noexcept
    | apply keeps_bind; [|intros ?]
    | apply keeps_try_catch; [|intros ?]
    | apply keeps_for_each; intros ?
    | apply keeps_call; solve [auto]
    | apply keeps_emit; solve [auto]
    | apply keeps_modify; solve [auto]
    | apply keeps_if
    | match goal with
      | |- keeps _ (match ?e with _ => _ end) => destruct e
      end ].

Ltac keeps_tac := repeat keeps_step.

Lemma keeps_ExceptionHandler {C} (p : Device -> C) func e :
  (forall v d, p (set_journal v d) = p d) ->
  keeps p (ExceptionHandler func e).
Proof.
  intros Hj. unfold ExceptionHandler. destruct e; keeps_tac.
Qed.

Lemma keeps_reset_driver {C} (env : Env) (p : Device -> C) :
  (forall v d, p (set_journal v d) = p d) ->
  (forall v d, p (set_m_Driver v d) = p d) ->
  keeps p (reset_driver env).
Proof. intros Hj Hd. unfold reset_driver. keeps_tac. Qed.

Lemma keeps_CloseDriver {C} (env : Env) (p : Device -> C) :
  (forall v d, p (set_journal v d) = p d) ->
  (forall v d, p (set_m_Driver v d) = p d) ->
  (forall v d, p (set_m_DeferredBufferSwitchDispatcher v d) = p d) ->
  keeps p (CloseDriver env).
Proof.
  intros Hj Hd Hdd. unfold CloseDriver, reset_driver, IsDriverOpen.
  keeps_tac; try (apply keeps_ExceptionHandler; assumption).
Qed.

Lemma keeps_OpenDriver {C} (env : Env) (p : Device -> C) :
  (forall v d, p (set_journal v d) = p d) ->
  (forall v d, p (set_m_Driver v d) = p d) ->
  (forall v d, p (set_m_DeferredBufferSwitchDispatcher v d) = p d) ->
  keeps p (OpenDriver env).
Proof.
  intros Hj Hd Hdd. unfold OpenDriver, IsDriverOpen.
  keeps_tac;
    try (apply keeps_ExceptionHandler; assumption);
    try (apply keeps_CloseDriver; assumption).
Qed.

Lemma keeps_UpdateLatency {C} (env : Env) (p : Device -> C) :
  (forall v d, p (set_journal v d) = p d) ->
  (forall v d, p (set_m_BufferLatency v d) = p d) ->
  keeps p (UpdateLatency env).
Proof.
  intros Hj Hl. unfold UpdateLatency.
  keeps_tac; try (apply keeps_ExceptionHandler; assumption).
Qed.

Ltac inv_bind H :=
  let a := fresh "a" in
  let d1 := fresh "d" in
  let H1 := fresh "Hstep" in
  apply bind_Returns in H; destruct H as [a [d1 [H1 H]]].

Ltac keeps_solve :=
  repeat first
    [ keeps_step
    | apply keeps_ExceptionHandler
    | apply keeps_reset_driver
    | apply keeps_CloseDriver
    | apply keeps_OpenDriver
    | apply keeps_UpdateLatency
    | intros ?; exact I
    | reflexivity ].

(** Step over the first computation of a chain that returned, carrying the
    fact [W] about the observation [p] to the state it leaves. *)
Ltac step_keeping p W H :=
  let a := fresh "a" in
  let d1 := fresh "d" in
  let Hs := fresh "Hstep" in
  apply bind_Returns in H; destruct H as [a [d1 [Hs H]]];
  lazymatch type of Hs with
  | ?m ?d = Returns _ _ =>
      let Hk := fresh in
      assert (Hk : keeps p m) by keeps_solve;
      specialize (Hk d); rewrite Hs in Hk; rewrite W in Hk;
      clear W; rename Hk into W; clear Hs
  end.

Lemma try_catch_Returns_true {A} (body : M bool) (h : Exn -> M A)
      (d d' : Device) :
  try_catch body (fun e => h e ;; ret false) d = Returns true d' ->
  body d = Returns true d'.
Proof.
  unfold try_catch. destruct (body d) as [a d1|e d1| |]; intros H; try assumption.
  apply bind_Returns in H. destruct H as [x [d2 [_ H]]]. discriminate.
Qed.

(** ** Unified sample representation *)

Lemma classify_channels_fold (little : bool) (cs : list ChannelInfo) :
  forall fl,
    fold_left (classify_channel little) cs fl =
    mkFormatFlags
      (allChannelsAreInt fl && forallb (fun c => negb (isFloat (type c))) cs)
      (allChannelsAreInt16ValidBits fl
       && forallb (fun c => isInt16ValidBits (type c)) cs)
      (allChannelsAreNativeInt24 fl
       && forallb (fun c => isInt24 (type c) && isNative little (type c)) cs)
      (allChannelsAreFloat32 fl && forallb (fun c => isFloat32 (type c)) cs).
Proof.
  induction cs as [|c cs IH]; intros fl.
  - destruct fl as [[] [] [] []]; reflexivity.
  - cbn [fold_left forallb]. rewrite IH. unfold classify_channel.
    destruct fl as [a b n f]. cbn [allChannelsAreInt allChannelsAreInt16ValidBits
      allChannelsAreNativeInt24 allChannelsAreFloat32].
    destruct (isFloat (type c)), (isInt16ValidBits (type c)),
      (isInt24 (type c) && isNative little (type c)), (isFloat32 (type c));
      cbn; rewrite ?andb_false_r, ?andb_true_r; reflexivity.
Qed.

(** The flags the loop computes select what the priority list selects. *)
Lemma format_of_flags_spec (little : bool) (cs : list ChannelInfo) :
  format_of_flags (classify_channels little cs) = unified_format_spec little cs.
Proof.
  unfold classify_channels. rewrite classify_channels_fold.
  unfold format_of_flags, unified_format_spec. reflexivity.
Qed.

Lemma forallb_false_of_In {A} (p : A -> bool) (l : list A) (x : A) :
  In x l -> p x = false -> forallb p l = false.
Proof.
  intros Hin Hp. destruct (forallb p l) eqn:Hall; [|reflexivity].
  rewrite forallb_forall in Hall. rewrite (Hall x Hin) in Hp. discriminate.
Qed.

(** One 32-bit float channel next to an integer channel leaves only the
    64-bit float representation. *)
Lemma mixed_float32_int_is_float64 (little : bool) (cs : list ChannelInfo)
      (cf ci : ChannelInfo) :
  In cf cs -> isFloat32 (type cf) = true ->
  In ci cs -> isFloat (type ci) = false ->
  unified_format_spec little cs = SampleFormatFloat64.
Proof.
  intros Hf Hf32 Hi Hint. unfold unified_format_spec.
  assert (Hff : isFloat (type cf) = true).
  { unfold isFloat32, isFloat in *. apply andb_true_iff in Hf32. tauto. }
  rewrite (forallb_false_of_In _ cs cf Hf).
  2:{ unfold isInt16ValidBits. unfold isFloat in Hff. rewrite Hff. reflexivity. }
  rewrite (forallb_false_of_In _ cs cf Hf).
  2:{ unfold isInt24. unfold isFloat in Hff. rewrite Hff. reflexivity. }
  rewrite (forallb_false_of_In _ cs cf Hf).
  2:{ rewrite Hff. reflexivity. }
  rewrite (forallb_false_of_In _ cs ci Hi).
  2:{ unfold isFloat32. unfold isFloat in Hint. rewrite Hint. reflexivity. }
  reflexivity.
Qed.

(** What [InitMembers] leaves when it returns: the cleared members of a
    device that differs from the one it found in the handle, the dispatcher
    and the journal at most. *)
Lemma InitMembers_Returns (env : Env) (d d0 : Device) (u : unit) :
  InitMembers env d = Returns u d0 ->
  exists dj,
    d0 = cleared dj /\
    (m_Settings dj, m_StreamPositionOffset dj, m_UsedFeatures dj,
     m_DeviceUnavailableOnOpen dj, m_RequestFlags dj)
    = (m_Settings d, m_StreamPositionOffset d, m_UsedFeatures d,
       m_DeviceUnavailableOnOpen d, m_RequestFlags d).
Proof.
  unfold InitMembers. intros H.
  inv_bind H. injection Hstep as _ <-.
  inv_bind H. injection H as _ <-.
  exists d1. split; [reflexivity|].
  pose proof (keeps_reset_driver env
                (fun x => (m_Settings x, m_StreamPositionOffset x,
                           m_UsedFeatures x, m_DeviceUnavailableOnOpen x,
                           m_RequestFlags x))
                (fun _ _ => eq_refl) (fun _ _ => eq_refl)
                (set_m_DeferredBufferSwitchDispatcher false d)) as Hk.
  rewrite Hstep in Hk. exact Hk.
Qed.

Lemma InternalOpen_success (env : Env) (fuel : nat) (d d' : Device) :
  InternalOpen env fuel d = Returns true d' ->
  exists dA dB,
    m_SampleBuffer dA = no_buffers /\
    m_SampleInputBuffer dA = no_buffers /\
    allocate (format_of_flags
                (classify_channels (host_little_endian env) (m_ChannelInfo dA)))
             dA = Returns tt dB /\
    core d' = core dB.
Proof.
  intros H. unfold InternalOpen in H.
  inv_bind H. inv_bind H. inv_bind H.
  destruct a1.
  2:{ inv_bind H. discriminate. }
  injection H as ->.
  apply try_catch_Returns_true in Hstep1.
  apply InitMembers_Returns in Hstep. destruct Hstep as [dj [-> _]].
  injection Hstep0 as <- <-.
  set (d0 := cleared dj) in *.
  assert (W0 : working d0 = (no_buffers, no_buffers)) by reflexivity.
  clearbody d0.
  rename Hstep1 into H.
  do 21 (step_keeping working W0 H).
  inv_bind H. injection Hstep as <- <-.
  inv_bind H. repeat match goal with u : unit |- _ => destruct u end.
  exists d21, d22. injection W0 as W1 W2.
  split; [assumption|]. split; [assumption|]. split; [assumption|].
  match type of H with
  | ?m _ = _ =>
      assert (Hk : keeps core m) by keeps_solve
  end.
  specialize (Hk d22). rewrite H in Hk. exact Hk.
Qed.

Lemma allocate_from_empty (f : SampleFormat) (d d' : Device) :
  In f unified_formats ->
  m_SampleBuffer d = no_buffers -> m_SampleInputBuffer d = no_buffers ->
  allocate f d = Returns tt d' ->
  sampleFormat (m_Settings d') = f /\
  m_ChannelInfo d' = m_ChannelInfo d /\
  (forall g, g <> f ->
             buffer_of g (m_SampleBuffer d') = [] /\
             buffer_of g (m_SampleInputBuffer d') = []) /\
  buffer_of f (m_SampleBuffer d') =
    repeat 0 (Z.to_nat (buffer_size (m_nAsioBufferLen d')
                                    (NumChannels (m_Settings d')))) /\
  buffer_of f (m_SampleInputBuffer d') =
    repeat 0 (Z.to_nat (buffer_size (m_nAsioBufferLen d')
                                    (InputChannels (m_Settings d')))).
Proof.
  intros Hf Hout Hin H.
  destruct d as [s dr di bl len bi bc ci so si co run tot df bx rs rgs off rq uf un rf jr].
  cbn [m_SampleBuffer m_SampleInputBuffer] in Hout, Hin. subst so si.
  unfold allocate, bind, modify, gets, lift, vector_resize in H.
  cbn [m_nAsioBufferLen m_Settings m_SampleBuffer m_SampleInputBuffer
       set_m_Settings set_m_SampleBuffer set_m_SampleInputBuffer
       m_Driver m_DeferredBufferSwitchDispatcher m_BufferLatency m_BufferInfo
       m_BuffersCreated m_ChannelInfo m_CanOutputReady m_DeviceRunning
       m_TotalFramesWritten m_DeferredProcessing m_BufferIndex m_RenderSilence
       m_RenderingSilence m_StreamPositionOffset m_AsioRequest m_UsedFeatures
       m_DeviceUnavailableOnOpen m_RequestFlags journal] in H.
  unfold NumChannels in *.
  destruct s as [rate lat oc ic isid ht keep sf].
  cbn [set_sampleFormat OutputChannels InputChannels] in H.
  destruct (buffer_size len (NumHostChannels oc) <? 0); [discriminate|].
  destruct (buffer_size len ic <? 0); [discriminate|].
  injection H as <-.
  cbn [m_nAsioBufferLen m_Settings m_SampleBuffer m_SampleInputBuffer
       m_ChannelInfo set_sampleFormat sampleFormat OutputChannels InputChannels].
  assert (Hnil : forall n, firstn n (@nil Z) ++ repeat 0 (n - 0) = repeat 0 n).
  { intros n. rewrite firstn_nil, Nat.sub_0_r. reflexivity. }
  cbn [In unified_formats] in Hf.
  destruct Hf as [<-|[<-|[<-|[<-|[<-|[]]]]]];
    cbn; rewrite !Hnil;
    (split; [reflexivity|]); (split; [reflexivity|]);
    (split; [|split; reflexivity]);
    intros g Hg; destruct g; cbn; try (split; reflexivity); congruence.
Qed.

Lemma format_of_flags_unified (fl : FormatFlags) :
  In (format_of_flags fl) unified_formats.
Proof.
  unfold format_of_flags, unified_formats.
  destruct fl as [[] [] [] []]; cbn; tauto.
Qed.

(** C3. After a successful open the unified representation is what the
    priority list (all channels 16-valid-bit integer, else all native-endian
    3-byte 24-bit integer, else all integer, else all 32-bit float, else
    64-bit float) selects for the channel list; a 32-bit float channel next
    to an integer channel gives 64-bit float; the working vectors of every
    other representation are empty and those of the chosen one hold
    buffer-length times channel-count samples. *)
Theorem unified_format_at_open (env : Env) (fuel : nat) (d d' : Device) :
  InternalOpen env fuel d = Returns true d' ->
  let cs := m_ChannelInfo d' in
  let chosen := sampleFormat (m_Settings d') in
  chosen = unified_format_spec (host_little_endian env) cs /\
  (forall cf ci,
      In cf cs -> isFloat32 (type cf) = true ->
      In ci cs -> isFloat (type ci) = false ->
      chosen = SampleFormatFloat64) /\
  (forall g, g <> chosen ->
             buffer_of g (m_SampleBuffer d') = [] /\
             buffer_of g (m_SampleInputBuffer d') = []) /\
  buffer_of chosen (m_SampleBuffer d') =
    repeat 0 (Z.to_nat (buffer_size (m_nAsioBufferLen d')
                                    (NumChannels (m_Settings d')))) /\
  buffer_of chosen (m_SampleInputBuffer d') =
    repeat 0 (Z.to_nat (buffer_size (m_nAsioBufferLen d')
                                    (InputChannels (m_Settings d')))).
Proof.
  intros H cs chosen.
  destruct (InternalOpen_success env fuel d d' H)
    as [dA [dB [Hout [Hin [Halloc Hcore]]]]].
  destruct (allocate_from_empty _ dA dB (format_of_flags_unified _) Hout Hin Halloc)
    as [Hfmt [Hci [Hothers [Hbo Hbi]]]].
  unfold core in Hcore.
  injection Hcore as Hs Hc Hso Hsi Hl.
  subst cs chosen. rewrite Hs, Hc, Hso, Hsi, Hl.
  rewrite format_of_flags_spec in Hfmt, Hothers, Hbo, Hbi.
  rewrite <- Hci in Hfmt, Hothers, Hbo, Hbi.
  rewrite Hfmt.
  split; [reflexivity|].
  split.
  { intros cf ci Hcf Hf32 Hcin Hint.
    apply (mixed_float32_int_is_float64 _ _ cf ci); assumption. }
  split; [exact Hothers|].
  split; assumption.
Qed.

(** Four channels that all report 16-bit integers. *)
Lemma unified_format_at_open_witness :
  let env := plain_env (fun _ => Int16LSB) in
  let d := fresh (sample_settings 4 false) in
  let d' := opened env (sample_settings 4 false) in
  InternalOpen env 16 d = Returns true d' /\
  (let cs := m_ChannelInfo d' in
   let chosen := sampleFormat (m_Settings d') in
   chosen = unified_format_spec (host_little_endian env) cs /\
   (forall cf ci,
       In cf cs -> isFloat32 (type cf) = true ->
       In ci cs -> isFloat (type ci) = false ->
       chosen = SampleFormatFloat64) /\
   (forall g, g <> chosen ->
              buffer_of g (m_SampleBuffer d') = [] /\
              buffer_of g (m_SampleInputBuffer d') = []) /\
   buffer_of chosen (m_SampleBuffer d') =
     repeat 0 (Z.to_nat (buffer_size (m_nAsioBufferLen d')
                                     (NumChannels (m_Settings d')))) /\
   buffer_of chosen (m_SampleInputBuffer d') =
     repeat 0 (Z.to_nat (buffer_size (m_nAsioBufferLen d')
                                     (InputChannels (m_Settings d'))))).
Proof.
  intros env d d'. split.
  - vm_compute. reflexivity.
  - apply (unified_format_at_open env 16 d d'). vm_compute. reflexivity.
Defined.

Example int16_channels_open_as_int16 :
  let env := plain_env (fun _ => Int16LSB) in
  let d' := opened env (sample_settings 4 false) in
  InternalOpen env 16 (fresh (sample_settings 4 false)) = Returns true d' /\
  sampleFormat (m_Settings d') = SampleFormatInt16 /\
  List.length (bufInt16 (m_SampleBuffer d')) = 1024%nat /\
  bufDouble (m_SampleBuffer d') = [] /\ bufFloat (m_SampleBuffer d') = [] /\
  bufInt24 (m_SampleBuffer d') = [] /\ bufInt32 (m_SampleBuffer d') = [].
Proof. vm_compute. repeat split. Qed.

(** One 32-bit float channel among integer channels. *)
Example mixed_channels_open_as_float64 :
  let env := plain_env (fun ch => if ch =? 2 then Float32LSB else Int32LSB) in
  let d' := opened env (sample_settings 4 false) in
  InternalOpen env 16 (fresh (sample_settings 4 false)) = Returns true d' /\
  sampleFormat (m_Settings d') = SampleFormatFloat64 /\
  List.length (bufDouble (m_SampleBuffer d')) = 1024%nat /\
  bufFloat (m_SampleBuffer d') = [] /\ bufInt32 (m_SampleBuffer d') = [].
Proof. vm_compute. repeat split. Qed.

(** ** Fault containment *)

Lemma raises_only_ret {A} (P : Exn -> Prop) (a : A) : raises_only P (ret a).
Proof. intros d. exact I. Qed.

Lemma raises_only_gets {A} (P : Exn -> Prop) (f : Device -> A) :
  raises_only P (gets f).
Proof. intros d. exact I. Qed.

Lemma raises_only_modify (P : Exn -> Prop) (f : Device -> Device) :
  raises_only P (modify f).
Proof. intros d. exact I. Qed.

Lemma raises_only_throw {A} (P : Exn -> Prop) (e : Exn) :
  P e -> raises_only P (@throw A e).
Proof. intros H d. exact H. Qed.

Lemma raises_only_call {A} (c : DriverCall) (r : Reply A) :
  raises_only (fun e => r = Raises e) (call c r).
Proof. intros d. unfold call. destruct r; cbn; auto. Qed.

Lemma raises_only_bind {A B} (P : Exn -> Prop) (m : M A) (k : A -> M B) :
  raises_only P m -> (forall a, raises_only P (k a)) -> raises_only P (bind m k).
Proof.
  intros Hm Hk d. unfold bind. specialize (Hm d).
  destruct (m d) as [a d1|e d1| |]; try assumption.
  apply Hk.
Qed.

Lemma raises_only_try_catch {A} (P Q : Exn -> Prop) (m : M A) (h : Exn -> M A) :
  raises_only P m -> (forall e, P e -> raises_only Q (h e)) ->
  raises_only Q (try_catch m h).
Proof.
  intros Hm Hh d. unfold try_catch. specialize (Hm d).
  destruct (m d) as [a d1|e d1| |]; try assumption; try exact I.
  apply Hh. assumption.
Qed.

Lemma raises_only_if {A} (P : Exn -> Prop) (b : bool) (m1 m2 : M A) :
  raises_only P m1 -> raises_only P m2 -> raises_only P (if b then m1 else m2).
Proof. destruct b; auto. Qed.

Lemma raises_only_weaken {A} (P Q : Exn -> Prop) (m : M A) :
  raises_only P m -> (forall e, P e -> Q e) -> raises_only Q m.
Proof.
  intros Hm Himp d. specialize (Hm d). destruct (m d); auto.
Qed.

Lemma contained_weaken {A} (oom oom' : bool) (m : M A) :
  contained oom m -> (oom = true -> oom' = true) -> contained oom' m.
Proof.
  intros Hm Himp. apply (raises_only_weaken _ _ m Hm).
  intros e [He Ho]. auto.
Qed.

(** The handler raises for the out-of-memory exceptions and for no other. *)
Lemma ExceptionHandler_contained (func : string) (e : Exn) :
  contained (is_out_of_memory e) (ExceptionHandler func e).
Proof. intros d. destruct e; cbn; auto. Qed.

(** A driver call under [catch (...) { ExceptionHandler(__func__); }]. *)
Lemma guarded_call_contained (c : DriverCall) (r : Reply unit) (func : string) :
  contained (raises_oom r)
            (try_catch (call c r) (fun e => ExceptionHandler func e)).
Proof.
  apply (raises_only_try_catch (fun e => r = Raises e)).
  - apply raises_only_call.
  - intros e ->. apply ExceptionHandler_contained.
Qed.

(** *** Code that can end the process *)

Lemma lets_out_of_raises_only {A} (P : Exn -> Prop) (Ab Sp : Prop) (m : M A) :
  raises_only P m -> lets_out P Ab Sp m.
Proof. intros H d. specialize (H d). destruct (m d); tauto. Qed.

Lemma lets_out_bind {A B} (P : Exn -> Prop) (Ab Sp : Prop) (m : M A)
      (k : A -> M B) :
  lets_out P Ab Sp m -> (forall a, lets_out P Ab Sp (k a)) ->
  lets_out P Ab Sp (bind m k).
Proof.
  intros Hm Hk d. unfold bind. specialize (Hm d).
  destruct (m d) as [a d1|e d1| |]; try assumption. apply Hk.
Qed.

Lemma lets_out_try_catch {A} (P Q : Exn -> Prop) (Ab Sp : Prop) (m : M A)
      (h : Exn -> M A) :
  lets_out P Ab Sp m -> (forall e, P e -> lets_out Q Ab Sp (h e)) ->
  lets_out Q Ab Sp (try_catch m h).
Proof.
  intros Hm Hh d. unfold try_catch. specialize (Hm d).
  destruct (m d) as [a d1|e d1| |]; try assumption; try exact I.
  apply Hh. assumption.
Qed.

Lemma lets_out_if {A} (P : Exn -> Prop) (Ab Sp : Prop) (b : bool)
      (m1 m2 : M A) :
  lets_out P Ab Sp m1 -> lets_out P Ab Sp m2 ->
  lets_out P Ab Sp (if b then m1 else m2).
Proof. destruct b; auto. Qed.

Lemma lets_out_weaken {A} (P Q : Exn -> Prop) (Ab Ab' Sp Sp' : Prop) (m : M A) :
  lets_out P Ab Sp m -> (forall e, P e -> Q e) -> (Ab -> Ab') -> (Sp -> Sp') ->
  lets_out Q Ab' Sp' m.
Proof.
  intros Hm HP HA HS d. specialize (Hm d). destruct (m d); auto.
Qed.

Lemma lets_out_noexcept {A} (P : Exn -> Prop) (Ab Sp : Prop) (m : M A) :
  lets_out P Ab Sp m -> (forall e, P e -> Ab) ->
  lets_out (fun _ => False) Ab Sp (noexcept m).
Proof.
  intros Hm HP d. unfold noexcept. specialize (Hm d).
  destruct (m d); try assumption. eapply HP. eassumption.
Qed.

Lemma lets_out_scope_exit {A} (P : Exn -> Prop) (Ab Sp : Prop) (body : M A)
      (destructor : M unit) :
  lets_out P Ab Sp body ->
  lets_out (fun _ => False) Ab Sp (noexcept destructor) ->
  lets_out P Ab Sp (scope_exit body destructor).
Proof.
  intros Hb Hd d. unfold scope_exit. specialize (Hb d).
  destruct (body d) as [a d1|e d1| |]; try assumption.
  - unfold bind. specialize (Hd d1).
    destruct (noexcept destructor d1); try assumption; try exact I.
    contradiction.
  - unfold bind. specialize (Hd d1).
    destruct (noexcept destructor d1); try assumption. contradiction.
Qed.

(** Giving up the driver raises nothing; it ends the process if the
    driver's destruction raises. *)
Lemma reset_driver_lets_out (env : Env) :
  lets_out (fun _ => False) (raises (drv_destroy env) = true) False
           (reset_driver env).
Proof.
  intros d. unfold reset_driver, bind, gets, noexcept, modify, call, ret.
  destruct (m_Driver d); [|exact I].
  destruct (drv_destroy env); [exact I|reflexivity].
Qed.

Lemma CloseDriver_lets_out (env : Env) :
  lets_out (fun _ => False) (raises (drv_destroy env) = true) False
           (CloseDriver env).
Proof.
  unfold CloseDriver.
  apply lets_out_bind; [apply lets_out_of_raises_only, raises_only_gets|].
  intros open. apply lets_out_if;
    [apply lets_out_of_raises_only, raises_only_ret|].
  apply (lets_out_try_catch (fun _ => False)); [|intros e []].
  apply lets_out_bind; [apply reset_driver_lets_out|intros _].
  apply lets_out_of_raises_only, raises_only_modify.
Qed.

(** [InternalClose] lets the out-of-memory fault out when [stop] or
    [disposeBuffers] raised it, and ends the process when the driver's
    destruction raises. *)
Lemma InternalClose_lets_out (env : Env) :
  lets_out (fun e => e = OutOfMemory /\
                     raises_oom (drv_stop env)
                     || raises_oom (drv_disposeBuffers env) = true)
           (raises (drv_destroy env) = true) False
           (InternalClose env).
Proof.
  unfold InternalClose, SetRenderSilence.
  repeat first
    [ apply (lets_out_weaken _ _ _ _ _ _ _ (CloseDriver_lets_out env));
      [intros ? []|tauto|tauto]
    | apply lets_out_of_raises_only;
      apply (contained_weaken _ _ _ (guarded_call_contained _ _ _));
      intros ->; rewrite ?orb_true_r; reflexivity
    | apply lets_out_of_raises_only;
      first [ apply raises_only_ret | apply raises_only_gets
            | apply raises_only_modify ]
    | apply lets_out_if
    | apply lets_out_bind; [|intros ?] ].
Qed.

Lemma FillAsioBuffer_contained (env : Env) (useSource : bool) :
  contained (raises_oom (drv_outputReady env)) (FillAsioBuffer env useSource).
Proof.
  unfold FillAsioBuffer, emit.
  repeat first
    [ apply guarded_call_contained
    | apply raises_only_ret | apply raises_only_gets | apply raises_only_modify
    | apply raises_only_if
    | apply raises_only_bind; [|intros ?] ].
Qed.



(** A driver whose destruction raises ends the process at the close: the
    exception does not reach the handler. *)
Example close_ends_the_process_when_destroy_raises :
  let env :=
    mkEnv true false (Gives tt) (Gives tt) (Raises AsioError)
          (Gives "Sample ASIO"%string) (Gives 2) (Gives EmptyString)
          (Gives (mkChannels 2 4)) (fun _ => Gives tt)
          (Gives (Double.of_Z 44100)) (fun rate => Gives (rate <=? 96000))
          (Gives (mkBufferSizes 64 1024 256 (-1)))
          (fun infos _ =>
             Gives (map (fun b => mkBufferInfo (isInput b) (channelNum b)
                                               (4096, 8192)) infos))
          (Gives tt)
          (fun channel _ =>
             Gives (mkChannelInfo true 0 Int16LSB "ch"%string))
          (Gives true) (Gives tt) (Gives (mkLatencies 1024 1024)) (Gives tt)
          (Gives tt) (Gives true) (fun _ => 0) (fun _ => 0) in
  InternalClose env (opened env (sample_settings 2 false)) = Aborts.
Proof. vm_compute. reflexivity. Qed.

(** ** Stop requests *)

(** C5 (amended). A stop with [KeepDeviceRunning] set and not forced only
    sets the render-silence flag: the driver is not called and the device
    stays running.  Any other stop marks the device as not running and
    invokes the driver's stop once; unless that call raises out-of-memory,
    which is let through, the total-frames counter is then reset to zero and
    the silence flag cleared. *)
Theorem stop_request (env : Env) (force : bool) (d : Device) :
  if KeepDeviceRunning (m_Settings d) && negb force
  then
    exists d',
      InternalStopImpl env force d = Returns tt d' /\
      m_RenderSilence d' = true /\
      journal d' = journal d /\
      start_stop_calls d' = start_stop_calls d /\
      m_DeviceRunning d' = m_DeviceRunning d
  else
    exists d',
      (if raises_oom (drv_stop env)
       then InternalStopImpl env force d = Throws OutOfMemory d'
       else InternalStopImpl env force d = Returns tt d' /\
            m_TotalFramesWritten d' = 0 /\
            m_RenderSilence d' = false) /\
      In (Called CallStop) (journal d') /\
      start_stop_calls d' = S (start_stop_calls d) /\
      m_DeviceRunning d' = false.
Proof.
  unfold InternalStopImpl, SetRenderSilence, bind, gets, modify, try_catch, call.
  destruct (KeepDeviceRunning (m_Settings d) && negb force).
  - eexists. split; [reflexivity|]. repeat split.
  - destruct (drv_stop env) as [[]|e]; cbn [raises_oom].
    + eexists. split; [split; [reflexivity|split; reflexivity]|].
      unfold start_stop_calls. cbn. auto.
    + destruct e; cbn [is_out_of_memory ExceptionHandler];
        unfold emit, bind, modify, throw;
        eexists; (split; [first [reflexivity | split; [reflexivity|split; reflexivity]]|]);
        unfold start_stop_calls; cbn; auto 6.
Qed.

(** The claim as stated fails: a forced stop whose driver call raises
    [std::bad_alloc] neither resets the counter nor clears the flag. *)
Lemma forced_stop_out_of_memory_keeps_counter :
  let env := sample_env (fun _ => Int16LSB) (Gives tt)
                        (Gives (mkLatencies 1024 1024)) (Gives true)
                        (Gives tt) (Raises BadAlloc) in
  let d := playing env (sample_settings 2 true) true in
  exists d',
    InternalStopImpl env true d = Throws OutOfMemory d' /\
    m_TotalFramesWritten d' = 4096 /\ m_RenderSilence d' = true.
Proof. vm_compute. eexists. repeat split. Qed.

(** ** The frame counter *)

Lemma FillAsioBuffer_keeps {C} (env : Env) (p : Device -> C) (useSource : bool) :
  (forall v d, p (set_journal v d) = p d) ->
  (forall v d, p (set_m_SampleBuffer v d) = p d) ->
  (forall v d, p (set_m_SampleInputBuffer v d) = p d) ->
  keeps p (FillAsioBuffer env useSource).
Proof.
  intros Hj Ho Hi. unfold FillAsioBuffer.
  keeps_tac; try (apply keeps_ExceptionHandler; assumption).
Qed.

Lemma buffer_switch_body_contained (env : Env) (bufferIndex : Z) :
  contained (raises_oom (drv_outputReady env))
    (modify (set_m_BufferIndex bufferIndex) ;;
     rendersilence <- gets m_RenderSilence ;;
     modify (set_m_RenderingSilence rendersilence) ;;
     (if rendersilence
      then modify (fun d =>
                     set_m_StreamPositionOffset
                       (Int64.add (m_StreamPositionOffset d) (m_nAsioBufferLen d)) d) ;;
           FillAsioBuffer env false
      else SourceFillAudioBufferLocked env) ;;
     modify (fun d =>
               set_m_TotalFramesWritten
                 (UInt64.add (m_TotalFramesWritten d) (m_nAsioBufferLen d)) d)).
Proof.
  unfold SourceFillAudioBufferLocked, InternalFillAudioBuffer.
  repeat first
    [ apply FillAsioBuffer_contained
    | apply raises_only_gets | apply raises_only_modify
    | apply raises_only_if
    | apply raises_only_bind; [|intros ?] ].
Qed.

(** What a buffer switch that returns has done to the counter. *)
Lemma buffer_switch_Returns (env : Env) (bufferIndex : Z) (d d' : Device) :
  RealtimeBufferSwitchImpl env bufferIndex d = Returns tt d' ->
  m_TotalFramesWritten d' =
    UInt64.add (m_TotalFramesWritten d) (m_nAsioBufferLen d) /\
  m_nAsioBufferLen d' = m_nAsioBufferLen d /\
  m_RenderingSilence d' = m_RenderSilence d.
Proof.
  unfold RealtimeBufferSwitchImpl, noexcept. intros H.
  match type of H with
  | match ?body d with _ => _ end = _ =>
      destruct (body d) as [[] d0|e d0| |] eqn:Hb; try discriminate
  end.
  injection H as ->. rename Hb into H.
  inv_bind H. injection Hstep as _ <-.
  inv_bind H. injection Hstep as <- <-.
  inv_bind H. injection Hstep as _ <-.
  inv_bind H.
  match type of Hstep with
  | ?m ?d0 = Returns _ ?d1 =>
      assert (Hkeep : keeps (fun x => (m_TotalFramesWritten x, m_nAsioBufferLen x,
                                       m_RenderingSilence x)) m);
        [|specialize (Hkeep d0); rewrite Hstep in Hkeep; cbn in Hkeep;
          rename Hkeep into Hk]
  end.
  { unfold SourceFillAudioBufferLocked, InternalFillAudioBuffer.
    apply keeps_if.
    - apply keeps_bind; [apply keeps_modify; reflexivity|intros _].
      apply FillAsioBuffer_keeps; reflexivity.
    - apply FillAsioBuffer_keeps; reflexivity. }
  injection Hk as Ht Hl Hr.
  injection H as <-.
  cbn [m_TotalFramesWritten m_nAsioBufferLen m_RenderingSilence
       set_m_TotalFramesWritten].
  rewrite Ht, Hl, Hr. repeat split.
Qed.

Lemma UInt64_add_exact (a b : Z) :
  0 <= a + b < UInt64.modulus -> UInt64.add a b = a + b.
Proof. intros H. unfold UInt64.add, UInt64.wrap. apply Z.mod_small. exact H. Qed.

(** C8. A buffer switch, silent or not, that finds the counter and the
    buffer length within range returns with the counter advanced by exactly
    the buffer length, hence not smaller; the only other way it can end is
    the process abort when [outputReady] raises out-of-memory. *)
Theorem buffer_switch_advances_total (env : Env) (bufferIndex : Z) (d : Device) :
  0 <= m_nAsioBufferLen d ->
  0 <= m_TotalFramesWritten d ->
  m_TotalFramesWritten d + m_nAsioBufferLen d < UInt64.modulus ->
  match RealtimeBufferSwitchImpl env bufferIndex d with
  | Returns _ d' =>
      m_TotalFramesWritten d' = m_TotalFramesWritten d + m_nAsioBufferLen d /\
      m_TotalFramesWritten d <= m_TotalFramesWritten d' /\
      m_nAsioBufferLen d' = m_nAsioBufferLen d /\
      m_RenderingSilence d' = m_RenderSilence d
  | Aborts => raises_oom (drv_outputReady env) = true
  | Throws _ _ | Spins => False
  end.
Proof.
  intros Hlen Htot Hfit.
  pose proof (buffer_switch_body_contained env bufferIndex d) as Hc.
  pose proof (buffer_switch_Returns env bufferIndex d) as Hr.
  unfold RealtimeBufferSwitchImpl, noexcept in Hr |- *.
  match goal with
  | |- match match ?body d with _ => _ end with _ => _ end =>
      change (match body d with
              | Returns _ _ => True
              | Throws e _ =>
                  e = OutOfMemory /\ raises_oom (drv_outputReady env) = true
              | Aborts | Spins => False
              end) in Hc;
      destruct (body d) as [[] d'|e d'| |]; try tauto
  end.
  destruct (Hr d' eq_refl) as [Ht [Hl Hs]].
  rewrite UInt64_add_exact in Ht by lia.
  rewrite Ht. repeat split; try assumption; lia.
Qed.

(** Over a run of buffer periods the counter grows by the buffer length
    each time, so it never decreases while the device is started. *)
Lemma buffer_switches_total (env : Env) (bufferIndices : list Z) :
  forall d d',
    0 <= m_nAsioBufferLen d ->
    0 <= m_TotalFramesWritten d ->
    m_TotalFramesWritten d
      + Z.of_nat (List.length bufferIndices) * m_nAsioBufferLen d
      < UInt64.modulus ->
    buffer_switches env bufferIndices d = Returns tt d' ->
    m_TotalFramesWritten d' =
      m_TotalFramesWritten d
      + Z.of_nat (List.length bufferIndices) * m_nAsioBufferLen d /\
    m_TotalFramesWritten d <= m_TotalFramesWritten d'.
Proof.
  unfold buffer_switches.
  induction bufferIndices as [|i l IH]; intros d d' Hlen Htot Hfit H.
  - injection H as <-. cbn [List.length Z.of_nat]. lia.
  - cbn [for_each] in H. apply bind_Returns in H.
    destruct H as [[] [d1 [H1 H]]].
    destruct (buffer_switch_Returns env i d d1 H1) as [Ht [Hl _]].
    cbn [List.length] in Hfit |- *. rewrite Nat2Z.inj_succ in Hfit |- *.
    rewrite UInt64_add_exact in Ht by nia.
    destruct (IH d1 d') as [Ht' Hle']; try assumption.
    + lia.
    + lia.
    + rewrite Ht, Hl. nia.
    + rewrite Ht', Ht, Hl. split; nia.
Qed.

Lemma buffer_switch_advances_total_witness :
  let env := plain_env (fun _ => Int16LSB) in
  let d := playing env (sample_settings 2 true) true in
  0 <= m_nAsioBufferLen d /\
  0 <= m_TotalFramesWritten d /\
  m_TotalFramesWritten d + m_nAsioBufferLen d < UInt64.modulus /\
  match RealtimeBufferSwitchImpl env 1 d with
  | Returns _ d' =>
      m_TotalFramesWritten d' = m_TotalFramesWritten d + m_nAsioBufferLen d /\
      m_TotalFramesWritten d <= m_TotalFramesWritten d' /\
      m_nAsioBufferLen d' = m_nAsioBufferLen d /\
      m_RenderingSilence d' = m_RenderSilence d
  | Aborts => raises_oom (drv_outputReady env) = true
  | Throws _ _ | Spins => False
  end.
Proof.
  intros env d.
  assert (H1 : 0 <= m_nAsioBufferLen d) by (vm_compute; discriminate).
  assert (H2 : 0 <= m_TotalFramesWritten d) by (vm_compute; discriminate).
  assert (H3 : m_TotalFramesWritten d + m_nAsioBufferLen d < UInt64.modulus)
    by (vm_compute; reflexivity).
  split; [exact H1|]. split; [exact H2|]. split; [exact H3|].
  exact (buffer_switch_advances_total env 1 d H1 H2 H3).
Defined.

Example buffer_switch_counts :
  let env := plain_env (fun _ => Int16LSB) in
  let d := playing env (sample_settings 2 true) false in
  m_nAsioBufferLen d = 256 /\
  match RealtimeBufferSwitchImpl env 0 d with
  | Returns _ d1 =>
      m_TotalFramesWritten d1 = 4352 /\
      match RealtimeBufferSwitchImpl env 1 (set_m_RenderSilence true d1) with
      | Returns _ d2 =>
          m_TotalFramesWritten d2 = 4608 /\ m_RenderingSilence d2 = true
      | _ => False
      end
  | _ => False
  end.
Proof. vm_compute. repeat split. Qed.

(** ** The temporary open of a capability query *)

Lemma keeps_collect {A C} (p : Device -> C) (l : list A)
      (step : A -> DynamicCaps -> M DynamicCaps) :
  (forall x caps, keeps p (step x caps)) ->
  forall caps, keeps p (collect l step caps).
Proof.
  intros H. induction l as [|x l IH]; intros caps; cbn [collect].
  - apply keeps_ret.
  - apply keeps_bind; auto.
Qed.

Lemma raises_only_collect {A} (P : Exn -> Prop) (l : list A)
      (step : A -> DynamicCaps -> M DynamicCaps) :
  (forall x caps, raises_only P (step x caps)) ->
  forall caps, raises_only P (collect l step caps).
Proof.
  intros H. induction l as [|x l IH]; intros caps; cbn [collect].
  - apply raises_only_ret.
  - apply raises_only_bind; auto.
Qed.

Lemma ExceptionHandler_raises_oom (func : string) (e : Exn) :
  raises_only (fun e' => e' = OutOfMemory) (ExceptionHandler func e).
Proof.
  apply (raises_only_weaken _ _ _ (ExceptionHandler_contained func e)).
  tauto.
Qed.

(** A handler that ends in [ExceptionHandler] lets only the out-of-memory
    fault out, whatever the guarded code raises. *)
Lemma guarded_raises_oom {A} (body : M A) (func : string) (k : M A) :
  raises_only (fun _ => True) body ->
  raises_only (fun e => e = OutOfMemory) k ->
  raises_only (fun e => e = OutOfMemory)
              (try_catch body (fun e => ExceptionHandler func e ;; k)).
Proof.
  intros Hb Hk. apply (raises_only_try_catch (fun _ => True)); [assumption|].
  intros e _. apply raises_only_bind; [apply ExceptionHandler_raises_oom|].
  intros _. assumption.
Qed.

Ltac total_solve :=
  repeat first
    [ apply raises_only_ret | apply raises_only_gets | apply raises_only_modify
    | apply (raises_only_weaken _ _ _ (raises_only_call _ _)); intros; exact I
    | apply raises_only_if
    | apply raises_only_bind; [|intros ?]
    | match goal with
      | |- raises_only _ (if ?b then _ else _) => destruct b
      end ].

Lemma channel_name_raises_oom (env : Env) (i : Z) (input : bool) :
  raises_only (fun e => e = OutOfMemory) (channel_name env i input).
Proof.
  unfold channel_name. apply guarded_raises_oom.
  - total_solve.
  - apply raises_only_ret.
Qed.

Lemma CloseDriver_closes (env : Env) (d : Device) :
  match CloseDriver env d with
  | Returns _ d' => m_Driver d' = false
  | Aborts => raises (drv_destroy env) = true
  | Throws _ _ | Spins => False
  end.
Proof.
  unfold CloseDriver, IsDriverOpen. unfold bind at 1. unfold gets at 1.
  destruct (m_Driver d) eqn:Hopen; cbn [negb]; [|exact Hopen].
  unfold try_catch, reset_driver.
  unfold bind, gets, noexcept, modify, call, ret.
  cbv beta. rewrite Hopen.
  destruct (drv_destroy env) as [[]|e]; reflexivity.
Qed.

(** What the handler of [OpenDriver]'s second block leaves. *)
Lemma close_then_handle_closes (env : Env) (func : string) (e : Exn) (d : Device) :
  match (CloseDriver env ;; ExceptionHandler func e) d with
  | Returns _ d' => m_Driver d' = false
  | Throws e' d' => e' = OutOfMemory /\ m_Driver d' = false
  | Aborts => raises (drv_destroy env) = true
  | Spins => False
  end.
Proof.
  unfold bind. pose proof (CloseDriver_closes env d) as Hc.
  destruct (CloseDriver env d) as [[] d1|e1 d1| |]; try tauto.
  pose proof (keeps_ExceptionHandler m_Driver func e
                (fun _ _ => eq_refl) d1) as Hk.
  pose proof (ExceptionHandler_raises_oom func e d1) as Ho.
  destruct (ExceptionHandler func e d1); try tauto.
  - congruence.
  - split; [assumption|congruence].
Qed.

Lemma OpenDriver_outcome (env : Env) (d : Device) :
  m_Driver d = false ->
  match OpenDriver env d with
  | Returns _ _ => True
  | Throws e d' => e = OutOfMemory /\ m_Driver d' = false
  | Aborts => raises (drv_destroy env) = true
  | Spins => False
  end.
Proof.
  intros Hclosed.
  unfold OpenDriver.
  unfold bind at 1. unfold IsDriverOpen at 1. unfold gets at 1.
  rewrite Hclosed.
  unfold bind at 1.
  match goal with
  | |- match match try_catch ?b ?h d with _ => _ end with _ => _ end =>
      assert (H1 : match try_catch b h d with
                   | Returns _ _ => True
                   | Throws e d' => e = OutOfMemory /\ m_Driver d' = false
                   | Aborts | Spins => False
                   end)
  end.
  { unfold try_catch, bind, call, modify, ret.
    destruct (AllowDeferredProcessing env);
      [destruct (drv_createDispatcher env) as [[]|[]]; cbn; auto|];
      destruct (drv_construct env) as [[]|[]]; cbn; auto. }
  match goal with
  | |- match match ?o with _ => _ end with _ => _ end =>
      destruct o as [created d1|e d1| |]; try tauto
  end.
  destruct created; cbn [negb]; [|exact I].
  unfold try_catch.
  match goal with
  | |- match match ?b d1 with _ => _ end with _ => _ end =>
      assert (H2 : raises_only (fun _ => True) b) by total_solve;
      specialize (H2 d1); destruct (b d1) as [[] d2|e d2| |]; try tauto
  end.
  pose proof (close_then_handle_closes env "OpenDriver" e d2) as Hc.
  destruct ((CloseDriver env ;; ExceptionHandler "OpenDriver" e) d2);
    tauto.
Qed.

(** The body of the query neither closes nor opens the driver, and lets
    only the out-of-memory fault out. *)
Lemma query_body_keeps_handle (env : Env) (baseSampleRates : list Z) :
  forall d,
    match GetDeviceDynamicCaps env baseSampleRates d with
    | Returns _ d' => m_Driver d' = m_Driver d
    | Throws e d' => e = OutOfMemory /\ m_Driver d' = m_Driver d
    | Aborts => raises (drv_destroy env) = true
    | Spins => False
    end.
Proof.
  intros d. unfold GetDeviceDynamicCaps.
  match goal with
  | |- match bind _ (fun wasOpen => bind _ (fun _ => scope_exit ?body _)) _
       with _ => _ end =>
      assert (Hkeep : keeps m_Driver body);
        [|assert (Hoom : raises_only (fun e => e = OutOfMemory) body)]
  end.
  { unfold channel_name.
    repeat first
      [ apply keeps_collect; intros ? ?
      | keeps_step
      | apply keeps_ExceptionHandler
      | reflexivity ]. }
  { repeat first
      [ apply channel_name_raises_oom
      | apply raises_only_collect; intros ? ?
      | apply guarded_raises_oom;
        [repeat first
           [ apply (raises_only_weaken _ _ _ (channel_name_raises_oom _ _ _));
             intros; exact I
           | apply raises_only_collect; intros ? ?
           | progress total_solve ]|]
      | apply raises_only_ret | apply raises_only_gets | apply raises_only_modify
      | apply raises_only_if
      | apply raises_only_bind; [|intros ?] ]. }
  unfold bind at 1. unfold IsDriverOpen at 1. unfold gets at 1.
  destruct (m_Driver d) eqn:Hopen; cbn [negb].
  - unfold bind at 1. unfold ret at 1. unfold scope_exit.
    specialize (Hkeep d). specialize (Hoom d).
    match goal with
    | |- match match ?o with _ => _ end with _ => _ end => destruct o
    end; cbn; try congruence; try tauto.
    split; congruence.
  - unfold bind at 1.
    pose proof (OpenDriver_outcome env d Hopen) as Hod.
    destruct (OpenDriver env d) as [[] d1|e d1| |]; try tauto.
    + unfold scope_exit.
      specialize (Hkeep d1). specialize (Hoom d1).
      match goal with
      | |- match match ?o with _ => _ end with _ => _ end =>
          destruct o as [caps d2|e d2| |]
      end; try tauto.
      * unfold bind, noexcept.
        pose proof (CloseDriver_closes env d2) as Hc.
        destruct (CloseDriver env d2); cbn; tauto.
      * unfold bind, noexcept.
        pose proof (CloseDriver_closes env d2) as Hc.
        destruct (CloseDriver env d2); cbn; tauto.
Qed.

(** C9 (amended). When the query returns or raises, the driver is open
    exactly if it was open before; the only exception it raises is the
    out-of-memory fault, and it ends the process only if destroying the
    driver raises.  When the temporary open fails without raising, the
    query returns the empty capability result and marks the device as
    unavailable.  When the temporary open raises, which it does for
    out-of-memory only, the query raises the out-of-memory fault from the
    state the open left. *)
Theorem dynamic_caps_query (env : Env) (baseSampleRates : list Z) (d : Device) :
  match GetDeviceDynamicCaps env baseSampleRates d with
  | Returns _ d' => m_Driver d' = m_Driver d
  | Throws e d' => e = OutOfMemory /\ m_Driver d' = m_Driver d
  | Aborts => raises (drv_destroy env) = true
  | Spins => False
  end /\
  match temporary_open_failed env d with
  | Some d1 =>
      GetDeviceDynamicCaps env baseSampleRates d =
      Returns empty_caps (set_m_DeviceUnavailableOnOpen true d1)
  | None => True
  end /\
  (if m_Driver d then True
   else match OpenDriver env d with
        | Throws e d1 =>
            e = OutOfMemory /\
            GetDeviceDynamicCaps env baseSampleRates d = Throws OutOfMemory d1
        | _ => True
        end).
Proof.
  split; [apply query_body_keeps_handle|]. split.
  - unfold temporary_open_failed.
    destruct (m_Driver d) eqn:Hopen; [exact I|].
    destruct (OpenDriver env d) as [[] d1|e d1| |] eqn:Hod; try exact I.
    destruct (m_Driver d1) eqn:Hopen1; [exact I|].
    unfold GetDeviceDynamicCaps.
    unfold bind at 1. unfold IsDriverOpen at 1. unfold gets at 1.
    rewrite Hopen. cbn [negb].
    unfold bind at 1. rewrite Hod.
    unfold scope_exit.
    unfold bind at 1. unfold IsDriverOpen at 1. unfold gets at 1.
    rewrite Hopen1. cbn [negb].
    unfold bind at 1. unfold modify at 1. unfold ret at 1.
    unfold bind, noexcept, CloseDriver, IsDriverOpen, gets.
    cbn. rewrite Hopen1. reflexivity.
  - destruct (m_Driver d) eqn:Hopen; [exact I|].
    pose proof (OpenDriver_outcome env d Hopen) as Ho.
    destruct (OpenDriver env d) as [[] d1|e d1| |] eqn:Hod; try exact I.
    destruct Ho as [-> _]. split; [reflexivity|].
    unfold GetDeviceDynamicCaps.
    unfold bind at 1. unfold IsDriverOpen at 1. unfold gets at 1.
    rewrite Hopen. cbn [negb].
    unfold bind at 1. rewrite Hod. reflexivity.
Qed.

(** The claim as stated fails: when constructing the driver raises
    [std::bad_alloc], the temporary open fails and the query raises. *)
Lemma query_raises_when_open_runs_out_of_memory :
  let env := sample_env (fun _ => Int16LSB) (Raises BadAlloc)
                        (Gives (mkLatencies 1024 1024)) (Gives true)
                        (Gives tt) (Gives tt) in
  let d := fresh (sample_settings 2 false) in
  exists d',
    OpenDriver env d = Throws OutOfMemory d' /\ m_Driver d' = false /\
    GetDeviceDynamicCaps env [44100; 48000] d = Throws OutOfMemory d'.
Proof. vm_compute. eexists. repeat split. Qed.

Example query_degrades_when_driver_fails_to_load :
  let env := sample_env (fun _ => Int16LSB) (Raises DriverLoadFailed)
                        (Gives (mkLatencies 1024 1024)) (Gives true)
                        (Gives tt) (Gives tt) in
  let d := fresh (sample_settings 2 false) in
  exists d',
    GetDeviceDynamicCaps env [44100; 48000] d = Returns empty_caps d' /\
    m_Driver d' = false /\ m_DeviceUnavailableOnOpen d' = true.
Proof. vm_compute. eexists. repeat split. Qed.

Example query_reports_and_closes_again :
  let env := plain_env (fun _ => Int16LSB) in
  let d := fresh (sample_settings 2 false) in
  exists caps d',
    GetDeviceDynamicCaps env [44100; 192000] d = Returns caps d' /\
    currentSampleRate caps = 44100 /\
    supportedSampleRates caps = [44100] /\
    List.length (channelNames caps) = 4%nat /\
    m_Driver d' = false.
Proof. vm_compute. do 2 eexists. repeat split. Qed.

(** ** Close *)

(** [InternalClose] never touches the two 64-bit float working vectors. *)
Lemma InternalClose_keeps_double_buffers (env : Env) :
  keeps (fun d => (bufDouble (m_SampleBuffer d),
                   bufDouble (m_SampleInputBuffer d)))
        (InternalClose env).
Proof.
  unfold InternalClose, SetRenderSilence. keeps_solve.
Qed.

Lemma establishes_modify {B} (p : Device -> B) (v : B) (f : Device -> Device) :
  (forall d, p (f d) = v) -> establishes p v (modify f).
Proof. intros H d. apply H. Qed.

Lemma establishes_then_keeps {A B C} (p : Device -> C) (v : C)
      (m : M A) (k : A -> M B) :
  establishes p v m -> (forall a, keeps p (k a)) -> establishes p v (bind m k).
Proof.
  intros Hm Hk d. unfold bind. specialize (Hm d).
  destruct (m d) as [a d1|e d1| |]; try exact I.
  specialize (Hk a d1). destruct (k a d1); try exact I. congruence.
Qed.

Lemma establishes_later {A B C} (p : Device -> C) (v : C)
      (m : M A) (k : A -> M B) :
  (forall a, establishes p v (k a)) -> establishes p v (bind m k).
Proof.
  intros Hk d. unfold bind. destruct (m d) as [a d1|e d1| |]; try exact I.
  apply Hk.
Qed.

Lemma establishes_CloseDriver (env : Env) :
  establishes m_Driver false (CloseDriver env).
Proof.
  intros d. pose proof (CloseDriver_closes env d) as H.
  destruct (CloseDriver env d); tauto.
Qed.

(** Find the assignment that establishes the observation, and check that
    everything after it keeps the observation. *)
Ltac establish :=
  first
    [ apply establishes_then_keeps;
      [ first [ apply establishes_modify; reflexivity
              | apply establishes_CloseDriver ]
      | intros ?; solve [keeps_solve] ]
    | apply establishes_later; intros ?; establish ].

(** Apart from the two 64-bit float vectors, a close that returns leaves the
    instance closed, with the other working vectors and the channel lists
    empty. *)
Lemma InternalClose_clears (env : Env) (d d' : Device) (b : bool) :
  InternalClose env d = Returns b d' ->
  m_Driver d' = false /\ m_DeviceRunning d' = false /\
  m_ChannelInfo d' = [] /\ m_BufferInfo d' = [] /\
  bufFloat (m_SampleBuffer d') = [] /\ bufInt16 (m_SampleBuffer d') = [] /\
  bufInt24 (m_SampleBuffer d') = [] /\ bufInt32 (m_SampleBuffer d') = [] /\
  bufFloat (m_SampleInputBuffer d') = [] /\
  bufInt16 (m_SampleInputBuffer d') = [] /\
  bufInt24 (m_SampleInputBuffer d') = [] /\
  bufInt32 (m_SampleInputBuffer d') = [] /\
  bufDouble (m_SampleBuffer d') = bufDouble (m_SampleBuffer d) /\
  bufDouble (m_SampleInputBuffer d') = bufDouble (m_SampleInputBuffer d).
Proof.
  intros H.
  assert (E : forall {B} (p : Device -> B) (v : B),
             establishes p v (InternalClose env) -> p d' = v).
  { intros B p v He. specialize (He d). rewrite H in He. exact He. }
  pose proof (InternalClose_keeps_double_buffers env d) as Hd.
  rewrite H in Hd. injection Hd as Hd1 Hd2.
  split; [apply (E _ m_Driver); unfold InternalClose, SetRenderSilence; establish|].
  split.
  { (* the device is marked as not running, or was not running *)
    clear E. unfold InternalClose in H.
    apply bind_Returns in H. destruct H as [running [d1 [Hr H]]].
    injection Hr as <- <-.
    apply bind_Returns in H. destruct H as [[] [d2 [H2 H]]].
    assert (Hnr : m_DeviceRunning d2 = false).
    { destruct (m_DeviceRunning d) eqn:Hrun.
      - assert (He : establishes m_DeviceRunning false
                       (modify (set_m_DeviceRunning false) ;;
                        try_catch (call CallStop (drv_stop env))
                                  (fun e => ExceptionHandler "InternalClose" e) ;;
                        modify (set_m_TotalFramesWritten 0)))
          by establish.
        specialize (He d). rewrite H2 in He. exact He.
      - injection H2 as <-. exact Hrun. }
    match type of H with
    | ?m d2 = _ =>
        assert (Hk : keeps m_DeviceRunning m)
          by (unfold SetRenderSilence; keeps_solve)
    end.
    specialize (Hk d2). rewrite H in Hk. congruence. }
  split; [apply (E _ m_ChannelInfo); unfold InternalClose, SetRenderSilence; establish|].
  split; [apply (E _ m_BufferInfo); unfold InternalClose, SetRenderSilence; establish|].
  split; [apply (E _ (fun x => bufFloat (m_SampleBuffer x)));
          unfold InternalClose, SetRenderSilence; establish|].
  split; [apply (E _ (fun x => bufInt16 (m_SampleBuffer x)));
          unfold InternalClose, SetRenderSilence; establish|].
  split; [apply (E _ (fun x => bufInt24 (m_SampleBuffer x)));
          unfold InternalClose, SetRenderSilence; establish|].
  split; [apply (E _ (fun x => bufInt32 (m_SampleBuffer x)));
          unfold InternalClose, SetRenderSilence; establish|].
  split; [apply (E _ (fun x => bufFloat (m_SampleInputBuffer x)));
          unfold InternalClose, SetRenderSilence; establish|].
  split; [apply (E _ (fun x => bufInt16 (m_SampleInputBuffer x)));
          unfold InternalClose, SetRenderSilence; establish|].
  split; [apply (E _ (fun x => bufInt24 (m_SampleInputBuffer x)));
          unfold InternalClose, SetRenderSilence; establish|].
  split; [apply (E _ (fun x => bufInt32 (m_SampleInputBuffer x)));
          unfold InternalClose, SetRenderSilence; establish|].
  split; assumption.
Qed.

(** C2. With 64-bit float channels the working vectors of that
    representation survive a close: the rollback close of an open whose
    [canOutputReady] call crashes, and the close of an opened device, both
    leave the instance closed with empty channel lists and with the 512
    samples of [m_SampleBufferDouble] still in place. *)
Theorem close_leaves_double_buffers :
  let s := sample_settings 2 false in
  let crashing :=
    sample_env (fun _ => Float64LSB) (Gives tt) (Gives (mkLatencies 1024 1024))
               (Raises (DriverCrash "canOutputReady")) (Gives tt) (Gives tt) in
  let env := plain_env (fun _ => Float64LSB) in
  (exists d',
      InternalOpen crashing 16 (fresh s) = Returns false d' /\
      m_Driver d' = false /\ m_DeviceRunning d' = false /\
      m_ChannelInfo d' = [] /\ m_BufferInfo d' = [] /\
      bufFloat (m_SampleBuffer d') = [] /\
      List.length (bufDouble (m_SampleBuffer d')) = 512%nat) /\
  (exists d',
      InternalClose env (opened env s) = Returns true d' /\
      m_Driver (opened env s) = true /\
      m_Driver d' = false /\ m_DeviceRunning d' = false /\
      m_ChannelInfo d' = [] /\ m_BufferInfo d' = [] /\
      List.length (bufDouble (m_SampleBuffer d')) = 512%nat).
Proof. vm_compute. split; eexists; repeat split. Qed.

(** ** Latency *)

Lemma Long_add_exact (a b : Z) : Long.in_range (a + b) -> Long.add a b = a + b.
Proof. apply wrap_small. Qed.

(** What [UpdateLatency] stores for a reported output latency. *)
Lemma UpdateLatency_reported (env : Env) (d : Device) (reported : Latencies) :
  drv_getLatencies env = Gives reported ->
  let L := LatencyOutput reported in
  let B := m_nAsioBufferLen d in
  let rate := Double.of_Z (Samplerate (m_Settings d)) in
  UpdateLatency env d =
  Returns tt
    (set_m_BufferLatency
       (if B <=? L
        then Double.div (Double.of_Z (Long.add L B)) rate
        else Double.div (Double.mul Double.two (Double.of_Z B)) rate)
       (set_journal (Called CallGetLatencies :: journal d) d)).
Proof.
  intros Hrep L B rate.
  unfold UpdateLatency, bind, try_catch, call, gets, modify.
  rewrite Hrep. cbn. fold L B.
  destruct (B <=? L); reflexivity.
Qed.

(** As long as the sum fits [ASIO::Long], a reported latency of at least
    one buffer gives [(L + B) / sampleRate] and a smaller one gives
    [2 * B / sampleRate], both in binary64. *)
Lemma UpdateLatency_formula (env : Env) (d : Device) (reported : Latencies) :
  drv_getLatencies env = Gives reported ->
  let L := LatencyOutput reported in
  let B := m_nAsioBufferLen d in
  let rate := Double.of_Z (Samplerate (m_Settings d)) in
  Long.in_range (L + B) ->
  exists d',
    UpdateLatency env d = Returns tt d' /\
    m_BufferLatency d' =
      (if B <=? L
       then Double.div (Double.of_Z (L + B)) rate
       else Double.div (Double.mul Double.two (Double.of_Z B)) rate).
Proof.
  intros Hrep L B rate Hfit.
  eexists. split; [apply UpdateLatency_reported; eassumption|].
  cbn. fold L B rate. rewrite Long_add_exact by assumption. reflexivity.
Qed.

Example latency_44100_512 :
  let d := set_m_nAsioBufferLen 512 (fresh (sample_settings 2 false)) in
  let env L := sample_env (fun _ => Int16LSB) (Gives tt)
                          (Gives (mkLatencies 0 L)) (Gives true)
                          (Gives tt) (Gives tt) in
  (exists d', UpdateLatency (env 1024) d = Returns tt d' /\
              m_BufferLatency d' =
              Double.div (Double.of_Z (1024 + 512)) (Double.of_Z 44100)) /\
  (exists d', UpdateLatency (env 100) d = Returns tt d' /\
              m_BufferLatency d' =
              Double.div (Double.of_Z (2 * 512)) (Double.of_Z 44100)).
Proof. vm_compute. split; eexists; split; reflexivity. Qed.

(** C4. A reported output latency of 2147483647 frames with a buffer of
    512: the sum is formed in [ASIO::Long] and wraps, so the stored latency
    is [-2147483137 / 44100], a negative number, and not
    [(2147483647 + 512) / 44100]. *)
Theorem latency_sum_overflows :
  let d := set_m_nAsioBufferLen 512 (fresh (sample_settings 2 false)) in
  let env := sample_env (fun _ => Int16LSB) (Gives tt)
                        (Gives (mkLatencies 0 2147483647)) (Gives true)
                        (Gives tt) (Gives tt) in
  exists d',
    UpdateLatency env d = Returns tt d' /\
    m_BufferLatency d' =
      Double.div (Double.of_Z (-2147483137)) (Double.of_Z 44100) /\
    Double.ltb (m_BufferLatency d') Double.zero = true /\
    m_BufferLatency d' <>
      Double.div (Double.of_Z (2147483647 + 512)) (Double.of_Z 44100).
Proof.
  vm_compute. eexists. split; [reflexivity|].
  split; [reflexivity|]. split; [reflexivity|]. discriminate.
Qed.

(** ** Sample-rate change *)

Lemma land_lor_same (a b : Z) : Z.land (Z.lor a b) b = b.
Proof.
  apply Z.bits_inj. intros n.
  rewrite Z.land_spec, Z.lor_spec.
  destruct (Z.testbit a n), (Z.testbit b n); reflexivity.
Qed.

(** C10. A reported rate that rounds to the configured rate leaves the
    device as it is.  Any other rate records the [SampleRateChange]
    feature; if it lies within the 5% tolerance, as the code evaluates it in
    binary64, nothing else changes and no close is requested, and otherwise
    the close request is recorded. *)
Theorem sample_rate_change (sRate : Double.t) (d : Device) :
  let d' := RealtimeSampleRateDidChange sRate d in
  let rate := Samplerate (m_Settings d) in
  if Double.saturate_round_uint32 sRate =? rate
  then d' = d
  else
    Z.land (m_UsedFeatures d') AsioFeature.SampleRateChange
      = AsioFeature.SampleRateChange /\
    m_DeviceRunning d' = m_DeviceRunning d /\
    m_Driver d' = m_Driver d /\
    if within_tolerance rate sRate
    then d' = set_m_UsedFeatures
                (Z.lor (m_UsedFeatures d) AsioFeature.SampleRateChange) d /\
         m_RequestFlags d' = m_RequestFlags d
    else Z.land (m_RequestFlags d') RequestFlagClose = RequestFlagClose.
Proof.
  intros d' rate. subst d' rate. unfold RealtimeSampleRateDidChange.
  destruct (Double.saturate_round_uint32 sRate =? Samplerate (m_Settings d));
    [reflexivity|].
  cbn [m_Settings set_m_UsedFeatures].
  destruct (within_tolerance (Samplerate (m_Settings d)) sRate).
  - cbn. rewrite land_lor_same. auto.
  - unfold RequestClose. cbn. rewrite !land_lor_same. auto.
Qed.

(** The tolerance at 44100 Hz: 41895 and 46305 are the last rates within. *)
Example tolerance_44100 :
  within_tolerance 44100 (Double.of_Z 41895) = true /\
  within_tolerance 44100 (Double.of_Z 41894) = false /\
  within_tolerance 44100 (Double.of_Z 46305) = true /\
  within_tolerance 44100 (Double.of_Z 46306) = false /\
  AsioSampleRateTolerance = Double.div (Double.of_Z 5) (Double.of_Z 100).
Proof. vm_compute. repeat split. Qed.

Example sample_rate_changes_at_44100 :
  let d := playing (plain_env (fun _ => Int16LSB)) (sample_settings 2 false) false in
  let nearly := Double.div (Double.of_Z 441003) (Double.of_Z 10) in
  RealtimeSampleRateDidChange nearly d = d /\
  m_UsedFeatures (RealtimeSampleRateDidChange (Double.of_Z 45000) d) = 16 /\
  m_RequestFlags (RealtimeSampleRateDidChange (Double.of_Z 45000) d) = 0 /\
  m_UsedFeatures (RealtimeSampleRateDidChange (Double.of_Z 48000) d) = 16 /\
  m_RequestFlags (RealtimeSampleRateDidChange (Double.of_Z 48000) d) = 1.
Proof. vm_compute. repeat split. Qed.

(** ** More on the negotiation: what the scans select *)

Lemma limits_sane (bs : BufferSizes) :
  limits_degenerate bs = false -> 0 < Min bs <= Max bs.
Proof.
  unfold limits_degenerate. intros Hdeg.
  apply orb_false_iff in Hdeg. destruct Hdeg as [Hdeg H3].
  apply orb_false_iff in Hdeg. destruct Hdeg as [H1 H2].
  apply Z.leb_gt in H1. apply Z.ltb_ge in H3. lia.
Qed.

(** The doubling scan from 1 that keeps the candidates from [mn] on: it ends
    on the largest power of two below the target when that reaches [mn], and
    on the initial length otherwise. *)
Lemma scan_ragged (mn mx c : Z) :
  0 < mn -> mn <= c -> c <= mx -> 2 * c <= Long.max_signed ->
  forall (n : nat) (j len : Z),
    0 <= j -> 2 ^ j <= c -> c - 2 ^ j < Z.of_nat n ->
    len = (if (0 <? j) && (mn <=? 2 ^ (j - 1)) then 2 ^ (j - 1) else c) ->
    scan (S n) double_step (fun b => mn <=? b) mx c (2 ^ j) len
    = Some (if mn <=? 2 ^ Z.log2 c then 2 ^ Z.log2 c else c).
Proof.
  intros Hmn Hc Hmx Hfit. induction n as [|n IH]; intros j len Hj Hle Hn Hlen.
  - lia.
  - remember (S n) as m. cbn [scan].
    destruct (Z.leb_spec (2 ^ j) mx); [|lia].
    destruct (Z.leb_spec (2 ^ j) c); [|lia].
    cbn [andb]. subst m.
    assert (Hpos : 0 < 2 ^ j) by (apply Z.pow_pos_nonneg; lia).
    assert (Hstep : double_step (2 ^ j) = 2 ^ (j + 1)).
    { rewrite double_step_exact by lia. rewrite Z.pow_add_r by lia.
      change (2 ^ 1) with 2. lia. }
    rewrite Hstep.
    assert (Hlen' : (if mn <=? 2 ^ j then 2 ^ j else len)
                    = (if mn <=? 2 ^ j then 2 ^ j else c)).
    { destruct (Z.leb_spec mn (2 ^ j)) as [Hk|Hk]; [reflexivity|].
      subst len. destruct (Z.ltb_spec 0 j) as [Hj0|Hj0]; [|reflexivity].
      cbn [andb].
      assert (2 ^ (j - 1) <= 2 ^ j) by (apply Z.pow_le_mono_r; lia).
      destruct (Z.leb_spec mn (2 ^ (j - 1))); [lia|reflexivity]. }
    rewrite Hlen'.
    destruct (Z_le_gt_dec (2 ^ (j + 1)) c) as [Hnext|Hnext].
    + apply IH; [lia|assumption| |].
      * rewrite Z.pow_add_r in * by lia. change (2 ^ 1) with 2 in *. lia.
      * replace (j + 1 - 1) with j by lia.
        destruct (Z.ltb_spec 0 (j + 1)); [reflexivity|lia].
    + assert (Hlog : Z.log2 c = j).
      { apply Z.log2_unique; [assumption|]. replace (Z.succ j) with (j + 1) by lia.
        lia. }
      rewrite Hlog. cbn [scan].
      destruct (Z.leb_spec (2 ^ (j + 1)) c); [lia|].
      rewrite andb_false_r. reflexivity.
Qed.

(** The scan in steps of [g] from [mn]: it ends on the last [mn + k * g]
    that does not exceed the target. *)
Lemma scan_granular (g mn mx c : Z) :
  0 < g -> 0 < mn -> mn <= c -> c <= mx -> c + g <= Long.max_signed ->
  scan (S (Z.to_nat (c + 1))) (granular_step g) (fun _ => true) mx c mn c
  = Some (mn + g * ((c - mn) / g)).
Proof.
  intros Hg Hmn Hc Hmx Hfit.
  destruct (scan_last (granular_step g)
              (fun r => exists k, 0 <= k /\ r = mn + g * k) mx c mn) with
      (n := Z.to_nat (c + 1)) (bufSize := mn) (len := c)
    as [r [Hr [[k [Hk Hrk]] [Hlo [Hhi [Hrc Hend]]]]]].
  { intros b Hb1 Hb2. rewrite granular_step_exact by lia. lia. }
  { intros b Hb1 Hb2 [k [Hk Hbk]]. rewrite granular_step_exact by lia.
    exists (k + 1). split; [lia|]. lia. }
  { lia. } { lia. } { lia. } { lia. }
  { exists 0. split; lia. }
  rewrite Hr. f_equal.
  rewrite granular_step_exact in Hend by lia.
  assert (Hq : (c - mn) / g = k).
  { symmetry. apply Z.div_unique with (r := c - mn - g * k); lia. }
  rewrite Hq. assumption.
Qed.

(** The doubling scan from [mn]: it ends on the last [mn * 2 ^ k] that does
    not exceed the target. *)
Lemma scan_doubling (mn mx c : Z) :
  0 < mn -> mn <= c -> c <= mx -> 2 * c <= Long.max_signed ->
  scan (S (Z.to_nat (c + 1))) double_step (fun _ => true) mx c mn c
  = Some (mn * 2 ^ Z.log2 (c / mn)).
Proof.
  intros Hmn Hc Hmx Hfit.
  destruct (scan_last double_step
              (fun r => exists k, 0 <= k /\ r = mn * 2 ^ k) mx c mn) with
      (n := Z.to_nat (c + 1)) (bufSize := mn) (len := c)
    as [r [Hr [[k [Hk Hrk]] [Hlo [Hhi [Hrc Hend]]]]]].
  { intros b Hb1 Hb2. rewrite double_step_exact by lia. lia. }
  { intros b Hb1 Hb2 [k [Hk Hbk]]. rewrite double_step_exact by lia.
    exists (k + 1). split; [lia|].
    rewrite Z.pow_add_r by lia. change (2 ^ 1) with 2. lia. }
  { lia. } { lia. } { lia. } { lia. }
  { exists 0. split; [lia|]. change (2 ^ 0) with 1. lia. }
  rewrite Hr. f_equal.
  rewrite double_step_exact in Hend by lia.
  assert (Hpos : 0 < 2 ^ k) by (apply Z.pow_pos_nonneg; lia).
  assert (Hlog : Z.log2 (c / mn) = k).
  { apply Z.log2_unique; [assumption|]. split.
    - apply Z.div_le_lower_bound; [assumption|]. lia.
    - apply Z.div_lt_upper_bound; [assumption|].
      replace (Z.succ k) with (k + 1) by lia.
      rewrite Z.pow_add_r by lia. change (2 ^ 1) with 2. lia. }
  rewrite Hlog. assumption.
Qed.

(** X1. With sane limits and a positive granularity the negotiated length
    is the largest [min + k * granularity] that does not exceed the request
    clamped to the limits. *)
Theorem negotiate_granular_closed_form (bs : BufferSizes) (target : Z) :
  limits_degenerate bs = false ->
  0 < Granularity bs ->
  clamp target (Min bs) (Max bs) + Granularity bs <= Long.max_signed ->
  exists fuel,
    negotiate fuel bs target
    = Some (Min bs
            + Granularity bs
              * ((clamp target (Min bs) (Max bs) - Min bs) / Granularity bs)).
Proof.
  intros Hdeg Hg Hfit. pose proof (limits_sane bs Hdeg) as Hsane.
  pose proof (clamp_bounds target (Min bs) (Max bs) ltac:(lia)) as Hc.
  set (c := clamp target (Min bs) (Max bs)) in *.
  exists (S (Z.to_nat (c + 1))). unfold negotiate. rewrite Hdeg. fold c.
  destruct (Z.ltb_spec (Granularity bs) (-1)); [lia|].
  destruct (Z.eqb_spec (Granularity bs) (-1)); [lia|]. cbn [andb].
  destruct (Z.ltb_spec 0 (Granularity bs)); [|lia].
  apply scan_granular; lia.
Qed.

Lemma negotiate_granular_closed_form_witness :
  let bs := mkBufferSizes 48 1000 480 32 in
  limits_degenerate bs = false /\
  0 < Granularity bs /\
  clamp 500 (Min bs) (Max bs) + Granularity bs <= Long.max_signed /\
  exists fuel, negotiate fuel bs 500 = Some (48 + 32 * 14).
Proof.
  intros bs.
  assert (H1 : limits_degenerate bs = false) by reflexivity.
  assert (H2 : 0 < Granularity bs) by reflexivity.
  assert (H3 : clamp 500 (Min bs) (Max bs) + Granularity bs <= Long.max_signed)
    by (vm_compute; discriminate).
  split; [exact H1|]. split; [exact H2|]. split; [exact H3|].
  exact (negotiate_granular_closed_form bs 500 H1 H2 H3).
Defined.

(** X2. With sane limits of which one is no power of two and granularity
    -1, the negotiated length is the largest power of two that does not
    exceed the request clamped to the limits, if that power reaches the
    minimum; if it does not, it is the clamped request itself, which then
    need not be a power of two. *)
Theorem negotiate_ragged_closed_form (bs : BufferSizes) (target : Z) :
  limits_degenerate bs = false ->
  Granularity bs = -1 ->
  weight (Min bs) <> 1 \/ weight (Max bs) <> 1 ->
  2 * clamp target (Min bs) (Max bs) <= Long.max_signed ->
  exists fuel,
    negotiate fuel bs target
    = Some (let c := clamp target (Min bs) (Max bs) in
            if Min bs <=? 2 ^ Z.log2 c then 2 ^ Z.log2 c else c).
Proof.
  intros Hdeg Hg Hw Hfit. pose proof (limits_sane bs Hdeg) as Hsane.
  pose proof (clamp_bounds target (Min bs) (Max bs) ltac:(lia)) as Hc.
  cbv zeta. set (c := clamp target (Min bs) (Max bs)) in *.
  exists (S (Z.to_nat (c + 1))). unfold negotiate. rewrite Hdeg, Hg.
  fold c. change (-1 <? -1) with false. change (-1 =? -1) with true.
  cbn [andb].
  assert (Hrag : negb (weight (Min bs) =? 1) || negb (weight (Max bs) =? 1)
                 = true).
  { apply orb_true_iff. destruct Hw as [Hw|Hw]; [left|right];
      apply negb_true_iff; apply Z.eqb_neq; assumption. }
  rewrite Hrag.
  apply (scan_ragged (Min bs) (Max bs) c ltac:(lia) ltac:(lia) ltac:(lia) Hfit
           (Z.to_nat (c + 1)) 0 c); [lia| | |reflexivity].
  - change (2 ^ 0) with 1. lia.
  - change (2 ^ 0) with 1. lia.
Qed.

Lemma negotiate_ragged_closed_form_witness :
  let bs := mkBufferSizes 48 1000 480 (-1) in
  limits_degenerate bs = false /\
  Granularity bs = -1 /\
  (weight (Min bs) <> 1 \/ weight (Max bs) <> 1) /\
  2 * clamp 500 (Min bs) (Max bs) <= Long.max_signed /\
  exists fuel, negotiate fuel bs 500 = Some 256.
Proof.
  intros bs.
  assert (H1 : limits_degenerate bs = false) by reflexivity.
  assert (H2 : Granularity bs = -1) by reflexivity.
  assert (H3 : weight (Min bs) <> 1 \/ weight (Max bs) <> 1)
    by (left; vm_compute; discriminate).
  assert (H4 : 2 * clamp 500 (Min bs) (Max bs) <= Long.max_signed)
    by (vm_compute; discriminate).
  split; [exact H1|]. split; [exact H2|]. split; [exact H3|]. split; [exact H4|].
  exact (negotiate_ragged_closed_form bs 500 H1 H2 H3 H4).
Defined.

(** The request 40 clamps to 48 between the limits 48 and 1000, below which
    the powers of two end at 32: the negotiated length is 48. *)
Example negotiate_ragged_no_power_of_two :
  negotiate 16 (mkBufferSizes 48 1000 480 (-1)) 40 = Some 48.
Proof. reflexivity. Qed.

(** X3. With sane limits and a granularity other than 0, the negotiated
    length lies between the minimum and the request clamped to the limits:
    it never exceeds a request that is at least the minimum. *)
Theorem negotiate_at_most_request (bs : BufferSizes) (target : Z) :
  limits_degenerate bs = false ->
  Granularity bs <> 0 ->
  scan_fits bs target ->
  exists fuel len,
    negotiate fuel bs target = Some len /\
    Min bs <= len <= clamp target (Min bs) (Max bs).
Proof.
  intros Hdeg Hg0 Hfit. pose proof (limits_sane bs Hdeg) as Hsane.
  destruct (Hfit Hdeg) as [Hpow Hstep].
  pose proof (clamp_bounds target (Min bs) (Max bs) ltac:(lia)) as Hc.
  unfold negotiate. rewrite Hdeg.
  set (c := clamp target (Min bs) (Max bs)) in *.
  destruct (Z.ltb_spec (Granularity bs) (-1)) as [Hg|Hg].
  { exists O, c. split; [reflexivity|lia]. }
  destruct (Z.eqb_spec (Granularity bs) (-1)) as [Hg1|Hg1].
  { specialize (Hpow Hg1). cbn [andb].
    destruct (negb (weight (Min bs) =? 1) || negb (weight (Max bs) =? 1)).
    - destruct (scan_stops double_step (fun b => Min bs <=? b)
                  (fun r => Min bs <= r <= c) (Max bs) c 1) with
          (n := Z.to_nat (c + 1)) (bufSize := 1) (len := c) as [r [Hr HP]].
      + intros b Hb1 Hb2. rewrite double_step_exact by lia. lia.
      + intros b _ _ Hb Hk. apply Z.leb_le in Hk. lia.
      + lia.
      + lia.
      + lia.
      + eauto.
    - destruct (scan_stops double_step (fun _ => true)
                  (fun r => Min bs <= r <= c) (Max bs) c (Min bs)) with
          (n := Z.to_nat (c + 1)) (bufSize := Min bs) (len := c)
        as [r [Hr HP]].
      + intros b Hb1 Hb2. rewrite double_step_exact by lia. lia.
      + intros b Hb1 _ Hb2 _. lia.
      + lia.
      + lia.
      + lia.
      + eauto. }
  cbn [andb].
  destruct (Z.ltb_spec 0 (Granularity bs)) as [Hgp|Hgp].
  - specialize (Hstep Hgp).
    destruct (scan_stops (granular_step (Granularity bs)) (fun _ => true)
                (fun r => Min bs <= r <= c) (Max bs) c (Min bs)) with
        (n := Z.to_nat (c + 1)) (bufSize := Min bs) (len := c)
      as [r [Hr HP]].
    + intros b Hb1 Hb2. rewrite granular_step_exact by lia. lia.
    + intros b Hb1 _ Hb2 _. lia.
    + lia.
    + lia.
    + lia.
    + eauto.
  - lia.
Qed.

Lemma negotiate_at_most_request_witness :
  let bs := mkBufferSizes 48 1000 480 32 in
  limits_degenerate bs = false /\
  Granularity bs <> 0 /\
  scan_fits bs 500 /\
  exists fuel len,
    negotiate fuel bs 500 = Some len /\
    Min bs <= len <= clamp 500 (Min bs) (Max bs).
Proof.
  intros bs.
  assert (H1 : limits_degenerate bs = false) by reflexivity.
  assert (H2 : Granularity bs <> 0) by discriminate.
  assert (H3 : scan_fits bs 500).
  { intros _. split; [discriminate | intros _; vm_compute; discriminate]. }
  split; [exact H1|]. split; [exact H2|]. split; [exact H3|].
  exact (negotiate_at_most_request bs 500 H1 H2 H3).
Defined.

(** The ladder computes [negotiated_length]. *)
Lemma negotiate_closed (bs : BufferSizes) (target : Z) :
  scan_fits bs target ->
  negotiate (S (Z.to_nat (clamp target (Min bs) (Max bs) + 1))) bs target
  = Some (negotiated_length bs target).
Proof.
  intros Hfit. unfold negotiate, negotiated_length. cbv zeta.
  destruct (limits_degenerate bs) eqn:Hdeg.
  { destruct (0 <? Preferred bs); reflexivity. }
  pose proof (limits_sane bs Hdeg) as Hsane.
  destruct (Hfit Hdeg) as [Hpow Hstep].
  pose proof (clamp_bounds target (Min bs) (Max bs) ltac:(lia)) as Hc.
  set (c := clamp target (Min bs) (Max bs)) in *.
  destruct (Z.ltb_spec (Granularity bs) (-1)) as [Hg|Hg]; [reflexivity|].
  destruct (Z.eqb_spec (Granularity bs) (-1)) as [Hg1|Hg1].
  { specialize (Hpow Hg1). cbn [andb].
    destruct (negb (weight (Min bs) =? 1) || negb (weight (Max bs) =? 1)).
    - apply (scan_ragged (Min bs) (Max bs) c ltac:(lia) ltac:(lia) ltac:(lia)
               Hpow (Z.to_nat (c + 1)) 0 c); [lia| | |reflexivity].
      + change (2 ^ 0) with 1. lia.
      + change (2 ^ 0) with 1. lia.
    - apply scan_doubling; lia. }
  cbn [andb].
  destruct (Z.ltb_spec 0 (Granularity bs)) as [Hgp|Hgp].
  { apply scan_granular; lia. }
  destruct (Z.eqb_spec (Granularity bs) 0) as [Hg0|Hg0]; [|lia].
  destruct (0 <? Preferred bs); [reflexivity|].
  destruct (Max bs <=? target); reflexivity.
Qed.

Lemma clamp_monotone (a b lo hi : Z) :
  lo <= hi -> a <= b -> clamp a lo hi <= clamp b lo hi.
Proof.
  intros Hle Hab. unfold clamp.
  destruct (Z.ltb_spec a lo), (Z.ltb_spec b lo); try lia;
    destruct (Z.ltb_spec hi a), (Z.ltb_spec hi b); lia.
Qed.

Lemma pow2_log2_monotone (a b : Z) :
  0 < a -> a <= b -> 2 ^ Z.log2 a <= 2 ^ Z.log2 b.
Proof.
  intros Ha Hab. apply Z.pow_le_mono_r; [lia|]. apply Z.log2_le_mono. lia.
Qed.

(** The closed form grows with the request. *)
Lemma negotiated_length_monotone (bs : BufferSizes) (target1 target2 : Z) :
  target1 <= target2 ->
  negotiated_length bs target1 <= negotiated_length bs target2.
Proof.
  intros Hle. unfold negotiated_length. cbv zeta.
  destruct (limits_degenerate bs) eqn:Hdeg.
  { destruct (0 <? Preferred bs); lia. }
  pose proof (limits_sane bs Hdeg) as Hsane.
  pose proof (clamp_bounds target1 (Min bs) (Max bs) ltac:(lia)) as Hc1.
  pose proof (clamp_bounds target2 (Min bs) (Max bs) ltac:(lia)) as Hc2.
  pose proof (clamp_monotone target1 target2 (Min bs) (Max bs) ltac:(lia) Hle)
    as Hc.
  set (c1 := clamp target1 (Min bs) (Max bs)) in *.
  set (c2 := clamp target2 (Min bs) (Max bs)) in *.
  destruct (Granularity bs <? -1); [exact Hc|].
  destruct (Granularity bs =? -1).
  { destruct (negb (weight (Min bs) =? 1) || negb (weight (Max bs) =? 1)).
    - pose proof (pow2_log2_monotone c1 c2 ltac:(lia) Hc) as Hp.
      pose proof (Z.log2_spec c1 ltac:(lia)) as [Hl1 Hu1].
      pose proof (Z.log2_spec c2 ltac:(lia)) as [Hl2 Hu2].
      destruct (Z.leb_spec (Min bs) (2 ^ Z.log2 c1)) as [H1|H1];
        destruct (Z.leb_spec (Min bs) (2 ^ Z.log2 c2)) as [H2|H2]; try lia.
      (* the first request keeps its clamped value, the second a power *)
      assert (Hlt : Z.log2 c1 < Z.log2 c2).
      { apply (Z.pow_lt_mono_r_iff 2); [lia|apply Z.log2_nonneg|lia]. }
      assert (2 ^ Z.succ (Z.log2 c1) <= 2 ^ Z.log2 c2)
        by (apply Z.pow_le_mono_r; lia).
      lia.
    - apply Z.mul_le_mono_nonneg_l; [lia|].
      assert (Hq : c1 / Min bs <= c2 / Min bs)
        by (apply Z.div_le_mono; lia).
      assert (0 < c1 / Min bs)
        by (apply Z.div_str_pos; lia).
      apply pow2_log2_monotone; lia. }
  destruct (Z.ltb_spec 0 (Granularity bs)) as [Hg|Hg].
  { assert (Hq : (c1 - Min bs) / Granularity bs <= (c2 - Min bs) / Granularity bs)
      by (apply Z.div_le_mono; lia).
    nia. }
  destruct (0 <? Preferred bs); [lia|].
  destruct (Z.leb_spec (Max bs) target1), (Z.leb_spec (Max bs) target2); lia.
Qed.

(** X4. Asking for more never negotiates less: for one and the same driver
    limits, whatever they are, a request at least as long yields a buffer
    length at least as long, as long as the scans stay within
    [ASIO::Long]. *)
Theorem negotiate_monotone (bs : BufferSizes) (target1 target2 : Z) :
  target1 <= target2 ->
  scan_fits bs target1 ->
  scan_fits bs target2 ->
  exists fuel len1 len2,
    negotiate fuel bs target1 = Some len1 /\
    negotiate fuel bs target2 = Some len2 /\
    len1 <= len2.
Proof.
  intros Hle Hfit1 Hfit2.
  pose proof (negotiate_closed bs target1 Hfit1) as H1.
  pose proof (negotiate_closed bs target2 Hfit2) as H2.
  exists (S (Z.to_nat (clamp target2 (Min bs) (Max bs) + 1))),
         (negotiated_length bs target1), (negotiated_length bs target2).
  split; [|split; [exact H2|apply negotiated_length_monotone; exact Hle]].
  destruct (limits_degenerate bs) eqn:Hdeg.
  { unfold negotiate, negotiated_length. rewrite Hdeg.
    destruct (0 <? Preferred bs); reflexivity. }
  pose proof (limits_sane bs Hdeg) as Hsane.
  pose proof (clamp_monotone target1 target2 (Min bs) (Max bs) ltac:(lia) Hle)
    as Hc.
  pose proof (clamp_bounds target1 (Min bs) (Max bs) ltac:(lia)) as Hc1.
  revert H1. unfold negotiate. rewrite Hdeg.
  destruct (Granularity bs <? -1); [intros H1; exact H1|].
  repeat match goal with
         | |- context [if ?b then _ else _] =>
             lazymatch b with
             | context [scan] => fail
             | _ => destruct b
             end
         end;
    try (intros H1; exact H1);
    apply scan_fuel_mono; lia.
Qed.

Lemma negotiate_monotone_witness :
  let bs := mkBufferSizes 48 1000 480 (-1) in
  40 <= 500 /\ scan_fits bs 40 /\ scan_fits bs 500 /\
  exists fuel len1 len2,
    negotiate fuel bs 40 = Some len1 /\
    negotiate fuel bs 500 = Some len2 /\
    len1 <= len2.
Proof.
  intros bs.
  assert (H1 : 40 <= 500) by lia.
  assert (H2 : scan_fits bs 40).
  { intros _. split; [intros _; vm_compute; discriminate | discriminate]. }
  assert (H3 : scan_fits bs 500).
  { intros _. split; [intros _; vm_compute; discriminate | discriminate]. }
  split; [exact H1|]. split; [exact H2|]. split; [exact H3|].
  exact (negotiate_monotone bs 40 500 H1 H2 H3).
Defined.

(** ** What a computation adds to the journal *)

Lemma keeps_view_call {A} (P : Event -> bool) (c : DriverCall) (r : Reply A) :
  P (Called c) = false ->
  keeps (fun d => filter P (journal d)) (call c r).
Proof.
  intros H d. unfold call. destruct r; cbn; rewrite H; reflexivity.
Qed.

Lemma keeps_view_emit (P : Event -> bool) (ev : Event) :
  P ev = false ->
  keeps (fun d => filter P (journal d)) (emit ev).
Proof. intros H d. cbn. rewrite H. reflexivity. Qed.

Lemma keeps_view_ExceptionHandler (P : Event -> bool) (func : string) (e : Exn) :
  shows_no_log P ->
  keeps (fun d => filter P (journal d)) (ExceptionHandler func e).
Proof.
  intros [Hl [Hm Ht]] d. destruct e; cbn; rewrite ?Hl, ?Hm, ?Ht; reflexivity.
Qed.

Lemma shows_no_log_calls (p : DriverCall -> bool) : shows_no_log (is_call_of p).
Proof. repeat split. Qed.

Lemma shows_no_log_source : shows_no_log is_source_event.
Proof. repeat split. Qed.

(** The handler returns for every exception that is not out-of-memory. *)
Lemma ExceptionHandler_returns (func : string) (e : Exn) (d : Device) :
  is_out_of_memory e = false ->
  exists d', ExceptionHandler func e d = Returns tt d' /\
             forall B (p : Device -> B),
               (forall v x, p (set_journal v x) = p x) -> p d' = p d.
Proof.
  intros H. destruct e; try discriminate; cbn; eexists; (split; [reflexivity|]);
    intros B p Hp; rewrite ?Hp; reflexivity.
Qed.

Ltac view_step :=
  first
    [ apply keeps_view_ExceptionHandler; solve [assumption | repeat split]
    | apply keeps_view_call; solve [reflexivity | assumption]
    | apply keeps_view_emit; solve [reflexivity | assumption]
    | keeps_step ].

Ltac view_solve := repeat view_step.

Lemma keeps_scope_exit {A C} (p : Device -> C) (body : M A) (destructor : M unit) :
  keeps p body -> keeps p destructor -> keeps p (scope_exit body destructor).
Proof.
  intros Hb Hd d. unfold scope_exit. specialize (Hb d).
  destruct (body d) as [a d1|e d1| |]; try exact I.
  - pose proof (keeps_bind p (noexcept destructor) (fun _ => ret a)
                  (keeps_noexcept p _ Hd) (fun _ => keeps_ret p a) d1) as H.
    destruct ((noexcept destructor ;; ret a) d1); try exact I; congruence.
  - pose proof (keeps_bind p (noexcept destructor) (fun _ => @throw A e)
                  (keeps_noexcept p _ Hd) (fun _ => keeps_throw p e) d1) as H.
    destruct ((noexcept destructor ;; throw e) d1); try exact I; congruence.
Qed.

Lemma keeps_view_CloseDriver (env : Env) (P : Event -> bool) :
  shows_no_log P -> P (Called CallDestroy) = false ->
  keeps (fun d => filter P (journal d)) (CloseDriver env).
Proof.
  intros Hlog Hd. unfold CloseDriver, IsDriverOpen. view_solve.
Qed.

Lemma keeps_view_OpenDriver (env : Env) (P : Event -> bool) :
  shows_no_log P ->
  (forall c, configures c = false -> P (Called c) = false) ->
  keeps (fun d => filter P (journal d)) (OpenDriver env).
Proof.
  intros Hlog Hc. unfold OpenDriver, IsDriverOpen.
  repeat first
    [ apply keeps_view_CloseDriver; [assumption|apply Hc; reflexivity]
    | apply keeps_view_call; apply Hc; reflexivity
    | apply keeps_view_emit; apply (proj1 Hlog)
    | view_step ].
Qed.

(** X5. A capability query only asks: however it ends, it has made no call
    that configures, starts or stops the device, creates or disposes its
    buffers, signals output or opens the control panel. *)
Theorem query_never_configures (env : Env) (baseSampleRates : list Z) :
  keeps (calls_where configures) (GetDeviceDynamicCaps env baseSampleRates).
Proof.
  unfold calls_where, GetDeviceDynamicCaps, channel_name, IsDriverOpen.
  assert (Hlog : shows_no_log (is_call_of configures))
    by apply shows_no_log_calls.
  repeat first
    [ apply keeps_view_OpenDriver; [assumption|intros c Hc; exact Hc]
    | apply keeps_view_CloseDriver; [assumption|reflexivity]
    | apply keeps_scope_exit
    | apply keeps_collect; intros ? ?
    | view_step ].
Qed.

(** ** The realtime callback *)

(** What one [FillAsioBuffer] that returns adds to a view of the journal. *)
Lemma FillAsioBuffer_view (env : Env) (P : Event -> bool) (useSource : bool)
      (d d' : Device) :
  shows_no_log P ->
  FillAsioBuffer env useSource d = Returns tt d' ->
  filter P (journal d') =
    (if useSource then filter P [SourceReadDone] else [])
    ++ (if m_CanOutputReady d then filter P [Called CallOutputReady] else [])
    ++ (if useSource
        then filter P [SourceRead (m_nAsioBufferLen d);
                       SourceReadPrepare (m_nAsioBufferLen d)]
        else [])
    ++ filter P (journal d).
Proof.
  intros Hlog H. unfold FillAsioBuffer in H.
  inv_bind H. injection Hstep as <- <-.
  inv_bind H. injection Hstep as <- <-.
  inv_bind H.
  assert (W : (journal d0, m_CanOutputReady d0) = (journal d, m_CanOutputReady d)).
  { match type of Hstep with
    | ?m d = _ =>
        assert (Hk : keeps (fun x => (journal x, m_CanOutputReady x)) m)
          by keeps_solve
    end.
    specialize (Hk d). rewrite Hstep in Hk. exact Hk. }
  clear Hstep. injection W as Wj Wc. rewrite <- Wj, <- Wc. clear Wj Wc a.
  inv_bind H.
  assert (W : filter P (journal d1) =
              (if useSource
               then filter P [SourceRead (m_nAsioBufferLen d);
                              SourceReadPrepare (m_nAsioBufferLen d)]
               else []) ++ filter P (journal d0)
              /\ m_CanOutputReady d1 = m_CanOutputReady d0).
  { destruct useSource; cbn [negb] in Hstep.
    - unfold emit, bind, modify in Hstep. injection Hstep as _ <-.
      split; [|reflexivity]. cbn [journal set_m_SampleBuffer set_journal filter app].
      destruct (P (SourceRead _)), (P (SourceReadPrepare _)); reflexivity.
    - injection Hstep as _ <-. split; reflexivity. }
  clear Hstep. destruct W as [Wj Wc]. rewrite <- Wc. clear Wc.
  inv_bind H. injection Hstep as <- <-.
  inv_bind H.
  assert (W : filter P (journal d2) =
              (if m_CanOutputReady d1 then filter P [Called CallOutputReady]
               else []) ++ filter P (journal d1)).
  { destruct (m_CanOutputReady d1); [|injection Hstep as _ <-; reflexivity].
    unfold try_catch, call in Hstep.
    destruct (drv_outputReady env) as [[]|e].
    - injection Hstep as _ <-. cbn [journal set_journal filter app].
      destruct (P (Called CallOutputReady)); reflexivity.
    - cbn [filter app]. destruct Hlog as [Hl [Hm Ht]].
      unfold ExceptionHandler, emit, bind, modify, throw in Hstep.
      destruct e; try discriminate; injection Hstep as _ <-;
        cbn [journal set_journal filter app]; rewrite ?Hl, ?Hm, ?Ht;
        destruct (P (Called CallOutputReady)); reflexivity. }
  clear Hstep.
  assert (W' : filter P (journal d') =
               (if useSource then filter P [SourceReadDone] else [])
               ++ filter P (journal d2)).
  { destruct useSource; cbn [negb] in H; injection H as <-;
      [|reflexivity].
    cbn [journal set_journal filter app].
    destruct (P SourceReadDone); reflexivity. }
  rewrite W', W, Wj. reflexivity.
Qed.

(** The steps of a buffer switch that returns. *)
Lemma buffer_switch_steps (env : Env) (bufferIndex : Z) (d d' : Device) :
  RealtimeBufferSwitchImpl env bufferIndex d = Returns tt d' ->
  exists d1 d2,
    d1 = (let d0 := set_m_RenderingSilence (m_RenderSilence d)
                      (set_m_BufferIndex bufferIndex d) in
          if m_RenderSilence d
          then set_m_StreamPositionOffset
                 (Int64.add (m_StreamPositionOffset d0) (m_nAsioBufferLen d0)) d0
          else d0) /\
    FillAsioBuffer env (negb (m_RenderSilence d)) d1 = Returns tt d2 /\
    d' = set_m_TotalFramesWritten
           (UInt64.add (m_TotalFramesWritten d2) (m_nAsioBufferLen d2)) d2.
Proof.
  unfold RealtimeBufferSwitchImpl, noexcept. intros H.
  match type of H with
  | match ?body d with _ => _ end = _ =>
      destruct (body d) as [[] d0|e d0| |] eqn:Hb; try discriminate
  end.
  injection H as ->. rename Hb into H.
  inv_bind H. injection Hstep as _ <-.
  inv_bind H. injection Hstep as <- <-.
  inv_bind H. injection Hstep as _ <-.
  inv_bind H. injection H as <-.
  cbn [m_RenderSilence set_m_BufferIndex] in Hstep.
  cbv zeta.
  destruct (m_RenderSilence d); cbn [negb].
  - inv_bind Hstep. injection Hstep0 as _ <-.
    repeat match goal with u : unit |- _ => destruct u end.
    eexists. eexists. split; [reflexivity|]. split; [exact Hstep|reflexivity].
  - repeat match goal with u : unit |- _ => destruct u end.
    eexists. eexists. split; [reflexivity|].
    split; [exact Hstep|reflexivity].
Qed.




(** X7. A buffer switch that returns has consulted the audio source exactly
    when it did not render silence, with one prepare, one read and one done
    notification in this order for the frames of one buffer, and has made no
    driver call but the one [outputReady] that the driver asked for at
    open. *)
Theorem buffer_switch_events (env : Env) (bufferIndex : Z) (d : Device) :
  match RealtimeBufferSwitchImpl env bufferIndex d with
  | Returns _ d' =>
      source_events d' =
        (if m_RenderSilence d then []
         else [SourceReadDone; SourceRead (m_nAsioBufferLen d);
               SourceReadPrepare (m_nAsioBufferLen d)])
        ++ source_events d /\
      driver_calls d' =
        (if m_CanOutputReady d then [Called CallOutputReady] else [])
        ++ driver_calls d
  | Aborts => raises_oom (drv_outputReady env) = true
  | Throws _ _ | Spins => False
  end.
Proof.
  pose proof (buffer_switch_body_contained env bufferIndex d) as Hc.
  pose proof (buffer_switch_steps env bufferIndex d) as Hs.
  unfold RealtimeBufferSwitchImpl, noexcept in Hs |- *.
  match goal with
  | |- match match ?body d with _ => _ end with _ => _ end =>
      change (match body d with
              | Returns _ _ => True
              | Throws e _ =>
                  e = OutOfMemory /\ raises_oom (drv_outputReady env) = true
              | Aborts | Spins => False
              end) in Hc;
      destruct (body d) as [[] d'|e d'| |]; try tauto
  end.
  destruct (Hs d' eq_refl) as [d1 [d2 [H1 [H2 H3]]]].
  pose proof (FillAsioBuffer_view env is_source_event _ d1 d2
                shows_no_log_source H2) as Hsrc.
  pose proof (FillAsioBuffer_view env (is_call_of (fun _ => true)) _ d1 d2
                (shows_no_log_calls _) H2) as Hcall.
  assert (E : journal d1 = journal d /\ m_CanOutputReady d1 = m_CanOutputReady d
              /\ m_nAsioBufferLen d1 = m_nAsioBufferLen d).
  { subst d1. cbv zeta. destruct (m_RenderSilence d); repeat split. }
  destruct E as [Ej [Ec El]].
  unfold source_events, driver_calls, calls_where. subst d'.
  cbn [journal set_m_TotalFramesWritten].
  rewrite Hsrc, Hcall, Ej, Ec, El.
  destruct (m_RenderSilence d), (m_CanOutputReady d); split; reflexivity.
Qed.

(** ** Opening and closing the driver *)

(** A handler that ends in [ExceptionHandler] and then returns [b]. *)
Lemma handled_returns {A} (func : string) (e : Exn) (b : A) (d : Device) :
  is_out_of_memory e = false ->
  exists d', (ExceptionHandler func e ;; ret b) d = Returns b d' /\
             m_Driver d' = m_Driver d.
Proof.
  intros He. destruct (ExceptionHandler_returns func e d He) as [d' [H Hp]].
  exists d'. unfold bind. rewrite H. split; [reflexivity|].
  apply Hp. reflexivity.
Qed.

(** The first block of [OpenDriver]: the dispatcher and the driver. *)
Lemma OpenDriver_construct (env : Env) (d : Device) :
  m_Driver d = false ->
  raises_oom (drv_createDispatcher env) = false ->
  raises_oom (drv_construct env) = false ->
  exists d',
    try_catch
      ((if AllowDeferredProcessing env
        then call CallCreateDispatcher (drv_createDispatcher env) ;;
             modify (set_m_DeferredBufferSwitchDispatcher true)
        else ret tt) ;;
       call CallConstruct (drv_construct env) ;;
       modify (set_m_Driver true) ;;
       ret true)
      (fun e => ExceptionHandler "OpenDriver" e ;; ret false) d
    = Returns ((if AllowDeferredProcessing env
                then gives (drv_createDispatcher env) else true)
               && gives (drv_construct env)) d' /\
    m_Driver d' = (if AllowDeferredProcessing env
                   then gives (drv_createDispatcher env) else true)
                  && gives (drv_construct env).
Proof.
  intros Hclosed Hd Hc. unfold try_catch, bind, call, modify, ret.
  destruct (AllowDeferredProcessing env).
  - destruct (drv_createDispatcher env) as [[]|e1]; cbn [gives andb].
    + destruct (drv_construct env) as [[]|e2]; cbn [gives andb].
      * eexists. split; reflexivity.
      * destruct (handled_returns "OpenDriver" e2 false
                    (set_journal
                       (Called CallConstruct
                        :: journal
                             (set_m_DeferredBufferSwitchDispatcher true
                                (set_journal
                                   (Called CallCreateDispatcher :: journal d) d)))
                       (set_m_DeferredBufferSwitchDispatcher true
                          (set_journal
                             (Called CallCreateDispatcher :: journal d) d)))
                    Hc) as [d' [H Hm]].
        exists d'. split; [exact H|]. rewrite Hm. exact Hclosed.
    + destruct (handled_returns "OpenDriver" e1 false
                  (set_journal (Called CallCreateDispatcher :: journal d) d) Hd)
        as [d' [H Hm]].
      exists d'. split; [exact H|]. rewrite Hm. exact Hclosed.
  - destruct (drv_construct env) as [[]|e2]; cbn [gives andb].
    + eexists. split; reflexivity.
    + destruct (handled_returns "OpenDriver" e2 false
                  (set_journal (Called CallConstruct :: journal d) d) Hc)
        as [d' [H Hm]].
      exists d'. split; [exact H|]. rewrite Hm. exact Hclosed.
Qed.

(** The handler of the second block, for an exception other than
    out-of-memory. *)
Lemma close_then_handle_returns (env : Env) (func : string) (e : Exn)
      (d : Device) :
  is_out_of_memory e = false ->
  match (CloseDriver env ;; ExceptionHandler func e) d with
  | Returns _ d' => m_Driver d' = false
  | Aborts => raises (drv_destroy env) = true
  | Throws _ _ | Spins => False
  end.
Proof.
  intros He. pose proof (close_then_handle_closes env func e d) as Hc.
  pose proof (CloseDriver_closes env d) as Hcd.
  unfold bind in *.
  destruct (CloseDriver env d) as [[] d1|e1 d1| |]; try assumption.
  destruct (ExceptionHandler_returns func e d1 He) as [d' [H _]].
  rewrite H in *. exact Hc.
Qed.

(** The second block of [OpenDriver]: name, version and error message. *)
Lemma OpenDriver_identify (env : Env) (d : Device) :
  m_Driver d = true ->
  raises_oom (drv_getDriverName env) = false ->
  raises_oom (drv_getDriverVersion env) = false ->
  raises_oom (drv_getErrorMessage env) = false ->
  match
    try_catch
      (call CallGetDriverName (drv_getDriverName env) ;;
       call CallGetDriverVersion (drv_getDriverVersion env) ;;
       call CallGetErrorMessage (drv_getErrorMessage env) ;;
       emit (Logged LogInformation "OpenDriver" "Opened driver"))
      (fun e => CloseDriver env ;; ExceptionHandler "OpenDriver" e) d
  with
  | Returns _ d' =>
      m_Driver d' = gives (drv_getDriverName env)
                    && gives (drv_getDriverVersion env)
                    && gives (drv_getErrorMessage env)
  | Aborts =>
      gives (drv_getDriverName env)
      && gives (drv_getDriverVersion env)
      && gives (drv_getErrorMessage env) = false /\
      raises (drv_destroy env) = true
  | Throws _ _ | Spins => False
  end.
Proof.
  intros Hopen Hn Hv Hm. unfold try_catch, bind, call, emit, modify.
  destruct (drv_getDriverName env) as [n|e]; cbn [gives andb].
  2:{ pose proof (close_then_handle_returns env "OpenDriver" e
                    (set_journal (Called CallGetDriverName :: journal d) d) Hn)
        as Hc.
      unfold bind in Hc.
      destruct (CloseDriver env _) as [[] d1|e1 d1| |];
        [destruct (ExceptionHandler "OpenDriver" e d1)|..];
        first [assumption | split; [reflexivity|assumption]]. }
  destruct (drv_getDriverVersion env) as [v|e]; cbn [gives andb].
  2:{ pose proof (close_then_handle_returns env "OpenDriver" e
                    (set_journal
                       (Called CallGetDriverVersion
                        :: journal
                             (set_journal
                                (Called CallGetDriverName :: journal d) d))
                       (set_journal (Called CallGetDriverName :: journal d) d))
                    Hv) as Hc.
      unfold bind in Hc.
      destruct (CloseDriver env _) as [[] d1|e1 d1| |];
        [destruct (ExceptionHandler "OpenDriver" e d1)|..];
        first [assumption | split; [reflexivity|assumption]]. }
  destruct (drv_getErrorMessage env) as [m|e]; cbn [gives andb].
  2:{ match goal with
      | |- match match CloseDriver env ?x with _ => _ end with _ => _ end =>
          pose proof (close_then_handle_returns env "OpenDriver" e x Hm) as Hc
      end.
      unfold bind in Hc.
      destruct (CloseDriver env _) as [[] d1|e1 d1| |];
        [destruct (ExceptionHandler "OpenDriver" e d1)|..];
        first [assumption | split; [reflexivity|assumption]]. }
  exact Hopen.
Qed.

(** X8. On a closed device, unless one of its calls runs out of memory,
    [OpenDriver] returns, and it leaves the driver open exactly when the
    dispatcher (if deferred processing is allowed), the driver's
    construction and the three calls for its name, version and error
    message were all answered.  The one other way it can end: when the
    driver was constructed, one of the three calls fails and the driver's
    destruction raises, the process ends in the [noexcept] reset of the
    handle. *)
Theorem OpenDriver_opens_iff_loads (env : Env) (d : Device) :
  m_Driver d = false ->
  open_raises_oom env = false ->
  match OpenDriver env d with
  | Returns _ d' => m_Driver d' = driver_loads env
  | Aborts =>
      driver_constructs env = true /\ driver_loads env = false /\
      raises (drv_destroy env) = true
  | Throws _ _ | Spins => False
  end.
Proof.
  intros Hclosed Hoom. unfold open_raises_oom in Hoom.
  apply orb_false_iff in Hoom. destruct Hoom as [Hoom Hmessage].
  apply orb_false_iff in Hoom. destruct Hoom as [Hoom Hversion].
  apply orb_false_iff in Hoom. destruct Hoom as [Hoom Hname].
  apply orb_false_iff in Hoom. destruct Hoom as [Hdispatcher Hconstruct].
  unfold OpenDriver, driver_loads, driver_constructs.
  unfold bind at 1. unfold IsDriverOpen at 1. unfold gets at 1.
  rewrite Hclosed. unfold bind at 1.
  destruct (OpenDriver_construct env d Hclosed Hdispatcher Hconstruct)
    as [d1 [H1 Hm1]].
  rewrite H1.
  destruct ((if AllowDeferredProcessing env
             then gives (drv_createDispatcher env) else true)
            && gives (drv_construct env)); cbn [negb andb].
  - pose proof (OpenDriver_identify env d1 Hm1 Hname Hversion Hmessage) as H2.
    match goal with
    | |- match ?o with _ => _ end => destruct o as [[] d2|e d2| |]
    end; try assumption.
    destruct H2 as [H2 H3]. split; [reflexivity|]. split; assumption.
  - unfold ret. exact Hm1.
Qed.

Lemma OpenDriver_opens_iff_loads_witness :
  let env := plain_env (fun _ => Int16LSB) in
  let d := fresh (sample_settings 2 false) in
  m_Driver d = false /\
  open_raises_oom env = false /\
  match OpenDriver env d with
  | Returns _ d' => m_Driver d' = driver_loads env
  | Aborts =>
      driver_constructs env = true /\ driver_loads env = false /\
      raises (drv_destroy env) = true
  | Throws _ _ | Spins => False
  end.
Proof.
  intros env d.
  assert (H1 : m_Driver d = false) by reflexivity.
  assert (H2 : open_raises_oom env = false) by reflexivity.
  split; [exact H1|]. split; [exact H2|].
  exact (OpenDriver_opens_iff_loads env d H1 H2).
Defined.

(** Work under a [TemporaryASIODriverOpener]: if the work itself leaves the
    handle alone and lets only the out-of-memory fault out, the whole
    restores the handle, and what it returns is what the work returned. *)
Lemma temporary_open_restores {A} (env : Env) (body : M A) (Q : A -> Prop) :
  keeps m_Driver body ->
  raises_only (fun e => e = OutOfMemory) body ->
  (forall d a d', body d = Returns a d' -> Q a) ->
  forall d,
    match (wasOpen <- IsDriverOpen ;;
           (if negb wasOpen then OpenDriver env else ret tt) ;;
           scope_exit body (if negb wasOpen then CloseDriver env else ret tt)) d
    with
    | Returns a d' => m_Driver d' = m_Driver d /\ Q a
    | Throws e d' => e = OutOfMemory /\ m_Driver d' = m_Driver d
    | Aborts => raises (drv_destroy env) = true
    | Spins => False
    end.
Proof.
  intros Hkeep Hoom HQ d.
  unfold bind at 1. unfold IsDriverOpen at 1. unfold gets at 1.
  destruct (m_Driver d) eqn:Hopen; cbn [negb].
  - unfold bind at 1. unfold ret at 1. unfold scope_exit.
    specialize (Hkeep d). specialize (Hoom d). specialize (HQ d).
    destruct (body d) as [a d2|e d2| |]; cbn; try tauto.
    + split; [congruence|]. eapply HQ. reflexivity.
    + split; [assumption|congruence].
  - unfold bind at 1.
    pose proof (OpenDriver_outcome env d Hopen) as Hod.
    destruct (OpenDriver env d) as [[] d1|e d1| |]; try tauto.
    unfold scope_exit.
    specialize (Hkeep d1). specialize (Hoom d1). specialize (HQ d1).
    destruct (body d1) as [a d2|e d2| |]; try tauto.
    + unfold bind, noexcept.
      pose proof (CloseDriver_closes env d2) as Hc.
      destruct (CloseDriver env d2); cbn; try tauto.
      split; [assumption|]. eapply HQ. reflexivity.
    + unfold bind, noexcept.
      pose proof (CloseDriver_closes env d2) as Hc.
      destruct (CloseDriver env d2); cbn; tauto.
Qed.

(** X9. [OpenDriverSettings] restores the driver handle: a driver it opened
    for the control panel is closed again, an open one stays open.  It
    answers true only if the driver's [controlPanel] answered true; it lets
    only the out-of-memory fault out, and the process ends only when the
    destruction of the driver raises. *)
Theorem OpenDriverSettings_restores (env : Env) (d : Device) :
  match OpenDriverSettings env d with
  | Returns b d' =>
      m_Driver d' = m_Driver d /\
      (b = true -> drv_controlPanel env = Gives true)
  | Throws e d' => e = OutOfMemory /\ m_Driver d' = m_Driver d
  | Aborts => raises (drv_destroy env) = true
  | Spins => False
  end.
Proof.
  unfold OpenDriverSettings.
  apply (temporary_open_restores env _
           (fun b => b = true -> drv_controlPanel env = Gives true)).
  - unfold IsDriverOpen. keeps_solve.
  - unfold IsDriverOpen.
    repeat first
      [ apply guarded_raises_oom; [total_solve|apply raises_only_ret]
      | apply raises_only_ret | apply raises_only_gets
      | apply raises_only_if
      | apply raises_only_bind; [|intros ?] ].
  - intros x b x' H Hb. subst b.
    unfold bind, IsDriverOpen, gets in H.
    destruct (m_Driver x); cbn [negb] in H; [|discriminate].
    unfold try_catch, call in H.
    destruct (drv_controlPanel env) as [[]|e]; try discriminate; [reflexivity|].
    apply bind_Returns in H. destruct H as [u [x1 [_ H]]]. discriminate.
Qed.

(** The control panel of a driver that does not load is not opened: the
    call returns false and the driver is closed as before. *)
Example settings_of_a_driver_that_fails_to_load :
  let env := sample_env (fun _ => Int16LSB) (Raises DriverLoadFailed)
                        (Gives (mkLatencies 1024 1024)) (Gives true)
                        (Gives tt) (Gives tt) in
  match OpenDriverSettings env (fresh (sample_settings 2 false)) with
  | Returns b d' =>
      b = false /\ m_Driver d' = false /\
      calls_where configures d' = []
  | _ => False
  end.
Proof. vm_compute. repeat split. Qed.

(** ** Opening the device *)

Lemma call_Returns {A} (c : DriverCall) (r : Reply A) (d d' : Device) (a : A) :
  call c r d = Returns a d' ->
  r = Gives a /\ d' = set_journal (Called c :: journal d) d.
Proof.
  unfold call. destruct r; intros H; [|discriminate].
  injection H as <- <-. split; reflexivity.
Qed.

(** A check that raises, passed. *)
Lemma guard_Returns (b : bool) (k : M unit) (d d' : Device) (u : unit) :
  (forall x, match k x with Returns _ _ => False | _ => True end) ->
  (if b then k else ret tt) d = Returns u d' ->
  b = false /\ d' = d.
Proof.
  intros Hk H. destruct b.
  - specialize (Hk d). rewrite H in Hk. destruct Hk.
  - injection H as _ <-. split; reflexivity.
Qed.

Lemma throw_never_returns (e : Exn) (x : Device) :
  match @throw unit e x with Returns _ _ => False | _ => True end.
Proof. exact I. Qed.

Lemma establishes_guarded_reset {B} (p : Device -> bool) (m : M unit) (k : M B) :
  establishes p false m -> keeps p k ->
  establishes p false (c <- gets p ;; (if c then m else ret tt) ;; k).
Proof.
  intros Hm Hk d. unfold bind at 1. unfold gets at 1.
  destruct (p d) eqn:Hp.
  - apply (establishes_then_keeps p false m (fun _ => k) Hm (fun _ => Hk)).
  - unfold bind, ret. specialize (Hk d). destruct (k d); try exact I. congruence.
Qed.

(** What else a close that returns has reset. *)
Lemma InternalClose_resets (env : Env) (d d' : Device) (b : bool) :
  InternalClose env d = Returns b d' ->
  b = true /\ m_BuffersCreated d' = false /\ m_nAsioBufferLen d' = 0 /\
  m_BufferLatency d' = Double.zero /\ m_CanOutputReady d' = false /\
  m_RenderSilence d' = false.
Proof.
  intros H.
  assert (E : forall {B} (p : Device -> B) (v : B),
             establishes p v (InternalClose env) -> p d' = v).
  { intros B p v He. specialize (He d). rewrite H in He. exact He. }
  split.
  { unfold InternalClose in H.
    repeat (apply bind_Returns in H; destruct H as [? [? [_ H]]]).
    injection H as <- _. reflexivity. }
  split.
  { apply (E _ m_BuffersCreated). unfold InternalClose.
    do 13 (apply establishes_later; intros ?).
    apply establishes_guarded_reset;
      [apply establishes_later; intros ?; apply establishes_modify; reflexivity
      |keeps_solve]. }
  split; [apply (E _ m_nAsioBufferLen); unfold InternalClose, SetRenderSilence;
          establish|].
  split; [apply (E _ m_BufferLatency); unfold InternalClose, SetRenderSilence;
          establish|].
  split; [apply (E _ m_CanOutputReady); unfold InternalClose, SetRenderSilence;
          establish|].
  apply (E _ m_RenderSilence); unfold InternalClose, SetRenderSilence; establish.
Qed.

(** X10. An open that fails rolls back: when [InternalOpen] returns false the
    driver is closed, the driver's buffers are marked as disposed, the
    device is not running, the buffer and channel lists are empty and the
    buffer length and latency are zero. *)
Theorem InternalOpen_failure_rolls_back (env : Env) (fuel : nat)
        (d d' : Device) :
  InternalOpen env fuel d = Returns false d' ->
  m_Driver d' = false /\ m_BuffersCreated d' = false /\
  m_DeviceRunning d' = false /\ m_BufferInfo d' = [] /\
  m_ChannelInfo d' = [] /\ m_nAsioBufferLen d' = 0 /\
  m_BufferLatency d' = Double.zero.
Proof.
  intros H. unfold InternalOpen in H.
  inv_bind H. inv_bind H. inv_bind H.
  destruct a1; [discriminate|].
  inv_bind H. injection H as <-.
  pose proof (InternalClose_clears env _ _ _ Hstep2) as Hc.
  pose proof (InternalClose_resets env _ _ _ Hstep2) as Hr.
  tauto.
Qed.

Lemma InternalOpen_failure_rolls_back_witness :
  let env := sample_env (fun _ => Int16LSB) (Gives tt)
                        (Gives (mkLatencies 1024 1024))
                        (Raises (DriverCrash "canOutputReady"))
                        (Gives tt) (Gives tt) in
  let d := fresh (sample_settings 2 false) in
  let d' := opened env (sample_settings 2 false) in
  InternalOpen env 16 d = Returns false d' /\
  m_Driver d' = false /\ m_BuffersCreated d' = false /\
  m_DeviceRunning d' = false /\ m_BufferInfo d' = [] /\
  m_ChannelInfo d' = [] /\ m_nAsioBufferLen d' = 0 /\
  m_BufferLatency d' = Double.zero.
Proof.
  intros env d d'.
  assert (H : InternalOpen env 16 d = Returns false d')
    by (vm_compute; reflexivity).
  split; [exact H|].
  exact (InternalOpen_failure_rolls_back env 16 d d' H).
Defined.

(** X11. An open that succeeds has found what it needs and leaves the
    device ready to start: the driver reported enough input and output
    channels for the settings and their channel mapping, the buffer length
    is the one negotiated from the driver's limits, the buffers are those
    [createBuffers] returned for that length, none of them null, and the
    driver is open, with buffers created, not running, the frame counter at
    zero and the stream position offset at the buffer length. *)
Theorem InternalOpen_success_state (env : Env) (fuel : nat) (d d' : Device) :
  InternalOpen env fuel d = Returns true d' ->
  let s := m_Settings d in
  let inputChannelMapping := BaseChannel (InputChannels s) (InputSourceID s) in
  m_Driver d' = true /\ m_BuffersCreated d' = true /\
  m_DeviceRunning d' = false /\ m_TotalFramesWritten d' = 0 /\
  m_StreamPositionOffset d' = m_nAsioBufferLen d' /\
  (exists channels,
      drv_getChannels env = Gives channels /\
      Z.of_nat (NumChannels s) <= Output channels /\
      RequiredDeviceChannels (OutputChannels s) <= Output channels /\
      Z.of_nat (InputChannels s) <= Input channels /\
      RequiredDeviceChannels inputChannelMapping <= Input channels) /\
  (exists bufferSizes,
      drv_getBufferSizes env = Gives bufferSizes /\
      negotiate fuel bufferSizes (requested_length s)
      = Some (m_nAsioBufferLen d')) /\
  drv_createBuffers env (requested_buffers s inputChannelMapping)
                    (m_nAsioBufferLen d')
  = Gives (m_BufferInfo d') /\
  existsb (fun b => (fst (buffers b) =? 0) || (snd (buffers b) =? 0))
          (m_BufferInfo d') = false.
Proof.
  intros H s inputChannelMapping. unfold InternalOpen in H.
  inv_bind H. inv_bind H. inv_bind H.
  destruct a1.
  2:{ inv_bind H. discriminate. }
  injection H as ->.
  apply try_catch_Returns_true in Hstep1.
  apply InitMembers_Returns in Hstep. destruct Hstep as [dj [-> Hj]].
  injection Hj as Hs _ _ _ _.
  injection Hstep0 as <- <-.
  cbn [m_Settings cleared] in Hstep1. rewrite Hs in Hstep1.
  fold s in Hstep1. fold inputChannelMapping in Hstep1.
  set (d0 := cleared dj) in *.
  rename Hstep1 into H.
  inv_bind H.
  assert (K : (m_DeviceRunning d1, m_TotalFramesWritten d1) = (false, 0)).
  { pose proof (keeps_OpenDriver env
                  (fun x => (m_DeviceRunning x, m_TotalFramesWritten x))
                  (fun _ _ => eq_refl) (fun _ _ => eq_refl) (fun _ _ => eq_refl)
                  d0) as Hk.
    rewrite Hstep in Hk. exact Hk. }
  clear Hstep. clear d0. injection K as Krun Ktot.
  inv_bind H. injection Hstep as <- <-.
  inv_bind H. apply guard_Returns in Hstep; [|intros x; exact I].
  destruct Hstep as [Hopen ->]. apply negb_false_iff in Hopen.
  inv_bind H. apply call_Returns in Hstep. destruct Hstep as [Hchannels ->].
  inv_bind H. apply guard_Returns in Hstep; [|intros x; exact I].
  destruct Hstep as [_ ->].
  inv_bind H. apply guard_Returns in Hstep; [|intros x; exact I].
  destruct Hstep as [Hout ->]. apply Z.ltb_ge in Hout.
  inv_bind H. apply guard_Returns in Hstep; [|intros x; exact I].
  destruct Hstep as [Houtmap ->]. apply Z.ltb_ge in Houtmap.
  inv_bind H. apply guard_Returns in Hstep; [|intros x; exact I].
  destruct Hstep as [Hin ->]. apply Z.ltb_ge in Hin.
  inv_bind H. apply guard_Returns in Hstep; [|intros x; exact I].
  destruct Hstep as [Hinmap ->]. apply Z.ltb_ge in Hinmap.
  inv_bind H. apply call_Returns in Hstep. destruct Hstep as [_ ->].
  inv_bind H. apply call_Returns in Hstep. destruct Hstep as [Hsizes ->].
  inv_bind H. injection Hstep as _ <-.
  inv_bind H.
  destruct (negotiate fuel a9 (requested_length s)) as [len|] eqn:Hneg;
    [|discriminate].
  injection Hstep as _ <-.
  inv_bind H. injection Hstep as <- <-.
  inv_bind H. injection Hstep as _ <-.
  inv_bind H. apply call_Returns in Hstep. destruct Hstep as [Hcreate ->].
  inv_bind H. injection Hstep as _ <-.
  inv_bind H. injection Hstep as _ <-.
  inv_bind H. apply guard_Returns in Hstep; [|intros x; exact I].
  destruct Hstep as [Hnull ->].
  inv_bind H. injection Hstep as _ <-.
  match type of H with
  | _ ?x = _ => set (dk := x) in H
  end.
  assert (W : negotiated dk = (true, true, false, 0, len, a13)).
  { unfold negotiated, dk. cbn. rewrite Hopen, Krun, Ktot. reflexivity. }
  clearbody dk.
  do 5 (step_keeping negotiated W H).
  inv_bind H. injection Hstep as _ <-.
  inv_bind H. injection H as <-.
  assert (Hk : keeps (fun x => (negotiated x, m_StreamPositionOffset x))
                     (UpdateLatency env)) by keeps_solve.
  specialize (Hk (set_m_StreamPositionOffset len d5)). rewrite Hstep in Hk.
  injection Hk as E1 E2 E3 E4 E5 E6 E7.
  unfold negotiated in W. injection W as W1 W2 W3 W4 W5 W6.
  rewrite E1, E2, E3, E4, E5, E6, E7, W1, W2, W3, W4, W5, W6.
  repeat split; try assumption.
  - exists a2. repeat split; assumption.
  - exists a9. split; assumption.
Qed.

Lemma InternalOpen_success_state_witness :
  let env := plain_env (fun _ => Int16LSB) in
  let d := fresh (sample_settings 2 false) in
  let d' := opened env (sample_settings 2 false) in
  InternalOpen env 16 d = Returns true d' /\
  m_Driver d' = true /\ m_BuffersCreated d' = true /\
  m_nAsioBufferLen d' = 256 /\ m_StreamPositionOffset d' = 256.
Proof.
  intros env d d'.
  assert (H : InternalOpen env 16 d = Returns true d')
    by (vm_compute; reflexivity).
  split; [exact H|].
  pose proof (InternalOpen_success_state env 16 d d' H) as [H1 [H2 _]].
  split; [exact H1|]. split; [exact H2|]. split; vm_compute; reflexivity.
Defined.

(** A close of a device that is not running and has no driver buffers makes
    no configuring call. *)
Lemma InternalClose_idle (env : Env) (d : Device) :
  m_DeviceRunning d = false -> m_BuffersCreated d = false ->
  match InternalClose env d with
  | Returns _ d' | Throws _ d' =>
      calls_where configures d' = calls_where configures d
  | Aborts | Spins => True
  end.
Proof.
  intros Hr Hc. unfold InternalClose, SetRenderSilence.
  unfold bind at 1. unfold gets at 1. rewrite Hr.
  unfold bind at 1. unfold ret at 1.
  do 11 (unfold bind at 1; unfold modify at 1).
  unfold bind at 1. unfold gets at 1.
  cbn [m_BuffersCreated set_m_ChannelInfo set_m_SampleInputBuffer
       set_m_SampleBuffer set_m_CanOutputReady set_m_RenderSilence].
  rewrite Hc.
  unfold bind at 1. unfold ret at 1.
  match goal with
  | |- match ?m ?x with _ => _ end =>
      assert (Hk : keeps (calls_where configures) m)
  end.
  { unfold calls_where.
    repeat first
      [ apply keeps_view_CloseDriver; [apply shows_no_log_calls|reflexivity]
      | view_step ]. }
  match goal with
  | |- match ?m ?x with _ => _ end => exact (Hk x)
  end.
Qed.

(** The handler of [InternalOpen]. *)
Lemma open_handler_outcome (e : Exn) (d : Device) :
  match (ExceptionHandler "InternalOpen" e ;; ret false) d with
  | Returns b d' =>
      b = false /\
      (m_DeviceRunning d', m_BuffersCreated d')
      = (m_DeviceRunning d, m_BuffersCreated d) /\
      calls_where configures d' = calls_where configures d
  | Throws e' d' =>
      e' = OutOfMemory /\ calls_where configures d' = calls_where configures d
  | Aborts | Spins => False
  end.
Proof.
  unfold bind.
  pose proof (keeps_ExceptionHandler
                (fun x => (m_DeviceRunning x, m_BuffersCreated x))
                "InternalOpen" e (fun _ _ => eq_refl) d) as Hf.
  pose proof (keeps_view_ExceptionHandler (is_call_of configures)
                "InternalOpen" e (shows_no_log_calls _) d) as Hv.
  pose proof (ExceptionHandler_raises_oom "InternalOpen" e d) as Ho.
  destruct (ExceptionHandler "InternalOpen" e d) as [[] d1|e1 d1| |];
    try tauto.
  unfold ret. repeat split; assumption.
Qed.

(** What [InitMembers] leaves, looking forward: it gives up a driver that
    is still open and ends the process if that raises. *)
Lemma InitMembers_outcome (env : Env) (d : Device) :
  match InitMembers env d with
  | Returns _ d0 =>
      exists dj, d0 = cleared dj /\ m_Settings dj = m_Settings d /\
                 calls_where configures dj = calls_where configures d
  | Aborts => raises (drv_destroy env) = true
  | Throws _ _ | Spins => False
  end.
Proof.
  unfold InitMembers. unfold bind at 1. unfold modify at 1. unfold bind at 1.
  set (d1 := set_m_DeferredBufferSwitchDispatcher false d).
  pose proof (reset_driver_lets_out env d1) as Ho.
  pose proof (keeps_reset_driver env m_Settings
                (fun _ _ => eq_refl) (fun _ _ => eq_refl) d1) as Hs.
  assert (Hv : keeps (calls_where configures) (reset_driver env)).
  { unfold calls_where, reset_driver. view_solve. }
  specialize (Hv d1).
  destruct (reset_driver env d1) as [[] d2|e d2| |]; try assumption.
  unfold modify. exists d2. split; [reflexivity|]. split; assumption.
Qed.

(** X12. An open that the driver's channel report does not allow (the call
    fails, or the driver has no channels, or fewer than the settings and
    their channel mapping need) is refused before anything is configured:
    [InternalOpen] returns false, or raises the out-of-memory fault, without
    having set a sample rate, created or disposed buffers, or started or
    stopped the driver.  The process ends instead only if the destruction
    of the driver raises. *)
Theorem InternalOpen_refuses_before_configuring (env : Env) (fuel : nat)
        (d : Device) :
  match drv_getChannels env with
  | Gives channels => channels_suffice (m_Settings d) channels = false
  | Raises _ => True
  end ->
  match InternalOpen env fuel d with
  | Returns b d' =>
      b = false /\ calls_where configures d' = calls_where configures d
  | Throws e d' =>
      e = OutOfMemory /\ calls_where configures d' = calls_where configures d
  | Aborts => raises (drv_destroy env) = true
  | Spins => False
  end.
Proof.
  intros Hch. unfold InternalOpen.
  unfold bind at 1.
  pose proof (InitMembers_outcome env d) as Hinit.
  destruct (InitMembers env d) as [[] d0|e d0| |]; try tauto.
  destruct Hinit as [dj [-> [Hs Hvj]]].
  unfold bind at 1. unfold gets at 1. cbn [m_Settings cleared].
  rewrite Hs.
  set (s := m_Settings d) in *.
  set (d0 := cleared dj).
  assert (Hv0 : calls_where configures d0 = calls_where configures d)
    by exact Hvj.
  assert (Hf0 : (m_DeviceRunning d0, m_BuffersCreated d0) = (false, false))
    by reflexivity.
  assert (Hd0 : m_Driver d0 = false) by reflexivity.
  rewrite <- Hv0. clearbody d0. clear Hvj Hs dj.
  unfold bind at 1.
  match goal with
  | |- match match try_catch ?body ?h d0 with _ => _ end with _ => _ end =>
      assert (Hbody : match body d0 with
                      | Throws e dx =>
                          (m_DeviceRunning dx, m_BuffersCreated dx)
                          = (false, false) /\
                          calls_where configures dx = calls_where configures d0
                      | Aborts => raises (drv_destroy env) = true
                      | Returns _ _ | Spins => False
                      end)
  end.
  { unfold bind at 1.
    pose proof (OpenDriver_outcome env d0 Hd0) as Ho.
    pose proof (keeps_OpenDriver env
                  (fun x => (m_DeviceRunning x, m_BuffersCreated x))
                  (fun _ _ => eq_refl) (fun _ _ => eq_refl) (fun _ _ => eq_refl)
                  d0) as Hf.
    pose proof (keeps_view_OpenDriver env (is_call_of configures)
                  (shows_no_log_calls _) (fun c Hc => Hc) d0) as Hv.
    destruct (OpenDriver env d0) as [[] d1|e d1| |]; try tauto.
    2:{ split; [congruence|exact Hv]. }
    rewrite Hf0 in Hf. fold (calls_where configures d1) in Hv.
    fold (calls_where configures d0) in Hv. rewrite <- Hv, <- Hf.
    clear Hv Hf Ho.
    unfold bind at 1. unfold IsDriverOpen at 1. unfold gets at 1.
    unfold bind at 1.
    destruct (m_Driver d1); cbn [negb];
      [unfold ret at 1|unfold throw at 1; split; reflexivity].
    unfold bind at 1. unfold call at 1.
    destruct (drv_getChannels env) as [channels|e]; [|split; reflexivity].
    unfold channels_suffice in Hch. fold s in Hch.
    unfold bind at 1.
    destruct ((Input channels <=? 0) && (Output channels <=? 0));
      [split; reflexivity|].
    unfold ret at 1. unfold bind at 1.
    destruct (Output channels <? Z.of_nat (NumChannels s));
      [split; reflexivity|].
    unfold ret at 1. unfold bind at 1.
    destruct (Output channels <? RequiredDeviceChannels (OutputChannels s));
      [split; reflexivity|].
    unfold ret at 1. unfold bind at 1.
    destruct (Input channels <? Z.of_nat (InputChannels s));
      [split; reflexivity|].
    unfold ret at 1. unfold bind at 1.
    destruct (Input channels
              <? RequiredDeviceChannels
                   (BaseChannel (InputChannels s) (InputSourceID s)));
      [split; reflexivity|].
    discriminate Hch. }
  unfold try_catch.
  match goal with
  | |- match match match ?body d0 with _ => _ end with _ => _ end with _ => _ end =>
      destruct (body d0) as [b dx|e dx| |]; try tauto
  end.
  destruct Hbody as [Hf Hv].
  pose proof (open_handler_outcome e dx) as Hh.
  destruct ((ExceptionHandler "InternalOpen" e ;; ret false) dx)
    as [b dy|e' dy| |]; try tauto.
  2:{ split; [tauto|]. destruct Hh as [_ Hh]. congruence. }
  destruct Hh as [-> [Hf' Hv']].
  unfold bind.
  pose proof (InternalClose_idle env dy) as Hi.
  pose proof (InternalClose_lets_out env dy) as Hc.
  rewrite Hf in Hf'. injection Hf' as Hr Hb.
  specialize (Hi Hr Hb).
  destruct (InternalClose env dy) as [b dz|e' dz| |]; try tauto.
  - unfold ret. split; [reflexivity|congruence].
  - split; [tauto|congruence].
Qed.

Lemma InternalOpen_refuses_before_configuring_witness :
  let env := plain_env (fun _ => Int16LSB) in
  let d := fresh (sample_settings 6 false) in
  match drv_getChannels env with
  | Gives channels => channels_suffice (m_Settings d) channels = false
  | Raises _ => True
  end /\
  match InternalOpen env 16 d with
  | Returns b d' =>
      b = false /\ calls_where configures d' = calls_where configures d
  | Throws e d' =>
      e = OutOfMemory /\ calls_where configures d' = calls_where configures d
  | Aborts => raises (drv_destroy env) = true
  | Spins => False
  end.
Proof.
  intros env d.
  assert (H : match drv_getChannels env with
              | Gives channels => channels_suffice (m_Settings d) channels = false
              | Raises _ => True
              end) by reflexivity.
  split; [exact H|].
  exact (InternalOpen_refuses_before_configuring env 16 d H).
Defined.

(** *** What can leave an open *)

Lemma raises_only_lift {A} (r : Reply A) : raises_only (fun _ => True) (lift r).
Proof. intros d. unfold lift. destruct r; exact I. Qed.

Lemma raises_only_for_each {A} (P : Exn -> Prop) (l : list A)
      (body : A -> M unit) :
  (forall x, raises_only P (body x)) -> raises_only P (for_each l body).
Proof.
  intros H. induction l as [|x l IH]; cbn [for_each].
  - apply raises_only_ret.
  - apply raises_only_bind; auto.
Qed.

(** Code that neither aborts nor spins, whatever it raises. *)
Ltac ends_solve :=
  repeat first
    [ apply raises_only_ret | apply raises_only_gets | apply raises_only_modify
    | apply raises_only_lift
    | apply raises_only_throw; exact I
    | apply (raises_only_weaken _ _ _ (raises_only_call _ _)); intros; exact I
    | apply (raises_only_weaken _ _ _ (ExceptionHandler_raises_oom _ _));
      intros; exact I
    | apply raises_only_for_each; intros ?
    | apply raises_only_if
    | apply raises_only_bind; [|intros ?]
    | apply (raises_only_try_catch (fun _ => True)); [|intros ? _]
    | match goal with
      | |- raises_only _ (match ?e with _ => _ end) => destruct e
      end ].

Lemma lets_out_call_bind {A B} (P : Exn -> Prop) (Ab Sp : Prop)
      (c : DriverCall) (r : Reply A) (k : A -> M B) :
  (forall e, r = Raises e -> P e) ->
  (forall a, r = Gives a -> lets_out P Ab Sp (k a)) ->
  lets_out P Ab Sp (bind (call c r) k).
Proof.
  intros He Hk d. unfold bind, call. destruct r as [a|e].
  - apply (Hk a eq_refl).
  - apply (He e eq_refl).
Qed.

Lemma OpenDriver_lets_out (env : Env) :
  lets_out (fun _ => True) (raises (drv_destroy env) = true) False
           (OpenDriver env).
Proof.
  unfold OpenDriver, IsDriverOpen, emit.
  apply lets_out_bind; [apply lets_out_of_raises_only; ends_solve|].
  intros open. apply lets_out_if; [apply lets_out_of_raises_only; ends_solve|].
  apply lets_out_bind; [apply lets_out_of_raises_only; ends_solve|].
  intros created. apply lets_out_if;
    [apply lets_out_of_raises_only; ends_solve|].
  apply (lets_out_try_catch (fun _ => True));
    [apply lets_out_of_raises_only; ends_solve|].
  intros e _. apply lets_out_bind.
  - apply (lets_out_weaken _ _ _ _ _ _ _ (CloseDriver_lets_out env)); tauto.
  - intros _. apply lets_out_of_raises_only.
    apply (raises_only_weaken _ _ _ (ExceptionHandler_raises_oom _ _)).
    intros; exact I.
Qed.

Lemma allocate_ends (f : SampleFormat) : raises_only (fun _ => True) (allocate f).
Proof. unfold allocate. ends_solve. Qed.

Lemma UpdateLatency_ends (env : Env) :
  raises_only (fun _ => True) (UpdateLatency env).
Proof. unfold UpdateLatency. ends_solve. Qed.

(** X13. [InternalOpen] lets nothing out but the out-of-memory fault.  It
    ends the process only if the destruction of the driver raises, and it
    can fail to finish only when the fuel does not suffice for the scan over
    the buffer sizes that the driver reported. *)
Theorem InternalOpen_escapes (env : Env) (fuel : nat) (d : Device) :
  match InternalOpen env fuel d with
  | Returns _ _ => True
  | Throws e _ => e = OutOfMemory
  | Aborts => raises (drv_destroy env) = true
  | Spins =>
      exists bufferSizes,
        drv_getBufferSizes env = Gives bufferSizes /\
        negotiate fuel bufferSizes (requested_length (m_Settings d)) = None
  end.
Proof.
  unfold InternalOpen.
  unfold bind at 1.
  pose proof (InitMembers_outcome env d) as Hinit.
  destruct (InitMembers env d) as [[] d0|e d0| |]; try tauto.
  destruct Hinit as [dj [-> [Hs _]]].
  unfold bind at 1. unfold gets at 1. cbn [m_Settings cleared].
  rewrite Hs.
  set (s := m_Settings d).
  set (d0 := cleared dj).
  clearbody d0.
  set (Ab := raises (drv_destroy env) = true).
  set (Sp := exists bufferSizes,
               drv_getBufferSizes env = Gives bufferSizes /\
               negotiate fuel bufferSizes (requested_length s) = None).
  match goal with
  | |- match ?m d0 with _ => _ end =>
      assert (H : lets_out (fun e => e = OutOfMemory) Ab Sp m); [|exact (H d0)]
  end.
  apply lets_out_bind.
  - apply (lets_out_try_catch (fun _ => True)).
    + apply lets_out_bind;
        [apply (lets_out_weaken _ _ _ _ _ _ _ (OpenDriver_lets_out env)); tauto
        |intros _].
      do 9 (apply lets_out_bind;
            [apply lets_out_of_raises_only; ends_solve|intros ?]).
      apply lets_out_call_bind; [intros; exact I|intros bufferSizes Hsizes].
      apply lets_out_bind; [apply lets_out_of_raises_only; ends_solve|intros _].
      apply lets_out_bind.
      { destruct (negotiate fuel bufferSizes (requested_length s)) eqn:Hneg.
        - apply lets_out_of_raises_only. ends_solve.
        - intros x. exists bufferSizes. split; assumption. }
      intros _.
      do 9 (apply lets_out_bind;
            [apply lets_out_of_raises_only; ends_solve|intros ?]).
      apply lets_out_bind;
        [apply lets_out_of_raises_only; apply allocate_ends|intros _].
      do 3 (apply lets_out_bind;
            [apply lets_out_of_raises_only; ends_solve|intros ?]).
      apply lets_out_bind;
        [apply lets_out_of_raises_only; apply UpdateLatency_ends|intros _].
      apply lets_out_of_raises_only. ends_solve.
    + intros e _. apply lets_out_of_raises_only.
      apply raises_only_bind; [apply ExceptionHandler_raises_oom|intros _].
      apply raises_only_ret.
  - intros opened.
    destruct opened; [apply lets_out_of_raises_only, raises_only_ret|].
    apply lets_out_bind;
      [|intros _; apply lets_out_of_raises_only, raises_only_ret].
    apply (lets_out_weaken _ _ _ _ _ _ _ (InternalClose_lets_out env));
      [tauto|tauto|tauto].
Qed.

(** ** Start, stop and silence *)

(** X14. A start of a device that is kept running and runs only ends the
    silence: it returns true without a driver call and leaves the frame
    counter alone.  Any other start resets the frame counter, clears the
    silence flag and calls the driver's [start] once: if that answers, the
    device is marked running and the start returns true; if it raises
    out-of-memory, that is let through; if it raises anything else, the
    start returns false and the running mark is as it was. *)
Theorem start_request (env : Env) (d : Device) :
  if KeepDeviceRunning (m_Settings d) && m_DeviceRunning d
  then
    exists d',
      InternalStart env d = Returns true d' /\
      m_RenderSilence d' = false /\
      journal d' = journal d /\
      m_TotalFramesWritten d' = m_TotalFramesWritten d /\
      m_DeviceRunning d' = true
  else
    exists d',
      match drv_start env with
      | Gives _ =>
          InternalStart env d = Returns true d' /\ m_DeviceRunning d' = true
      | Raises e =>
          (if is_out_of_memory e
           then InternalStart env d = Throws OutOfMemory d'
           else InternalStart env d = Returns false d') /\
          m_DeviceRunning d' = m_DeviceRunning d
      end /\
      m_TotalFramesWritten d' = 0 /\
      m_RenderSilence d' = false /\
      start_stop_calls d' = S (start_stop_calls d).
Proof.
  unfold InternalStart, SetRenderSilence, bind, gets, modify, try_catch, call, ret.
  destruct (KeepDeviceRunning (m_Settings d) && m_DeviceRunning d) eqn:Hwarm.
  - apply andb_true_iff in Hwarm. destruct Hwarm as [_ Hrun].
    eexists. split; [reflexivity|]. repeat split. exact Hrun.
  - destruct (drv_start env) as [[]|e].
    + eexists. split; [split; reflexivity|].
      unfold start_stop_calls. cbn. auto.
    + destruct e; cbn [is_out_of_memory ExceptionHandler];
        unfold emit, bind, modify, throw;
        eexists; (split; [split; reflexivity|]);
        unfold start_stop_calls; cbn; auto.
Qed.

(** X15. Pause and resume of a device that is kept running: the stop
    returns with the device playing silence, the following start returns
    true with the silence ended, and over both the driver was not called,
    the device stayed running and the frame counter went on. *)
Theorem pause_and_resume (env : Env) (d : Device) :
  KeepDeviceRunning (m_Settings d) = true ->
  m_DeviceRunning d = true ->
  exists d1 d2,
    InternalStop env d = Returns tt d1 /\
    InternalIsPlayingSilence d1 = true /\
    InternalStart env d1 = Returns true d2 /\
    InternalIsPlayingSilence d2 = false /\
    journal d2 = journal d /\
    m_DeviceRunning d2 = true /\
    m_TotalFramesWritten d2 = m_TotalFramesWritten d.
Proof.
  intros Hkeep Hrun.
  unfold InternalStop, InternalStopImpl, InternalStart, SetRenderSilence,
    InternalIsPlayingSilence, bind, gets, modify, ret.
  rewrite Hkeep. cbn [negb andb].
  eexists. eexists. split; [reflexivity|].
  cbn [m_Settings m_DeviceRunning m_RenderSilence set_m_RenderSilence
       journal m_TotalFramesWritten].
  rewrite Hkeep, Hrun. cbn [andb].
  repeat split; try exact Hrun. rewrite andb_false_r. reflexivity.
Qed.

Lemma pause_and_resume_witness :
  let env := plain_env (fun _ => Int16LSB) in
  let d := playing env (sample_settings 2 true) false in
  KeepDeviceRunning (m_Settings d) = true /\
  m_DeviceRunning d = true /\
  exists d1 d2,
    InternalStop env d = Returns tt d1 /\
    InternalIsPlayingSilence d1 = true /\
    InternalStart env d1 = Returns true d2 /\
    InternalIsPlayingSilence d2 = false /\
    journal d2 = journal d /\
    m_DeviceRunning d2 = true /\
    m_TotalFramesWritten d2 = m_TotalFramesWritten d.
Proof.
  intros env d.
  assert (H1 : KeepDeviceRunning (m_Settings d) = true)
    by (vm_compute; reflexivity).
  assert (H2 : m_DeviceRunning d = true) by reflexivity.
  split; [exact H1|]. split; [exact H2|].
  exact (pause_and_resume env d H1 H2).
Defined.


(** ** Requests, features and statistics *)

(** X17. A latency notification is handled exactly once: the next
    [HandleRequests] asks the driver for its latencies once and returns
    true, unless that call runs out of memory, and the one after it returns
    false and changes nothing. *)
Theorem latency_notification_handled_once (env : Env) (d : Device) :
  match HandleRequests env (MessageLatenciesChanged d) with
  | Returns b d1 =>
      b = true /\
      driver_calls d1 = Called CallGetLatencies :: driver_calls d /\
      HandleRequests env d1 = Returns false d1
  | Throws e _ => e = OutOfMemory /\ raises_oom (drv_getLatencies env) = true
  | Aborts | Spins => False
  end.
Proof.
  unfold HandleRequests.
  unfold bind at 1. unfold gets at 1.
  unfold bind at 1. unfold modify at 1.
  unfold MessageLatenciesChanged at 1. cbn [m_AsioRequest set_m_AsioRequest].
  unfold has_flag at 1. rewrite land_lor_same.
  change (negb (AsioRequest.LatenciesChanged =? 0)) with true. cbv iota.
  set (d0 := set_m_AsioRequest 0 (MessageLatenciesChanged d)).
  assert (Hreq : m_AsioRequest d0 = 0) by reflexivity.
  assert (Hcalls : driver_calls d0 = driver_calls d) by reflexivity.
  clearbody d0.
  unfold bind at 1.
  pose proof (keeps_UpdateLatency env m_AsioRequest
                (fun _ _ => eq_refl) (fun _ _ => eq_refl) d0) as Hk.
  assert (Hu : match UpdateLatency env d0 with
               | Returns _ d1 =>
                   driver_calls d1 = Called CallGetLatencies :: driver_calls d0
               | Throws e _ =>
                   e = OutOfMemory /\ raises_oom (drv_getLatencies env) = true
               | Aborts | Spins => False
               end).
  { unfold UpdateLatency, bind, try_catch, call, gets, modify, ret.
    destruct (drv_getLatencies env) as [l|e].
    - destruct (m_nAsioBufferLen _ <=? LatencyOutput l); reflexivity.
    - destruct e; cbn [raises_oom is_out_of_memory ExceptionHandler];
        unfold emit, bind, modify, throw, ret; cbn [m_nAsioBufferLen];
        try (split; reflexivity);
        match goal with
        | |- context [if ?c then _ else _] => destruct c
        end; reflexivity. }
  destruct (UpdateLatency env d0) as [[] d1|e d1| |]; try tauto.
  unfold ret. split; [reflexivity|]. split; [congruence|].
  unfold bind, gets, modify. rewrite Hk, Hreq.
  change (has_flag 0 AsioRequest.LatenciesChanged) with false. cbv iota.
  unfold ret. f_equal. rewrite Hreq in Hk. clear - Hk.
  destruct d1. cbn in Hk. subst. reflexivity.
Qed.

Lemma is_warning_spec (d : Device) :
  is_warning (text (GetStatistics d))
  = negb (Z.land (m_UsedFeatures d) unsupported_features =? 0).
Proof.
  unfold GetStatistics, is_warning. cbn [text].
  destruct (Z.land (m_UsedFeatures d) unsupported_features =? 0); cbn [negb].
  - destruct (m_UsedFeatures d =? 0); reflexivity.
  - reflexivity.
Qed.

Lemma lor_nonzero (a b : Z) :
  negb (Z.lor a b =? 0) = negb (a =? 0) || negb (b =? 0).
Proof.
  destruct (Z.eqb_spec (Z.lor a b) 0) as [H|H].
  - apply Z.lor_eq_0_iff in H. destruct H as [-> ->]. reflexivity.
  - destruct (Z.eqb_spec a 0) as [->|Ha]; [|reflexivity].
    destruct (Z.eqb_spec b 0) as [->|Hb]; [|reflexivity].
    exfalso. apply H. reflexivity.
Qed.

(** The warning after one more feature bit. *)
Lemma warning_with_feature (u bit : Z) :
  negb (Z.land (Z.lor u bit) unsupported_features =? 0)
  = negb (Z.land u unsupported_features =? 0)
    || negb (Z.land bit unsupported_features =? 0).
Proof. rewrite Z.land_lor_distr_l. apply lor_nonzero. Qed.

(** What a notification adds to the features used. *)
Lemma notify_features (n : Notification) (d : Device) :
  exists bit,
    m_UsedFeatures (notify n d) = Z.lor (m_UsedFeatures d) bit /\
    unsupported n d = negb (Z.land bit unsupported_features =? 0).
Proof.
  destruct n as [|newSize| | | |sRate|deferred]; cbn [notify unsupported].
  - exists AsioFeature.ResetRequest. split; reflexivity.
  - exists AsioFeature.BufferSizeChange. split; reflexivity.
  - exists AsioFeature.ResyncRequest. split; reflexivity.
  - exists 0. split; [|reflexivity].
    unfold MessageLatenciesChanged. cbn [m_UsedFeatures set_m_AsioRequest].
    rewrite Z.lor_0_r. reflexivity.
  - exists AsioFeature.Overload. split; reflexivity.
  - unfold RealtimeSampleRateDidChange.
    destruct (Double.saturate_round_uint32 sRate =? Samplerate (m_Settings d));
      cbn [negb].
    + exists 0. split; [rewrite Z.lor_0_r|]; reflexivity.
    + exists AsioFeature.SampleRateChange. split; [|reflexivity].
      cbn [m_Settings set_m_UsedFeatures].
      destruct (within_tolerance (Samplerate (m_Settings d)) sRate);
        reflexivity.
  - unfold RealtimeRequestDeferredProcessing. destruct deferred.
    + exists AsioFeature.DeferredProcess. split; reflexivity.
    + exists 0. split; [rewrite Z.lor_0_r|]; reflexivity.
Qed.

(** X18. The statistics warn after a notification exactly if they warned
    before it or the notification is an overload, a buffer size change, or a
    sample rate that does not round to the configured one; reset and resync
    requests, latency changes and deferred processing never raise the
    warning. *)
Theorem notification_warning (n : Notification) (d : Device) :
  is_warning (text (GetStatistics (notify n d)))
  = is_warning (text (GetStatistics d)) || unsupported n d.
Proof.
  rewrite !is_warning_spec.
  destruct (notify_features n d) as [bit [Hf Hu]].
  rewrite Hf, warning_with_feature, Hu. reflexivity.
Qed.

Lemma InternalOpen_keeps_features (env : Env) (fuel : nat) :
  keeps m_UsedFeatures (InternalOpen env fuel).
Proof.
  unfold InternalOpen, InitMembers, InternalClose, SetRenderSilence, allocate,
    IsDriverOpen.
  keeps_solve.
Qed.

(** X19. A warning of the statistics lasts as long as the device object: no
    sequence of notifications clears it, and it is still there after every
    close and every open, failed or not, that returns. *)
Theorem statistics_warning_persists (env : Env) (fuel : nat)
        (ns : list Notification) (d : Device) :
  is_warning (text (GetStatistics d)) = true ->
  is_warning (text (GetStatistics (notify_all ns d))) = true /\
  (forall b d', InternalClose env d = Returns b d' ->
                is_warning (text (GetStatistics d')) = true) /\
  (forall b d', InternalOpen env fuel d = Returns b d' ->
                is_warning (text (GetStatistics d')) = true).
Proof.
  intros Hw. split; [|split].
  - revert d Hw. unfold notify_all.
    induction ns as [|n ns IH]; intros d Hw; cbn [fold_left]; [exact Hw|].
    apply IH. rewrite is_warning_spec in *.
    destruct (notify_features n d) as [bit [Hf _]].
    rewrite Hf, warning_with_feature, Hw. reflexivity.
  - intros b d' H. rewrite is_warning_spec in *.
    assert (Hk : keeps m_UsedFeatures (InternalClose env))
      by (unfold InternalClose, SetRenderSilence; keeps_solve).
    specialize (Hk d). rewrite H in Hk. rewrite Hk. exact Hw.
  - intros b d' H. rewrite is_warning_spec in *.
    pose proof (InternalOpen_keeps_features env fuel d) as Hk.
    rewrite H in Hk. rewrite Hk. exact Hw.
Qed.

Lemma statistics_warning_persists_witness :
  let env := plain_env (fun _ => Int16LSB) in
  let d := MessageOverload (fresh (sample_settings 2 false)) in
  let ns := [NotifyResetRequest; NotifyLatenciesChanged;
             NotifyRequestDeferredProcessing true] in
  is_warning (text (GetStatistics d)) = true /\
  is_warning (text (GetStatistics (notify_all ns d))) = true /\
  (forall b d', InternalClose env d = Returns b d' ->
                is_warning (text (GetStatistics d')) = true) /\
  (forall b d', InternalOpen env 16 d = Returns b d' ->
                is_warning (text (GetStatistics d')) = true).
Proof.
  intros env d ns.
  assert (H : is_warning (text (GetStatistics d)) = true) by reflexivity.
  split; [exact H|].
  exact (statistics_warning_persists env 16 ns d H).
Defined.

(** The text after an overload and a reset request on a new device. *)
Example statistics_after_overload :
  text (GetStatistics
          (notify_all [NotifyOverload; NotifyResetRequest]
                      (fresh (sample_settings 2 false))))
  = "WARNING: unsupported features: load"%string /\
  text (GetStatistics
          (notify_all [NotifyResetRequest; NotifyRequestDeferredProcessing true]
                      (fresh (sample_settings 2 false))))
  = "OK, features used: reset,deferred"%string /\
  text (GetStatistics (fresh (sample_settings 2 false))) = "OK."%string.
Proof. repeat split. Qed.

(** ** What a capability query answers *)

(** A handler that logs and goes on with [b]. *)
Lemma handled_outcome {A} (func : string) (e : Exn) (b : A) (d : Device) :
  match (ExceptionHandler func e ;; ret b) d with
  | Returns b' _ => b' = b
  | Throws e' _ => e' = OutOfMemory
  | Aborts | Spins => False
  end.
Proof.
  unfold bind. pose proof (ExceptionHandler_raises_oom func e d) as H.
  destruct (ExceptionHandler func e d); try assumption. reflexivity.
Qed.

Lemma channel_name_outcome (env : Env) (i : Z) (input : bool) (d : Device) :
  match channel_name env i input d with
  | Returns n _ => n = reported_name env input i
  | Throws e _ => e = OutOfMemory
  | Aborts | Spins => False
  end.
Proof.
  unfold channel_name, reported_name, try_catch, bind, call.
  destruct (drv_getChannelInfo env i input) as [info|e].
  - reflexivity.
  - apply (handled_outcome "GetDeviceDynamicCaps" e (Numbered i)).
Qed.

(** The loop over the base sample rates. *)
Lemma collect_rates (env : Env) (baseSampleRates : list Z) :
  forall caps d,
    match
      collect baseSampleRates
        (fun rate caps =>
           try_catch
             (can <- call (CallCanSampleRate rate) (drv_canSampleRate env rate) ;;
              if can
              then ret (mkDynamicCaps (currentSampleRate caps)
                          (supportedSampleRates caps ++ [rate])
                          (supportedExclusiveSampleRates caps ++ [rate])
                          (channelNames caps) (inputSourceNames caps))
              else ret caps)
             (fun e => ExceptionHandler "GetDeviceDynamicCaps" e ;; ret caps))
        caps d
    with
    | Returns caps' _ =>
        caps' = mkDynamicCaps (currentSampleRate caps)
                  (supportedSampleRates caps
                   ++ filter (can_rate env) baseSampleRates)
                  (supportedExclusiveSampleRates caps
                   ++ filter (can_rate env) baseSampleRates)
                  (channelNames caps) (inputSourceNames caps)
    | Throws e _ => e = OutOfMemory
    | Aborts | Spins => False
    end.
Proof.
  induction baseSampleRates as [|rate l IH]; intros caps d.
  - cbn. rewrite !app_nil_r. destruct caps; reflexivity.
  - cbn [collect filter]. unfold bind at 1.
    match goal with
    | |- match match ?step d with _ => _ end with _ => _ end =>
        assert (Hs : match step d with
                     | Returns caps' _ =>
                         caps' =
                           if can_rate env rate
                           then mkDynamicCaps (currentSampleRate caps)
                                  (supportedSampleRates caps ++ [rate])
                                  (supportedExclusiveSampleRates caps ++ [rate])
                                  (channelNames caps) (inputSourceNames caps)
                           else caps
                     | Throws e _ => e = OutOfMemory
                     | Aborts | Spins => False
                     end);
          [|destruct (step d) as [caps1 d1|e d1| |]; try assumption]
    end.
    { unfold try_catch, bind, call, can_rate.
      destruct (drv_canSampleRate env rate) as [[]|e]; try reflexivity.
      apply (handled_outcome "GetDeviceDynamicCaps" e caps). }
    specialize (IH caps1 d1).
    destruct (collect l _ caps1 d1) as [caps2 d2|e d2| |]; try assumption.
    subst caps2 caps1.
    destruct (can_rate env rate); cbn; rewrite <- ?app_assoc; reflexivity.
Qed.

(** The loops over the output and the input channels. *)
Lemma collect_output_names (env : Env) (l : list Z) :
  forall caps d,
    match
      collect l
        (fun i caps =>
           n <- channel_name env i false ;;
           ret (mkDynamicCaps (currentSampleRate caps)
                  (supportedSampleRates caps)
                  (supportedExclusiveSampleRates caps)
                  (channelNames caps ++ [n]) (inputSourceNames caps)))
        caps d
    with
    | Returns caps' _ =>
        caps' = mkDynamicCaps (currentSampleRate caps)
                  (supportedSampleRates caps)
                  (supportedExclusiveSampleRates caps)
                  (channelNames caps ++ map (reported_name env false) l)
                  (inputSourceNames caps)
    | Throws e _ => e = OutOfMemory
    | Aborts | Spins => False
    end.
Proof.
  induction l as [|i l IH]; intros caps d.
  - cbn. rewrite app_nil_r. destruct caps; reflexivity.
  - cbn [collect map]. unfold bind at 1. unfold bind at 1.
    pose proof (channel_name_outcome env i false d) as Hn.
    destruct (channel_name env i false d) as [n d1|e d1| |]; try assumption.
    unfold ret at 1. subst n.
    match goal with
    | |- match collect l ?step ?caps1 d1 with _ => _ end =>
        specialize (IH caps1 d1);
          destruct (collect l step caps1 d1) as [caps2 d2|e d2| |];
          try assumption
    end.
    subst caps2. cbn. rewrite <- app_assoc. reflexivity.
Qed.

Lemma collect_input_names (env : Env) (l : list Z) :
  forall caps d,
    match
      collect l
        (fun i caps =>
           n <- channel_name env i true ;;
           ret (mkDynamicCaps (currentSampleRate caps)
                  (supportedSampleRates caps)
                  (supportedExclusiveSampleRates caps)
                  (channelNames caps) (inputSourceNames caps ++ [(i, n)])))
        caps d
    with
    | Returns caps' _ =>
        caps' = mkDynamicCaps (currentSampleRate caps)
                  (supportedSampleRates caps)
                  (supportedExclusiveSampleRates caps)
                  (channelNames caps)
                  (inputSourceNames caps
                   ++ map (fun i => (i, reported_name env true i)) l)
    | Throws e _ => e = OutOfMemory
    | Aborts | Spins => False
    end.
Proof.
  induction l as [|i l IH]; intros caps d.
  - cbn. rewrite app_nil_r. destruct caps; reflexivity.
  - cbn [collect map]. unfold bind at 1. unfold bind at 1.
    pose proof (channel_name_outcome env i true d) as Hn.
    destruct (channel_name env i true d) as [n d1|e d1| |]; try assumption.
    unfold ret at 1. subst n.
    match goal with
    | |- match collect l ?step ?caps1 d1 with _ => _ end =>
        specialize (IH caps1 d1);
          destruct (collect l step caps1 d1) as [caps2 d2|e d2| |];
          try assumption
    end.
    subst caps2. cbn. rewrite <- app_assoc. reflexivity.
Qed.

(** X20. The answer of a capability query whose driver is open or opens:
    the current sample rate is the one the driver reports, if positive, and
    0 otherwise; the supported and the exclusive sample rates are the base
    rates, in their order, that the driver says it can run at; the output
    channel names and the input source names are the driver's, one per
    channel in channel order, with the channel number in place of every name
    the driver fails to give, and both lists are empty when the driver does
    not report its channels.  The query raises only if a call runs out of
    memory, and the process ends only if the destruction of the driver
    raises. *)
Theorem query_answers (env : Env) (baseSampleRates : list Z) (d : Device) :
  opens env d = true ->
  match GetDeviceDynamicCaps env baseSampleRates d with
  | Returns caps _ =>
      currentSampleRate caps = reported_rate env /\
      supportedSampleRates caps = filter (can_rate env) baseSampleRates /\
      supportedExclusiveSampleRates caps
      = filter (can_rate env) baseSampleRates /\
      match drv_getChannels env with
      | Gives channels =>
          channelNames caps
          = map (reported_name env false) (indices (Output channels)) /\
          inputSourceNames caps
          = map (fun i => (i, reported_name env true i))
                (indices (Input channels))
      | Raises _ => channelNames caps = [] /\ inputSourceNames caps = []
      end
  | Throws e _ => e = OutOfMemory
  | Aborts => raises (drv_destroy env) = true
  | Spins => False
  end.
Proof.
  intros Hopens. unfold GetDeviceDynamicCaps. cbv zeta.
  match goal with
  | |- context [scope_exit ?b _] => set (body := b)
  end.
  assert (Hbody : forall d1, m_Driver d1 = true ->
            match body d1 with
            | Returns caps _ =>
                currentSampleRate caps = reported_rate env /\
                supportedSampleRates caps
                = filter (can_rate env) baseSampleRates /\
                supportedExclusiveSampleRates caps
                = filter (can_rate env) baseSampleRates /\
                match drv_getChannels env with
                | Gives channels =>
                    channelNames caps
                    = map (reported_name env false) (indices (Output channels)) /\
                    inputSourceNames caps
                    = map (fun i => (i, reported_name env true i))
                          (indices (Input channels))
                | Raises _ =>
                    channelNames caps = [] /\ inputSourceNames caps = []
                end
            | Throws e _ => e = OutOfMemory
            | Aborts | Spins => False
            end).
  { intros d1 H1. unfold body.
    unfold bind at 1. unfold IsDriverOpen at 1. unfold gets at 1.
    rewrite H1. cbn [negb].
    unfold bind at 1.
    match goal with
    | |- match match ?step d1 with _ => _ end with _ => _ end =>
        assert (Hs : match step d1 with
                     | Returns caps1 _ =>
                         caps1 = mkDynamicCaps (reported_rate env) [] [] [] []
                     | Throws e _ => e = OutOfMemory
                     | Aborts | Spins => False
                     end);
          [|destruct (step d1) as [caps1 d2|e d2| |]; try assumption]
    end.
    { unfold try_catch, bind, call, reported_rate.
      destruct (drv_getSampleRate env) as [r|e].
      - destruct (Double.ltb Double.zero r); reflexivity.
      - apply (handled_outcome "GetDeviceDynamicCaps" e empty_caps). }
    subst caps1.
    unfold bind at 1.
    pose proof (collect_rates env baseSampleRates
                  (mkDynamicCaps (reported_rate env) [] [] [] []) d2) as Hr.
    match goal with
    | |- match match ?c with _ => _ end with _ => _ end =>
        destruct c as [caps2 d3|e d3| |]; try assumption
    end.
    subst caps2. cbn [currentSampleRate supportedSampleRates
                      supportedExclusiveSampleRates channelNames
                      inputSourceNames app].
    unfold try_catch. unfold bind at 1. unfold call at 1.
    destruct (drv_getChannels env) as [channels|e].
    - unfold bind at 1.
      match goal with
      | |- match match match ?g ?x with _ => _ end with _ => _ end with _ => _ end =>
          assert (Hg : exists d4, g x = Returns tt d4)
            by (destruct (negb ((0 <? Input channels) || (0 <? Output channels)));
                eexists; reflexivity);
            destruct Hg as [d4 Hg]; rewrite Hg
      end.
      unfold bind at 1.
      match goal with
      | |- match match match collect ?l ?step ?c d4 with _ => _ end
                 with _ => _ end with _ => _ end =>
          pose proof (collect_output_names env l c d4) as Ho;
            destruct (collect l step c d4) as [caps3 d5|e d5| |];
            try contradiction
      end.
      + subst caps3.
        match goal with
        | |- match match collect ?l ?step ?c d5 with _ => _ end with _ => _ end =>
            pose proof (collect_input_names env l c d5) as Hi;
              destruct (collect l step c d5) as [caps4 d6|e d6| |];
              try contradiction
        end.
        * subst caps4. cbn. repeat split.
        * subst e. reflexivity.
      + subst e. reflexivity.
    - match goal with
      | |- match ?h ?x with _ => _ end =>
          pose proof (handled_outcome "GetDeviceDynamicCaps" e
                        (mkDynamicCaps (reported_rate env)
                           (filter (can_rate env) baseSampleRates)
                           (filter (can_rate env) baseSampleRates) [] [])
                        x) as Hh;
            destruct (h x) as [caps3 d4|e' d4| |]; try assumption
      end.
      subst caps3. cbn. repeat split. }
  unfold opens in Hopens.
  unfold bind at 1. unfold IsDriverOpen at 1. unfold gets at 1.
  destruct (m_Driver d) eqn:Hd; cbn [negb orb] in *.
  - unfold bind at 1. unfold ret at 1. unfold scope_exit.
    specialize (Hbody d Hd).
    destruct (body d) as [caps d1|e d1| |]; try contradiction; assumption.
  - unfold bind at 1.
    destruct (OpenDriver env d) as [[] d1|e d1| |]; try discriminate.
    unfold scope_exit. specialize (Hbody d1 Hopens).
    pose proof (CloseDriver_closes env) as Hc.
    destruct (body d1) as [caps d2|e d2| |]; try contradiction.
    + unfold bind, noexcept. specialize (Hc d2).
      destruct (CloseDriver env d2) as [[] d3|e d3| |];
        try contradiction; assumption.
    + unfold bind, noexcept. specialize (Hc d2).
      destruct (CloseDriver env d2) as [[] d3|e' d3| |];
        try contradiction; assumption.
Qed.

Lemma query_answers_witness :
  let env := plain_env (fun _ => Int16LSB) in
  let d := fresh (sample_settings 2 false) in
  let baseSampleRates := [44100; 192000; 48000] in
  opens env d = true /\
  match GetDeviceDynamicCaps env baseSampleRates d with
  | Returns caps _ =>
      currentSampleRate caps = reported_rate env /\
      supportedSampleRates caps = filter (can_rate env) baseSampleRates /\
      supportedExclusiveSampleRates caps
      = filter (can_rate env) baseSampleRates /\
      match drv_getChannels env with
      | Gives channels =>
          channelNames caps
          = map (reported_name env false) (indices (Output channels)) /\
          inputSourceNames caps
          = map (fun i => (i, reported_name env true i))
                (indices (Input channels))
      | Raises _ => channelNames caps = [] /\ inputSourceNames caps = []
      end
  | Throws e _ => e = OutOfMemory
  | Aborts => raises (drv_destroy env) = true
  | Spins => False
  end.
Proof.
  intros env d baseSampleRates.
  assert (H1 : opens env d = true) by reflexivity.
  split; [exact H1|].
  exact (query_answers env baseSampleRates d H1).
Defined.

(** A driver with four outputs and two inputs that runs at up to 96 kHz and
    names its third output only. *)
Example query_of_a_driver_that_names_one_channel :
  let env :=
    mkEnv true false (Gives tt) (Gives tt) (Gives tt)
          (Gives "Sample ASIO"%string) (Gives 2) (Gives EmptyString)
          (Gives (mkChannels 2 4)) (fun _ => Gives tt)
          (Gives (Double.of_Z 48000)) (fun rate => Gives (rate <=? 96000))
          (Gives (mkBufferSizes 64 1024 256 (-1)))
          (fun infos _ => Gives infos) (Gives tt)
          (fun channel input =>
             if negb input && (channel =? 2)
             then Gives (mkChannelInfo true 0 Int16LSB "Main L"%string)
             else Raises AsioError)
          (Gives true) (Gives tt) (Gives (mkLatencies 0 0)) (Gives tt)
          (Gives tt) (Gives true) (fun _ => 0) (fun _ => 0) in
  match GetDeviceDynamicCaps env [44100; 192000; 48000]
                             (fresh (sample_settings 2 false)) with
  | Returns caps d' =>
      currentSampleRate caps = 48000 /\
      supportedSampleRates caps = [44100; 48000] /\
      channelNames caps
      = [Numbered 0; Numbered 1; Reported "Main L"; Numbered 3] /\
      inputSourceNames caps = [(0, Numbered 0); (1, Numbered 1)] /\
      m_Driver d' = false
  | _ => False
  end.
Proof. vm_compute. repeat split. Qed.

(** ** What a close releases *)




(** A close of a device that holds nothing. *)
Lemma close_of_closed (env : Env) (d : Device) :
  m_DeviceRunning d = false -> m_BuffersCreated d = false ->
  m_Driver d = false ->
  exists d', InternalClose env d = Returns true d' /\ journal d' = journal d.
Proof.
  intros Hr Hc Hd. unfold InternalClose, SetRenderSilence.
  unfold bind at 1. unfold gets at 1. rewrite Hr.
  unfold bind at 1. unfold ret at 1.
  do 11 (unfold bind at 1; unfold modify at 1).
  unfold bind at 1. unfold gets at 1.
  cbn [m_BuffersCreated set_m_ChannelInfo set_m_SampleInputBuffer
       set_m_SampleBuffer set_m_CanOutputReady set_m_RenderSilence].
  rewrite Hc.
  unfold bind at 1. unfold ret at 1.
  do 3 (unfold bind at 1; unfold modify at 1).
  unfold bind at 1. unfold CloseDriver, IsDriverOpen.
  unfold bind at 1. unfold gets at 1.
  cbn [m_Driver set_m_ChannelInfo set_m_SampleInputBuffer
       set_m_SampleBuffer set_m_CanOutputReady set_m_RenderSilence
       set_m_BufferInfo set_m_nAsioBufferLen set_m_BufferLatency].
  rewrite Hd. cbn [negb]. unfold ret.
  eexists. split; reflexivity.
Qed.

(** X22. Closing twice is closing once: after a close that returned, the
    next close returns true without a driver call and without a log
    line. *)
Theorem close_twice (env : Env) (d d' : Device) (b : bool) :
  InternalClose env d = Returns b d' ->
  exists d'',
    InternalClose env d' = Returns true d'' /\ journal d'' = journal d'.
Proof.
  intros H.
  pose proof (InternalClose_clears env d d' b H) as [Hd [Hr _]].
  pose proof (InternalClose_resets env d d' b H) as [_ [Hc _]].
  apply close_of_closed; assumption.
Qed.

Lemma close_twice_witness :
  let env := plain_env (fun _ => Int16LSB) in
  let d := playing env (sample_settings 2 false) false in
  let d' := match InternalClose env d with
            | Returns _ x => x
            | _ => d
            end in
  InternalClose env d = Returns true d' /\
  In (Called CallStop) (journal d') /\
  exists d'',
    InternalClose env d' = Returns true d'' /\ journal d'' = journal d'.
Proof.
  intros env d d'.
  assert (H : InternalClose env d = Returns true d')
    by (vm_compute; reflexivity).
  split; [exact H|]. split; [vm_compute; auto|].
  exact (close_twice env d d' true H).
Defined.
